(** * Scantron agent: a shallow embedding of [agent/agent.py]

    The agent polls a control plane for scan jobs, builds the command line of
    the scanner (masscan or nmap), spawns and supervises the child process,
    tracks it in the process-wide dictionary [SCAN_PROCESS_DICT], moves result
    files between the [pending], [complete] and [cancelled] directories and
    reports status with PATCH requests.

    Python strings are [string]; the dictionary of tracked processes is a
    [gmap Z Popen]; the file system is a finite map from path strings to file
    contents; exceptions are an explicit result type threaded through a small
    state-and-exception monad; the outside world (HTTP responses, process
    spawning, exit codes, the clock) is a record of oracles. *)

From Stdlib Require Import ZArith Ascii String List Bool Lia.
From stdpp Require Import base option list strings pretty gmap fin_maps.

Local Open Scope string_scope.
Local Open Scope list_scope.

(** ** Python string primitives used by the agent *)

Module PyStr.

(** [str.isspace] on one character (code points below 256). *)
Definition isspace (c : ascii) : bool :=
  let n := nat_of_ascii c in
  ((9 <=? n) && (n <=? 13) || (28 <=? n) && (n <=? 32)
   || (n =? 133) || (n =? 160))%nat.

Definition is_empty (s : string) : bool :=
  match s with EmptyString => true | String _ _ => false end.

(** Appending one character at the right end. *)
Definition snoc (s : string) (c : ascii) : string := s +:+ String c "".

(** [s.startswith(p)] *)
Definition startswith (s p : string) : bool := String.prefix p s.

Fixpoint lstrip (s : string) : string :=
  match s with
  | String c s' => if isspace c then lstrip s' else s
  | EmptyString => ""
  end.

Fixpoint rstrip (s : string) : string :=
  match s with
  | String c s' =>
      let r := rstrip s' in
      if isspace c && is_empty r then "" else String c r
  | EmptyString => ""
  end.

(** [s.strip()] *)
Definition strip (s : string) : string := rstrip (lstrip s).

(** [s.split(sep)] for a non-empty separator: pieces between the
    non-overlapping occurrences of [sep], scanned from the left.  [skip]
    counts the characters of a separator that are still to be passed. *)
Fixpoint split_go (sep : string) (skip : nat) (cur s : string) : list string :=
  match s with
  | EmptyString => [cur]
  | String c s' =>
      match skip with
      | S k => split_go sep k cur s'
      | O =>
          if String.prefix sep s
          then cur :: split_go sep (String.length sep - 1) "" s'
          else split_go sep 0 (snoc cur c) s'
      end
  end.

Definition split (s sep : string) : list string := split_go sep 0 "" s.

(** [s.split()]: the maximal runs of non-whitespace characters. *)
Fixpoint split_ws_go (cur s : string) : list string :=
  match s with
  | EmptyString => if is_empty cur then [] else [cur]
  | String c s' =>
      if isspace c
      then (if is_empty cur then split_ws_go "" s' else cur :: split_ws_go "" s')
      else split_ws_go (snoc cur c) s'
  end.

Definition split_ws (s : string) : list string := split_ws_go "" s.

(** What reading a file opened with [open(path, "r")] makes of its content:
    with universal newlines a carriage return followed by a line feed, and
    a carriage return alone, are both read as one line feed. *)
Fixpoint universal_newlines (s : string) : string :=
  match s with
  | EmptyString => ""
  | String c s' =>
      if Ascii.eqb c "013"%char then
        match s' with
        | String d s'' =>
            if Ascii.eqb d "010"%char
            then String "010"%char (universal_newlines s'')
            else String "010"%char (universal_newlines s')
        | EmptyString => String "010"%char ""
        end
      else String c (universal_newlines s')
  end.

(** [fh.readlines()] on the text that was read: a line ends at a line feed
    and keeps it; a last unterminated line is kept. *)
Fixpoint readlines_go (cur s : string) : list string :=
  match s with
  | EmptyString => if is_empty cur then [] else [cur]
  | String c s' =>
      if Ascii.eqb c "010"%char
      then snoc cur c :: readlines_go "" s'
      else readlines_go (snoc cur c) s'
  end.

Definition readlines (s : string) : list string := readlines_go "" s.

(** [x in xs] for a list of strings. *)
Definition mem (x : string) (xs : list string) : bool :=
  existsb (String.eqb x) xs.

End PyStr.

(** ** [os.path.join] (POSIX, two components) *)

Definition ends_with_slash (s : string) : bool :=
  match String.get (String.length s - 1) s with
  | Some c => Ascii.eqb c "/"%char
  | None => false
  end.

Definition dir_prefix (a : string) : string :=
  if PyStr.is_empty a || ends_with_slash a then a else a +:+ "/".

Definition os_path_join (a b : string) : string :=
  if PyStr.startswith b "/" then b else dir_prefix a +:+ b.

(** ** [fnmatch.fnmatch] (CPython, POSIX: [os.path.normcase] is the identity)

    [fnmatch.translate] turns a pattern into a regular expression that must
    match the whole name: [*] is any run of characters, [?] is any one
    character, [[seq]] is one character of [seq], [[!seq]] one character not
    in [seq]; a [[] without a closing []] is a literal.  Here the pattern is
    turned into a list of tokens that are then matched directly. *)

Module Fnmatch.

Inductive item :=
| IChar (c : ascii)
| IRange (lo hi : ascii).

Inductive tok :=
| TStar
| TAny
| TClass (negated : bool) (items : list item)
| TLit (c : ascii).

(** The characters up to the first []] and those after it. *)
Fixpoint until_close (l : list ascii) : option (list ascii * list ascii) :=
  match l with
  | [] => None
  | c :: l' =>
      if Ascii.eqb c "]"%char then Some ([], l')
      else match until_close l' with
           | Some (body, rest) => Some (c :: body, rest)
           | None => None
           end
  end.

(** The body of a bracket expression and what follows it: the scan for the
    closing bracket skips a leading [!] and then a leading []], as
    [translate] does with its index [j]. *)
Definition scan_class (l : list ascii) : option (list ascii * list ascii) :=
  let '(bang, l1) :=
    match l with
    | c :: l' => if Ascii.eqb c "!"%char then ([c], l') else ([], l)
    | [] => ([], l)
    end in
  let '(brk, l2) :=
    match l1 with
    | c :: l' => if Ascii.eqb c "]"%char then ([c], l') else ([], l1)
    | [] => ([], l1)
    end in
  match until_close l2 with
  | Some (body, rest) => Some ((bang ++ brk ++ body)%list, rest)
  | None => None
  end.

(** Items of a character class, read from the left: [a-b] is a range, any
    other character stands for itself. *)
Fixpoint class_items (l : list ascii) : list item :=
  match l with
  | [] => []
  | lo :: l1 =>
      match l1 with
      | dash :: hi :: l2 =>
          if Ascii.eqb dash "-"%char
          then IRange lo hi :: class_items l2
          else IChar lo :: class_items l1
      | _ => IChar lo :: class_items l1
      end
  end.

(** A leading [!] negates the class. *)
Definition make_class (body : list ascii) : tok :=
  match body with
  | c :: body' =>
      if Ascii.eqb c "!"%char then TClass true (class_items body')
      else TClass false (class_items body)
  | [] => TClass false []
  end.

(** [fnmatch.translate]: one token per pattern element.  Every step
    consumes at least one character, so the length of the pattern is
    enough fuel. *)
Fixpoint translate_go (fuel : nat) (l : list ascii) : list tok :=
  match fuel with
  | O => []
  | S fuel' =>
      match l with
      | [] => []
      | c :: l' =>
          if Ascii.eqb c "*"%char then TStar :: translate_go fuel' l'
          else if Ascii.eqb c "?"%char then TAny :: translate_go fuel' l'
          else if Ascii.eqb c "["%char then
            match scan_class l' with
            | Some (body, rest) => make_class body :: translate_go fuel' rest
            | None => TLit c :: translate_go fuel' l'
            end
          else TLit c :: translate_go fuel' l'
      end
  end.

Definition translate (pat : string) : list tok :=
  translate_go (String.length pat) (list_ascii_of_string pat).

Definition item_matches (c : ascii) (i : item) : bool :=
  match i with
  | IChar x => Ascii.eqb c x
  | IRange lo hi =>
      (nat_of_ascii lo <=? nat_of_ascii c)%nat
      && (nat_of_ascii c <=? nat_of_ascii hi)%nat
  end.

(** Whether a token other than [*] accepts the character [c]. *)
Definition tok_accepts (t : tok) (c : ascii) : bool :=
  match t with
  | TStar => false
  | TAny => true
  | TClass neg items => xorb neg (existsb (item_matches c) items)
  | TLit x => Ascii.eqb c x
  end.

Fixpoint match_toks (ts : list tok) (s : list ascii) : bool :=
  match ts with
  | [] => match s with [] => true | _ :: _ => false end
  | TStar :: ts' =>
      (fix star (s : list ascii) : bool :=
         match_toks ts' s
         || match s with [] => false | _ :: s' => star s' end) s
  | t :: ts' =>
      match s with
      | c :: s' => tok_accepts t c && match_toks ts' s'
      | [] => false
      end
  end.

(** [fnmatch.fnmatch(name, pat)] *)
Definition fnmatch (name pat : string) : bool :=
  match_toks (translate pat) (list_ascii_of_string name).

End Fnmatch.

(** ** The file system

    A finite map from the path strings the agent uses to file contents, as
    they are stored.  The directories named by the configuration exist and
    are writable (the agent never creates them), so opening a file for
    writing succeeds.  Entries are regular files: a directory is there only
    as the prefix of the paths of its files. *)

Abbreviation filesystem := (gmap string string).

(** [os.path.isfile] *)
Definition os_path_isfile (fs : filesystem) (p : string) : bool :=
  bool_decide (is_Some (fs !! p)).

(** [os.path.getsize] of an existing file. *)
Definition os_path_getsize (fs : filesystem) (p : string) : Z :=
  match fs !! p with
  | Some content => Z.of_nat (String.length content)
  | None => 0%Z
  end.

(** [open(p, "w").write(content)] *)
Definition write_file (p content : string) (fs : filesystem) : filesystem :=
  <[p := content]> fs.

Fixpoint has_slash (s : string) : bool :=
  match s with
  | EmptyString => false
  | String c s' => Ascii.eqb c "/"%char || has_slash s'
  end.

Fixpoint strip_prefix (p s : string) : option string :=
  match p with
  | EmptyString => Some s
  | String a p' =>
      match s with
      | String b s' => if Ascii.eqb a b then strip_prefix p' s' else None
      | EmptyString => None
      end
  end.

(** The name under which [path] is listed in directory [dir], if it lies
    directly in it. *)
Definition child_name (dir path : string) : option string :=
  match strip_prefix (dir_prefix dir) path with
  | Some n => if PyStr.is_empty n || has_slash n then None else Some n
  | None => None
  end.

(** [os.listdir(dir)] of a directory whose entries are regular files: the
    names of the files directly in it. *)
Definition os_listdir (fs : filesystem) (dir : string) : list string :=
  omap (fun kv => child_name dir kv.1) (map_to_list fs).

(** [shutil.move(src, dst)] to a file path: a rename, which replaces a file
    already at [dst]. *)
Definition shutil_move (src dst : string) (fs : filesystem) : filesystem :=
  match fs !! src with
  | Some content => <[dst := content]> (delete src fs)
  | None => fs
  end.

(** [move_wildcard_files(wildcard_filename, source_directory,
    destination_directory)] *)
Definition move_wildcard_files
    (wildcard_filename source_directory destination_directory : string)
    (fs : filesystem) : filesystem :=
  fold_left
    (fun fs file_name =>
       if Fnmatch.fnmatch file_name wildcard_filename
       then shutil_move (os_path_join source_directory file_name)
                        (os_path_join destination_directory file_name) fs
       else fs)
    (os_listdir fs source_directory) fs.

(** [build_masscan_command(scan_command, target_file, excluded_target_file,
    json_file, http_useragent)]; [excluded_target_file] is [None] or a
    string, and [if excluded_target_file:] tests its truth value: [None]
    and the empty string are both false. *)
Definition build_masscan_command
    (scan_command target_file : string) (excluded_target_file : option string)
    (json_file http_useragent : string) : string :=
  let file_options :=
    "-iL " +:+ target_file +:+ " -oJ " +:+ json_file
    +:+ " --http-user-agent " +:+ http_useragent in
  let file_options :=
    match excluded_target_file with
    | Some f =>
        if PyStr.is_empty f then file_options
        else file_options +:+ " --excludefile " +:+ f
    | None => file_options
    end in
  "masscan " +:+ scan_command +:+ " " +:+ file_options.

(** ** Data model *)

(** Python exceptions that can occur in the agent.  [OtherException] is an
    exception of any other class derived from [Exception], given by the
    name of its class: [ValueError], [TypeError], [UnicodeDecodeError],
    [RemoteDisconnected] and so on. *)
Inductive exn :=
| KeyError
| IndexError
| UnboundLocalError (name : string)
| HTTPError (code : Z)
| URLError
| JSONDecodeError
| OSError
| SystemExit (code : Z)
| OtherException (class_name : string).

(** [except Exception] catches everything but [SystemExit]. *)
Definition is_Exception (e : exn) : bool :=
  match e with SystemExit _ => false | _ => true end.

(** [except KeyError] *)
Definition is_KeyError (e : exn) : bool :=
  match e with KeyError => true | _ => false end.

Inductive result (A : Type) :=
| Val (a : A)
| Exn (e : exn).
Arguments Val {A} a.
Arguments Exn {A} e.

(** Values stored in the [update_info] dictionaries. *)
Inductive pyval :=
| VStr (s : string)
| VInt (z : Z).

(** A dictionary literal, in the order its keys are written. *)
Abbreviation pydict := (list (string * pyval)).

(** The [config_data] dictionary loaded from [agent_config.json]. *)
Record AgentConfig := {
  master_address : string;
  master_port : Z;
  scan_agent : string;
  api_token : string;
  http_useragent : string;
  scan_results_dir : string;
  target_files_dir : string;
  supported_scan_binaries : list string;
  log_verbosity : Z;
  number_of_threads : nat;
  callback_interval_in_seconds : Z
}.

(** A scan job as the control plane sends it.  [scan_binary_process_id] is
    [None] when the JSON value is null. *)
Record ScanJob := {
  id : Z;
  scan_status : string;
  site_name : string;
  scan_binary : string;
  scan_command : string;
  result_file_base_name : string;
  targets : string;
  excluded_targets : string;
  scan_binary_process_id : option Z
}.

(** A [subprocess.Popen] object: its argument vector and its PID. *)
Record Popen := {
  args : list string;
  pid : Z
}.

Inductive level := INFO | ERROR.

(** The log messages of the agent, one constructor per call site, with the
    values the message reports. *)
Inductive log_msg :=
| MsgCheckForScansURL (url : string)
| MsgCouldNotAccess (code : Z)
| MsgResponseContent (data : string)
| MsgCheckForScanJobsException (e : exn)
| MsgUpdateURL (url : string)
| MsgUpdated (scan_job_id : Z) (update_info : pydict)
| MsgUpdateFailed (scan_job_id : Z) (code : Z)
| MsgReceivedRequest (scan_status : string)
| MsgKilled (process_id : option Z)
| MsgIssueKilling (process_id : option Z)
| MsgNotRunning (process_id : option Z)
| MsgPausedConfFound (paused_file : string)
| MsgCheckingOutputFilename
| MsgOutputFilenameMatches (json_file : string)
| MsgOutputFilenameDiffers (json_file : string)
| MsgPreviousScanFile (gnmap_file : string)
| MsgInvalidScanBinary (scan_binary : string)
| MsgStartingScan (site_name : string) (process_id : Z) (command : string)
| MsgErrorWithScan (scan_job_id : Z) (e : exn)
| MsgFailedToStartScan (e : exn)
| MsgConfigMissing (config_file : string)
| MsgTrackedProcesses
| MsgScanJob (scan_job_id : Z)
| MsgNoScanJobs.

(** A [urllib.request.Request]; [data] is the dictionary that
    [json.dumps] serialises into the body. *)
Record Request := {
  method : string;
  url : string;
  headers : list (string * string);
  data : option pydict
}.

(** What the agent does to the outside world, in order. *)
Inductive event :=
| EvLog (l : level) (m : log_msg)
| EvRequest (r : Request)
| EvSpawn (argv : list string) (child : Z)
| EvKill (child : Z)
| EvWait (child : Z) (returncode : Z)
| EvSleep (seconds : Z).

(** What becomes of an HTTP exchange, from building the request to
    decoding the body: there is a response with its status and its decoded
    body, or [urlopen] raises [HTTPError] (an error status) or [URLError] (no
    connection), or some step raises another exception: [ValueError] for a
    URL that is not one, [RemoteDisconnected] for a connection closed
    early, [UnicodeDecodeError] for a body that is not UTF-8, and so on. *)
Inductive url_outcome :=
| UrlResponse (status : Z) (body : string)
| UrlHTTPError (code : Z)
| UrlURLError
| UrlOtherException (class_name : string).

(** What [json.loads] makes of the body of the job list: an array of job
    objects, or a value that a [for] loop cannot iterate over ([null],
    [true], [false] or a number), with its truth value.  Strings, objects
    and arrays of other values, whose elements are not job objects, are left
    out. *)
Inductive json_value :=
| JsonJobs (scan_jobs : list ScanJob)
| JsonScalar (truth : bool).

(** The outside world. *)
Record environment := {
  (** the outcome of the n-th HTTP request of the run *)
  urlopen : nat -> url_outcome;
  (** [json.loads] on the body of the job list; [None] when it raises *)
  json_loads_jobs : string -> option json_value;
  (** [json.loads] on the configuration file; [None] when it raises *)
  json_loads_config : string -> option AgentConfig;
  (** [subprocess.Popen(argv)]: the PID of the child, or [None] when the
      binary cannot be started *)
  popen : list string -> option Z;
  (** the exit code of a child and the files it leaves behind *)
  child_exit : Z -> filesystem -> Z * filesystem;
  (** [datetime.datetime.now().strftime("%Y-%m-%d %H:%M:%S")] *)
  now : string
}.

(** The state of the agent process and of what it acts upon. *)
Record world := {
  SCAN_PROCESS_DICT : gmap Z Popen;
  fs : filesystem;
  queue : list (ScanJob * AgentConfig);
  requests : nat;
  trace : list event
}.

Definition set_SCAN_PROCESS_DICT (d : gmap Z Popen) (w : world) : world :=
  {| SCAN_PROCESS_DICT := d; fs := fs w; queue := queue w;
     requests := requests w; trace := trace w |}.

Definition set_fs (f : filesystem) (w : world) : world :=
  {| SCAN_PROCESS_DICT := SCAN_PROCESS_DICT w; fs := f; queue := queue w;
     requests := requests w; trace := trace w |}.

Definition set_queue (q : list (ScanJob * AgentConfig)) (w : world) : world :=
  {| SCAN_PROCESS_DICT := SCAN_PROCESS_DICT w; fs := fs w; queue := q;
     requests := requests w; trace := trace w |}.

Definition emit (e : event) (w : world) : world :=
  {| SCAN_PROCESS_DICT := SCAN_PROCESS_DICT w; fs := fs w; queue := queue w;
     requests := requests w; trace := trace w ++ [e] |}.

Definition count_request (w : world) : world :=
  {| SCAN_PROCESS_DICT := SCAN_PROCESS_DICT w; fs := fs w; queue := queue w;
     requests := S (requests w); trace := trace w |}.

(** ** Computations: state passing with exceptions *)

Definition py (A : Type) : Type := world -> result A * world.

Definition py_ret {A} (a : A) : py A := fun w => (Val a, w).

Definition py_raise {A} (e : exn) : py A := fun w => (Exn e, w).

Definition py_bind {A B} (m : py A) (k : A -> py B) : py B :=
  fun w =>
    match m w with
    | (Val a, w') => k a w'
    | (Exn e, w') => (Exn e, w')
    end.

(** [try: body except <catches> as e: handler e] *)
Definition py_try {A} (body : py A) (catches : exn -> bool)
    (handler : exn -> py A) : py A :=
  fun w =>
    match body w with
    | (Val a, w') => (Val a, w')
    | (Exn e, w') => if catches e then handler e w' else (Exn e, w')
    end.

Declare Scope py_scope.
Delimit Scope py_scope with py.
Notation "x <- m ;; k" := (py_bind m (fun x => k))
  (at level 100, m at next level, right associativity) : py_scope.
Notation "m ;; k" := (py_bind m (fun _ => k))
  (at level 100, right associativity) : py_scope.
Local Open Scope py_scope.

Definition modify (f : world -> world) : py unit := fun w => (Val tt, f w).

Definition gets {A} (f : world -> A) : py A := fun w => (Val (f w), w).

(** [ROOT_LOGGER.info], [.error], [.exception] *)
Definition log (l : level) (m : log_msg) : py unit := modify (emit (EvLog l m)).

(** Reading a local variable that an earlier block may not have assigned. *)
Definition local (name : string) (v : option string) : py string :=
  match v with
  | Some x => py_ret x
  | None => py_raise (UnboundLocalError name)
  end.

(** [xs[i]] *)
Definition list_getitem {A} (xs : list A) (i : nat) : py A :=
  match xs !! i with
  | Some x => py_ret x
  | None => py_raise IndexError
  end.

(** [SCAN_PROCESS_DICT[key]] *)
Definition dict_getitem (key : option Z) : py Popen :=
  d <- gets SCAN_PROCESS_DICT ;;
  match key ≫= (d !!.) with
  | Some p => py_ret p
  | None => py_raise KeyError
  end.

(** [SCAN_PROCESS_DICT.pop(key)] *)
Definition dict_pop (key : option Z) : py Popen :=
  p <- dict_getitem key ;;
  modify (fun w =>
            match key with
            | Some k => set_SCAN_PROCESS_DICT (delete k (SCAN_PROCESS_DICT w)) w
            | None => w
            end) ;;
  py_ret p.

(** [SCAN_PROCESS_DICT[key] = process] *)
Definition dict_setitem (key : Z) (process : Popen) : py unit :=
  modify (fun w => set_SCAN_PROCESS_DICT (<[key := process]> (SCAN_PROCESS_DICT w)) w).


(** ** The agent *)

Section Agent.

Variable env : environment.

(** [str(n)] of an integer inside an f-string. *)
Definition str_of_int (n : Z) : string := pretty n.

(** [urllib.request.urlopen(request)] with what surrounds it in both of
    its callers: the request is built before it, and [response.status] and
    [response.read().decode("utf-8")] are taken after it.  The event is the
    request the agent sets out to make, whatever becomes of it. *)
Definition urllib_urlopen (r : Request) : py (Z * string) :=
  n <- gets requests ;;
  modify (fun w => count_request (emit (EvRequest r) w)) ;;
  match urlopen env n with
  | UrlResponse status body => py_ret (status, body)
  | UrlHTTPError code => py_raise (HTTPError code)
  | UrlURLError => py_raise URLError
  | UrlOtherException class_name => py_raise (OtherException class_name)
  end.

(** [json.loads(response_data)] in [check_for_scan_jobs] *)
Definition json_loads (response_data : string) : py json_value :=
  match json_loads_jobs env response_data with
  | Some json_data => py_ret json_data
  | None => py_raise JSONDecodeError
  end.

(** [get_current_time()] *)
Definition get_current_time : py string := py_ret (now env).

(** [check_for_scan_jobs()]; the result is the decoded body or Python's
    [None].  [agent] is the configuration of the running agent. *)
Definition check_for_scan_jobs (agent : AgentConfig) : py (option json_value) :=
  let master_address := master_address agent in
  let master_port := master_port agent in
  let scan_agent := scan_agent agent in
  let api_token := api_token agent in
  let url := master_address +:+ ":" +:+ str_of_int master_port
             +:+ "/api/scheduled_scans" in
  log INFO (MsgCheckForScansURL url) ;;
  let headers := [("user-agent", scan_agent);
                  ("Authorization", "Token " +:+ api_token)] in
  py_try
    (let request := {| method := "GET"; url := url; headers := headers;
                       data := None |} in
     response <- urllib_urlopen request ;;
     let response_code := response.1 in
     let response_data := response.2 in
     if (response_code =? 200)%Z then
       json_data <- json_loads response_data ;;
       py_ret (Some json_data)
     else
       log ERROR (MsgCouldNotAccess response_code) ;;
       log ERROR (MsgResponseContent response_data) ;;
       py_ret None)
    is_Exception
    (fun e =>
       log ERROR (MsgCheckForScanJobsException e) ;;
       py_ret None).

(** [update_scan_information(scan_job, update_info)] *)
Definition update_scan_information (agent : AgentConfig)
    (scan_job : ScanJob) (update_info : pydict) : py bool :=
  let master_address := master_address agent in
  let master_port := master_port agent in
  let scan_agent := scan_agent agent in
  let api_token := api_token agent in
  let scan_job_id := id scan_job in
  let url := master_address +:+ ":" +:+ str_of_int master_port
             +:+ "/api/scheduled_scans/" +:+ str_of_int scan_job_id in
  log INFO (MsgUpdateURL url) ;;
  let headers := [("user-agent", scan_agent);
                  ("Authorization", "Token " +:+ api_token);
                  ("Content-Type", "application/json")] in
  let request := {| method := "PATCH"; url := url; headers := headers;
                    data := Some update_info |} in
  response <- urllib_urlopen request ;;
  let response_code := response.1 in
  let response_data := response.2 in
  if (response_code =? 200)%Z then
    log INFO (MsgUpdated scan_job_id update_info) ;;
    py_ret true
  else
    log ERROR (MsgUpdateFailed scan_job_id response_code) ;;
    log ERROR (MsgResponseContent response_data) ;;
    py_ret false.

(** The loop of [scan_site] over the lines of [paused.conf]: the value of
    the last line that starts with [output-filename]. *)
Fixpoint paused_file_output_filename (acc : option string)
    (paused_file_lines : list string) : py (option string) :=
  match paused_file_lines with
  | [] => py_ret acc
  | line :: rest =>
      if PyStr.startswith line "output-filename" then
        v <- list_getitem (PyStr.split line " = ") 1 ;;
        paused_file_output_filename (Some (PyStr.strip v)) rest
      else paused_file_output_filename acc rest
  end.

(** [a == b] where [a] may be [None] and [b] is a string. *)
Definition opt_str_eqb (a : option string) (b : string) : bool :=
  match a with
  | Some x => String.eqb x b
  | None => false
  end.

(** The branch [scan_binary == "masscan"] of [scan_site]: the command. *)
Definition masscan_command (scan_command result_file_base_name target_file : string)
    (excluded_target_file : option string)
    (pending_files_dir http_useragent : string) : py string :=
  let json_file := os_path_join pending_files_dir (result_file_base_name +:+ ".json") in
  files <- gets fs ;;
  match files !! "paused.conf" with
  | Some content =>
      let paused_file := PyStr.universal_newlines content in
      let paused_file_lines := PyStr.readlines paused_file in
      log INFO (MsgPausedConfFound paused_file) ;;
      output_filename <- paused_file_output_filename None paused_file_lines ;;
      log INFO MsgCheckingOutputFilename ;;
      if opt_str_eqb output_filename json_file then
        log INFO (MsgOutputFilenameMatches json_file) ;;
        py_ret "masscan --resume paused.conf"
      else
        log INFO (MsgOutputFilenameDiffers json_file) ;;
        py_ret (build_masscan_command scan_command target_file
                  excluded_target_file json_file http_useragent)
  | None =>
      py_ret (build_masscan_command scan_command target_file
                excluded_target_file json_file http_useragent)
  end.

(** The branch [scan_binary == "nmap"] of [scan_site]: the command. *)
Definition nmap_command (scan_command result_file_base_name target_file : string)
    (excluded_target_file : option string)
    (pending_files_dir http_useragent : string) : py string :=
  let gnmap_file := os_path_join pending_files_dir (result_file_base_name +:+ ".gnmap") in
  files <- gets fs ;;
  if os_path_isfile files gnmap_file && (0 <? os_path_getsize files gnmap_file)%Z then
    log INFO (MsgPreviousScanFile gnmap_file) ;;
    py_ret ("nmap --resume " +:+ gnmap_file)
  else
    let nmap_results := os_path_join pending_files_dir result_file_base_name in
    let file_options :=
      "-iL " +:+ target_file +:+ " -oA " +:+ nmap_results
      +:+ " --script-args http.useragent='" +:+ http_useragent +:+ "'" in
    let file_options :=
      match excluded_target_file with
      | Some f => file_options +:+ " --excludefile " +:+ f
      | None => file_options
      end in
    py_ret ("nmap " +:+ scan_command +:+ " " +:+ file_options).

(** The choice of the command in [scan_site]; [None] is the branch that
    logs the invalid scan binary and returns. *)
Definition scan_site_command (scan_job : ScanJob) (target_file : string)
    (excluded_target_file : option string)
    (pending_files_dir http_useragent : string) : py (option string) :=
  let scan_binary := scan_binary scan_job in
  let scan_command := scan_command scan_job in
  let result_file_base_name := result_file_base_name scan_job in
  if String.eqb scan_binary "masscan" then
    command <- masscan_command scan_command result_file_base_name target_file
                 excluded_target_file pending_files_dir http_useragent ;;
    py_ret (Some command)
  else if String.eqb scan_binary "nmap" then
    command <- nmap_command scan_command result_file_base_name target_file
                 excluded_target_file pending_files_dir http_useragent ;;
    py_ret (Some command)
  else
    log ERROR (MsgInvalidScanBinary scan_binary) ;;
    py_ret None.

(** [subprocess.Popen(argv)] *)
Definition subprocess_Popen (argv : list string) : py Popen :=
  match popen env argv with
  | Some child =>
      modify (emit (EvSpawn argv child)) ;;
      py_ret {| args := argv; pid := child |}
  | None => py_raise OSError
  end.

(** [process.kill()] *)
Definition process_kill (process : Popen) : py unit :=
  modify (emit (EvKill (pid process))).

(** [process.communicate()]: the child was started without pipes, so both
    streams are [None]. *)
Definition process_communicate (process : Popen) : py (option string * option string) :=
  py_ret (None, None).

(** [process.wait()] followed by [process.returncode] *)
Definition process_wait (process : Popen) : py Z :=
  files <- gets fs ;;
  let '(returncode, files') := child_exit env (pid process) files in
  modify (fun w => emit (EvWait (pid process) returncode) (set_fs files' w)) ;;
  py_ret returncode.

(** [not x] for an optional string. *)
Definition py_not (x : option string) : bool :=
  match x with
  | Some s => PyStr.is_empty s
  | None => true
  end.

(** The [try] block of the pause/cancel request in [scan_site]; the result
    is the local variable [updated_scan_status] as the block leaves it. *)
Definition scan_site_kill (scan_job : ScanJob) (config_data : AgentConfig)
    (pending_files_dir cancelled_files_dir : string) : py (option string) :=
  let scan_status := scan_status scan_job in
  let result_file_base_name := result_file_base_name scan_job in
  let scan_binary_process_id := scan_binary_process_id scan_job in
  process <- dict_getitem scan_binary_process_id ;;
  args0 <- list_getitem (args process) 0 ;;
  if PyStr.mem args0 (supported_scan_binaries config_data) then
    process_kill process ;;
    out <- process_communicate process ;;
    (if py_not out.1 && py_not out.2
     then log INFO (MsgKilled scan_binary_process_id)
     else log ERROR (MsgIssueKilling scan_binary_process_id)) ;;
    dict_pop scan_binary_process_id ;;
    if String.eqb scan_status "cancel" then
      modify (fun w =>
                set_fs (move_wildcard_files (result_file_base_name +:+ "*")
                          pending_files_dir cancelled_files_dir (fs w)) w) ;;
      py_ret (Some "cancelled")
    else if String.eqb scan_status "pause" then
      py_ret (Some "paused")
    else py_ret None
  else py_ret None.

(** The part of [scan_site] that writes the targets and, when there are
    any, the excluded targets; the result is [excluded_target_file]. *)
Definition write_target_files (scan_job : ScanJob)
    (target_files_dir target_file : string) : py (option string) :=
  let result_file_base_name := result_file_base_name scan_job in
  let targets := targets scan_job in
  modify (fun w => set_fs (write_file target_file targets (fs w)) w) ;;
  let excluded_targets := excluded_targets scan_job in
  if negb (PyStr.is_empty excluded_targets) then
    let excluded_target_file :=
      os_path_join target_files_dir (result_file_base_name +:+ ".excluded_targets") in
    modify (fun w => set_fs (write_file excluded_target_file excluded_targets (fs w)) w) ;;
    py_ret (Some excluded_target_file)
  else py_ret None.

(** The part of [scan_site] from the spawn of the child to the end. *)
Definition supervise (scan_job : ScanJob) (config_data : AgentConfig)
    (command pending_files_dir completed_files_dir : string) : py unit :=
  let site_name := site_name scan_job in
  let result_file_base_name := result_file_base_name scan_job in
  process <- subprocess_Popen (PyStr.split_ws command) ;;
  let scan_binary_process_id := pid process in
  dict_setitem scan_binary_process_id process ;;
  log INFO (MsgStartingScan site_name scan_binary_process_id command) ;;
  let update_info := [("scan_status", VStr "started");
                      ("scan_binary_process_id", VInt scan_binary_process_id)] in
  update_scan_information config_data scan_job update_info ;;
  returncode <- process_wait process ;;
  if (returncode =? 0)%Z then
    modify (fun w =>
              set_fs (move_wildcard_files (result_file_base_name +:+ "*")
                        pending_files_dir completed_files_dir (fs w)) w) ;;
    now_datetime <- get_current_time ;;
    let update_info := [("completed_time", VStr now_datetime);
                        ("scan_status", VStr "completed");
                        ("result_file_base_name", VStr result_file_base_name)] in
    update_scan_information config_data scan_job update_info ;;
    dict_pop (Some scan_binary_process_id) ;;
    py_ret tt
  else py_ret tt.

(** The part of [scan_site] between the pause/cancel request and the
    spawn: the target files are written and the command is chosen. *)
Definition scan_site_prepare (scan_job : ScanJob) (config_data : AgentConfig) : py (option string) :=
  let result_file_base_name := result_file_base_name scan_job in
  let http_useragent := http_useragent config_data in
  let scan_results_dir := scan_results_dir config_data in
  let target_files_dir := target_files_dir config_data in
  let target_file := os_path_join target_files_dir (result_file_base_name +:+ ".targets") in
  let pending_files_dir := os_path_join scan_results_dir "pending" in
  excluded_target_file <- write_target_files scan_job target_files_dir target_file ;;
  scan_site_command scan_job target_file excluded_target_file
    pending_files_dir http_useragent.

(** The body of the [try] statement of [scan_site]. *)
Definition scan_site_body (scan_job : ScanJob) (config_data : AgentConfig) : py unit :=
  let scan_status := scan_status scan_job in
  let scan_results_dir := scan_results_dir config_data in
  let pending_files_dir := os_path_join scan_results_dir "pending" in
  let completed_files_dir := os_path_join scan_results_dir "complete" in
  let cancelled_files_dir := os_path_join scan_results_dir "cancelled" in
  if PyStr.mem scan_status ["pause"; "cancel"] then
    log INFO (MsgReceivedRequest scan_status) ;;
    let scan_binary_process_id := scan_binary_process_id scan_job in
    updated_scan_status <-
      py_try
        (scan_site_kill scan_job config_data pending_files_dir cancelled_files_dir)
        is_KeyError
        (fun _ =>
           log ERROR (MsgNotRunning scan_binary_process_id) ;;
           py_ret None) ;;
    status <- local "updated_scan_status" updated_scan_status ;;
    let update_info := [("scan_status", VStr status)] in
    update_scan_information config_data scan_job update_info ;;
    py_ret tt
  else
    chosen <- scan_site_prepare scan_job config_data ;;
    match chosen with
    | None => py_ret tt
    | Some command =>
        supervise scan_job config_data command pending_files_dir completed_files_dir
    end.

(** [scan_site(scan_job_dict)] *)
Definition scan_site (scan_job : ScanJob) (config_data : AgentConfig) : py unit :=
  py_try (scan_site_body scan_job config_data)
    is_Exception
    (fun e =>
       log ERROR (MsgErrorWithScan (id scan_job) e) ;;
       let update_info := [("scan_status", VStr "error")] in
       update_scan_information config_data scan_job update_info ;;
       py_ret tt).

(** One turn of the loop of [Worker.run], on a job taken off the queue. *)
Definition Worker_run (scan_job_dict : ScanJob * AgentConfig) : py unit :=
  py_try (scan_site scan_job_dict.1 scan_job_dict.2)
    is_Exception
    (fun e => log ERROR (MsgFailedToStartScan e)).

(** [Agent.load_config(config_file)] *)
Definition load_config (config_file : string) : py AgentConfig :=
  files <- gets fs ;;
  match files !! config_file with
  | Some content =>
      match json_loads_config env content with
      | Some json_data => py_ret json_data
      | None => py_raise JSONDecodeError
      end
  | None =>
      log ERROR (MsgConfigMissing config_file) ;;
      py_raise (SystemExit 0)
  end.

(** The exit status of the interpreter when the program ends with [r]:
    [sys.exit(n)] gives [n], any other uncaught exception gives 1. *)
Definition exit_status {A} (r : result A) : Z :=
  match r with
  | Val _ => 0
  | Exn (SystemExit code) => code
  | Exn _ => 1
  end.

(** [time.sleep(secs)]: a negative length raises [ValueError]. *)
Definition time_sleep (secs : Z) : py unit :=
  if (secs <? 0)%Z then py_raise (OtherException "ValueError")
  else modify (emit (EvSleep secs)).

(** The body of the [for] loop of [Agent.go], once for every job of the
    poll; [queue.Queue()] has no bound, so [put] does not wait. *)
Fixpoint enqueue_scan_jobs (config_data : AgentConfig) (scan_jobs : list ScanJob) : py unit :=
  match scan_jobs with
  | [] => py_ret tt
  | scan_job :: rest =>
      log INFO (MsgScanJob (id scan_job)) ;;
      modify (fun w => set_queue (queue w ++ [(scan_job, config_data)]) w) ;;
      time_sleep 5 ;;
      enqueue_scan_jobs config_data rest
  end.

(** [if scan_jobs:] on what [check_for_scan_jobs] returned: [None], an
    empty array and a false scalar are false. *)
Definition scan_jobs_bool (scan_jobs : option json_value) : bool :=
  match scan_jobs with
  | Some (JsonJobs []) => false
  | Some (JsonJobs (_ :: _)) => true
  | Some (JsonScalar truth) => truth
  | None => false
  end.

(** One turn of the [while True] loop of [Agent.go]; [for scan_job in
    scan_jobs] raises [TypeError] on a value that is not iterable.  The
    loop catches [KeyboardInterrupt] only, so whatever a turn raises ends
    [Agent.go]. *)
Definition go_poll (config_data : AgentConfig) : py unit :=
  log INFO MsgTrackedProcesses ;;
  scan_jobs <- check_for_scan_jobs config_data ;;
  if scan_jobs_bool scan_jobs then
    match scan_jobs with
    | Some (JsonJobs scan_jobs) => enqueue_scan_jobs config_data scan_jobs
    | _ => py_raise (OtherException "TypeError")
    end
  else
    log INFO MsgNoScanJobs ;;
    time_sleep (callback_interval_in_seconds config_data).

End Agent.

(** ** Observations on a run *)

(** The dictionary sent by a PATCH request. *)
Definition status_update (e : event) : option pydict :=
  match e with
  | EvRequest r => if String.eqb (method r) "PATCH" then data r else None
  | _ => None
  end.

(** The status updates posted to the control plane, in order. *)
Definition status_updates (t : list event) : list pydict := omap status_update t.

(** The argument vectors of the processes started. *)
Definition spawned (t : list event) : list (list string) :=
  omap (fun e => match e with EvSpawn argv _ => Some argv | _ => None end) t.

(** The PIDs of the processes killed. *)
Definition killed (t : list event) : list Z :=
  omap (fun e => match e with EvKill child => Some child | _ => None end) t.

(** Whether an error was logged. *)
Definition logs_error (t : list event) : bool :=
  existsb (fun e => match e with EvLog ERROR _ => true | _ => false end) t.

(** The events of a run that starts in [w] and ends in [w']. *)
Definition new_events (w w' : world) : list event :=
  drop (length (trace w)) (trace w').

(** What a poll brings back: the decoded body of a 200 response whose
    body decodes, Python's [None] otherwise. *)
Definition fetched (env : environment) (w : world) : option json_value :=
  match urlopen env (requests w) with
  | UrlResponse status body =>
      if (status =? 200)%Z then json_loads_jobs env body else None
  | UrlHTTPError _ | UrlURLError | UrlOtherException _ => None
  end.

(** The agent after [n] more HTTP requests and the events [l]. *)
Definition extend (l : list event) (n : nat) (w : world) : world :=
  {| SCAN_PROCESS_DICT := SCAN_PROCESS_DICT w; fs := fs w; queue := queue w;
     requests := n + requests w; trace := trace w ++ l |}.

(** The PATCH request of [update_scan_information]. *)
Definition patch_request (agent : AgentConfig) (scan_job : ScanJob)
    (update_info : pydict) : Request :=
  {| method := "PATCH";
     url := master_address agent +:+ ":" +:+ str_of_int (master_port agent)
            +:+ "/api/scheduled_scans/" +:+ str_of_int (id scan_job);
     headers := [("user-agent", scan_agent agent);
                 ("Authorization", "Token " +:+ api_token agent);
                 ("Content-Type", "application/json")];
     data := Some update_info |}.

(** What [update_scan_information] logs once the request is answered. *)
Definition update_outcome_events (scan_job : ScanJob) (update_info : pydict)
    (o : url_outcome) : list event :=
  match o with
  | UrlResponse status body =>
      if (status =? 200)%Z
      then [EvLog INFO (MsgUpdated (id scan_job) update_info)]
      else [EvLog ERROR (MsgUpdateFailed (id scan_job) status);
            EvLog ERROR (MsgResponseContent body)]
  | UrlHTTPError _ | UrlURLError | UrlOtherException _ => []
  end.

(** The events of one call of [update_scan_information]. *)
Definition update_events (agent : AgentConfig) (scan_job : ScanJob)
    (update_info : pydict) (o : url_outcome) : list event :=
  [EvLog INFO (MsgUpdateURL (url (patch_request agent scan_job update_info)));
   EvRequest (patch_request agent scan_job update_info)]
  ++ update_outcome_events scan_job update_info o.

(** What a call of [update_scan_information] gives back to its caller. *)
Definition update_result (o : url_outcome) : result bool :=
  match o with
  | UrlResponse status _ => Val (status =? 200)%Z
  | UrlHTTPError code => Exn (HTTPError code)
  | UrlURLError => Exn URLError
  | UrlOtherException class_name => Exn (OtherException class_name)
  end.

(** Whether an event is a log record. *)
Definition is_log (e : event) : bool :=
  match e with EvLog _ _ => true | _ => false end.

(** ** The checkpoint file of masscan

    masscan writes [paused.conf] as lines [key = value]. *)

(** The value of a line [output-filename = value], if the line is one. *)
Definition output_filename_of_line (line : string) : option string :=
  if PyStr.startswith line "output-filename"
  then Some (PyStr.strip (default "" (PyStr.split line " = " !! 1%nat)))
  else None.

(** The lines of a file as the agent reads them. *)
Definition conf_lines (content : string) : list string :=
  PyStr.readlines (PyStr.universal_newlines content).

(** Every line that begins with [output-filename] has a value after the
    separator [" = "]. *)
Definition conf_well_formed (content : string) : Prop :=
  Forall (fun line =>
            PyStr.startswith line "output-filename" = true ->
            is_Some (PyStr.split line " = " !! 1%nat))
    (conf_lines content).

(** Some line begins with [output-filename] and has no separator [" = "]
    in it. *)
Definition conf_malformed (content : string) : Prop :=
  Exists (fun line =>
            PyStr.startswith line "output-filename" = true
            /\ PyStr.split line " = " !! 1%nat = None)
    (conf_lines content).

(** The [output-filename] of a checkpoint file: the value of its last
    [output-filename] line. *)
Definition conf_output_filename (content : string) : option string :=
  last (omap output_filename_of_line (conf_lines content)).

(** Whether the checkpoint on disk is the one of the scan that writes
    [json_file]. *)
Definition checkpoint_matches (files : filesystem) (json_file : string) : Prop :=
  exists content,
    files !! "paused.conf" = Some content
    /\ conf_output_filename content = Some json_file.

(** ** The command lines as the specification gives them *)

(** [masscan <scan_command> -iL <targets_file> -oJ <pending>/<stem>.json
    --http-user-agent <ua> [--excludefile <excl_file>]]; there is an
    exclude file when one is given and its name is not empty. *)
Definition masscan_fresh_command (scan_command target_file : string)
    (excluded_target_file : option string)
    (pending_files_dir result_file_base_name http_useragent : string) : string :=
  "masscan " +:+ scan_command +:+ " -iL " +:+ target_file
  +:+ " -oJ " +:+ os_path_join pending_files_dir (result_file_base_name +:+ ".json")
  +:+ " --http-user-agent " +:+ http_useragent
  +:+ match excluded_target_file with
      | Some (String c f) => " --excludefile " +:+ String c f
      | _ => ""
      end.

(** [nmap <scan_command> -iL <targets_file> -oA <pending>/<stem>
    --script-args http.useragent='<ua>' [--excludefile <excl_file>]] *)
Definition nmap_fresh_command (scan_command target_file : string)
    (excluded_target_file : option string)
    (pending_files_dir result_file_base_name http_useragent : string) : string :=
  "nmap " +:+ scan_command +:+ " -iL " +:+ target_file
  +:+ " -oA " +:+ os_path_join pending_files_dir result_file_base_name
  +:+ " --script-args http.useragent='" +:+ http_useragent +:+ "'"
  +:+ match excluded_target_file with
      | Some f => " --excludefile " +:+ f
      | None => ""
      end.

(** Whether the checkpoint of an nmap scan exists and is not empty. *)
Definition gnmap_checkpoint (files : filesystem) (gnmap_file : string) : Prop :=
  exists content, files !! gnmap_file = Some content /\ content <> "".

(** ** Matching with the wildcards [*] and [?] only

    The matching that the docstring of [move_wildcard_files] names: [*] is
    any run of characters, [?] is any one character, every other character
    of the pattern, brackets included, stands for itself. *)
Fixpoint wildcard_match (pat name : list ascii) : bool :=
  match pat with
  | [] => match name with [] => true | _ :: _ => false end
  | c :: pat' =>
      if Ascii.eqb c "*"%char then
        (fix star (name : list ascii) : bool :=
           wildcard_match pat' name
           || match name with [] => false | _ :: name' => star name' end) name
      else
        match name with
        | d :: name' =>
            (Ascii.eqb c "?"%char || Ascii.eqb d c) && wildcard_match pat' name'
        | [] => false
        end
  end.

(** ** Concrete configurations, jobs and environments *)

Module Scenario.

Definition cfg : AgentConfig :=
  {| master_address := "https://master"; master_port := 443;
     scan_agent := "a1"; api_token := "tok"; http_useragent := "ua";
     scan_results_dir := "/r"; target_files_dir := "/t";
     supported_scan_binaries := ["masscan"; "nmap"]; log_verbosity := 4;
     number_of_threads := 2; callback_interval_in_seconds := 30 |}.

(** A configuration that supports the port scanner only. *)
Definition cfg_masscan_only : AgentConfig :=
  {| master_address := "https://master"; master_port := 443;
     scan_agent := "a1"; api_token := "tok"; http_useragent := "ua";
     scan_results_dir := "/r"; target_files_dir := "/t";
     supported_scan_binaries := ["masscan"]; log_verbosity := 4;
     number_of_threads := 2; callback_interval_in_seconds := 30 |}.

Definition job7 : ScanJob :=
  {| id := 7; scan_status := "pending"; site_name := "site";
     scan_binary := "masscan"; scan_command := "-p80 --rate 1000";
     result_file_base_name := "job7"; targets := "10.0.0.0/24";
     excluded_targets := ""; scan_binary_process_id := None |}.

Definition job9 : ScanJob :=
  {| id := 9; scan_status := "pending"; site_name := "site";
     scan_binary := "nmap"; scan_command := "-sV";
     result_file_base_name := "job9"; targets := "10.0.0.0/24";
     excluded_targets := "10.0.0.1"; scan_binary_process_id := None |}.

Definition zmap_job : ScanJob :=
  {| id := 5; scan_status := "pending"; site_name := "site";
     scan_binary := "zmap"; scan_command := "-p80";
     result_file_base_name := "job5"; targets := "10.0.0.0/24";
     excluded_targets := ""; scan_binary_process_id := None |}.

Definition pause8 : ScanJob :=
  {| id := 8; scan_status := "pause"; site_name := "site";
     scan_binary := "nmap"; scan_command := "-sV";
     result_file_base_name := "job8"; targets := "10.0.0.0/24";
     excluded_targets := ""; scan_binary_process_id := Some 4242%Z |}.

(** The control plane answers 200 to everything; children get PID 4242 and
    end with exit code 0. *)
Definition env_ok : environment :=
  {| urlopen := fun _ => UrlResponse 200 "[]";
     json_loads_jobs := fun _ => Some (JsonJobs []);
     json_loads_config := fun _ => None;
     popen := fun _ => Some 4242%Z;
     child_exit := fun _ files => (0%Z, files);
     now := "2020-01-01 00:00:00" |}.

(** As [env_ok], but the child leaves a result file and ends with exit
    code 1. *)
Definition env_exit1 : environment :=
  {| urlopen := fun _ => UrlResponse 200 "[]";
     json_loads_jobs := fun _ => Some (JsonJobs []);
     json_loads_config := fun _ => None;
     popen := fun _ => Some 4242%Z;
     child_exit := fun _ files => (1%Z, <["/r/pending/job7.json" := "partial"]> files);
     now := "2020-01-01 00:00:00" |}.

(** The control plane cannot be reached. *)
Definition env_down : environment :=
  {| urlopen := fun _ => UrlURLError;
     json_loads_jobs := fun _ => Some (JsonJobs []);
     json_loads_config := fun _ => None;
     popen := fun _ => Some 4242%Z;
     child_exit := fun _ files => (0%Z, files);
     now := "2020-01-01 00:00:00" |}.

(** The control plane answers every request with status 500. *)
Definition env_500 : environment :=
  {| urlopen := fun _ => UrlHTTPError 500;
     json_loads_jobs := fun _ => Some (JsonJobs []);
     json_loads_config := fun _ => None;
     popen := fun _ => Some 4242%Z;
     child_exit := fun _ files => (0%Z, files);
     now := "2020-01-01 00:00:00" |}.

(** A fresh agent: nothing tracked, no files, nothing done yet. *)
Definition w0 : world :=
  {| SCAN_PROCESS_DICT := ∅; fs := ∅; queue := []; requests := 0; trace := [] |}.

(** An agent that tracks an nmap child with PID 4242. *)
Definition w_nmap_running : world :=
  {| SCAN_PROCESS_DICT := {[ 4242%Z := {| args := ["nmap"; "-sV"]; pid := 4242 |} ]};
     fs := ∅; queue := []; requests := 0; trace := [] |}.

(** The first request is answered with 200, every later one with 500. *)
Definition env_second_500 : environment :=
  {| urlopen := fun n => match n with
                         | O => UrlResponse 200 "[]"
                         | S _ => UrlHTTPError 500
                         end;
     json_loads_jobs := fun _ => Some (JsonJobs []);
     json_loads_config := fun _ => None;
     popen := fun _ => Some 4242%Z;
     child_exit := fun _ files => (0%Z, files);
     now := "2020-01-01 00:00:00" |}.

(** As [env_ok], and the child leaves its result in [pending]. *)
Definition env_leaves_json : environment :=
  {| urlopen := fun _ => UrlResponse 200 "[]";
     json_loads_jobs := fun _ => Some (JsonJobs []);
     json_loads_config := fun _ => None;
     popen := fun _ => Some 4242%Z;
     child_exit := fun _ files => (0%Z, <["/r/pending/job7.json" := "found"]> files);
     now := "2020-01-01 00:00:00" |}.

(** The scanner binaries are not installed. *)
Definition env_no_spawn : environment :=
  {| urlopen := fun _ => UrlResponse 200 "[]";
     json_loads_jobs := fun _ => Some (JsonJobs []);
     json_loads_config := fun _ => None;
     popen := fun _ => None;
     child_exit := fun _ files => (0%Z, files);
     now := "2020-01-01 00:00:00" |}.

(** The control plane sends jobs 7 and 9. *)
Definition env_two_jobs : environment :=
  {| urlopen := fun _ => UrlResponse 200 "[job7, job9]";
     json_loads_jobs := fun _ => Some (JsonJobs [job7; job9]);
     json_loads_config := fun _ => None;
     popen := fun _ => Some 4242%Z;
     child_exit := fun _ files => (0%Z, files);
     now := "2020-01-01 00:00:00" |}.

(** A cancel directive for the child with PID 4242 of job 8. *)
Definition cancel8 : ScanJob :=
  {| id := 8; scan_status := "cancel"; site_name := "site";
     scan_binary := "nmap"; scan_command := "-sV";
     result_file_base_name := "job8"; targets := "10.0.0.0/24";
     excluded_targets := ""; scan_binary_process_id := Some 4242%Z |}.

(** Job 8 sent again as a new scan. *)
Definition job8_again : ScanJob :=
  {| id := 8; scan_status := "pending"; site_name := "site";
     scan_binary := "nmap"; scan_command := "-sV";
     result_file_base_name := "job8"; targets := "10.0.0.0/24";
     excluded_targets := ""; scan_binary_process_id := None |}.

(** An agent that tracks the nmap child 4242 of job 8, whose result files
    are in [pending]. *)
Definition w_job8_running : world :=
  {| SCAN_PROCESS_DICT := {[ 4242%Z := {| args := ["nmap"; "-sV"]; pid := 4242 |} ]};
     fs := list_to_map [("/r/pending/job8.gnmap", "# Nmap"); ("/r/pending/job8.xml", "<x/>")];
     queue := []; requests := 0; trace := [] |}.

(** An agent that tracks another scan, with PID 777. *)
Definition w_other_running : world :=
  {| SCAN_PROCESS_DICT := {[ 777%Z := {| args := ["masscan"; "-p443"]; pid := 777 |} ]};
     fs := ∅; queue := []; requests := 0; trace := [] |}.

(** A line feed. *)
Definition nl : string := String "010"%char "".

(** An agent in whose directory masscan left the checkpoint of job 7. *)
Definition w_paused7 : world :=
  {| SCAN_PROCESS_DICT := ∅;
     fs := {[ "paused.conf" :=
                "seed = 7" +:+ nl +:+ "output-format = json" +:+ nl
                +:+ "output-filename = /r/pending/job7.json" +:+ nl
                +:+ "rate = 1000" +:+ nl ]};
     queue := []; requests := 0; trace := [] |}.

(** An agent with the checkpoint of the nmap scan of job 9 in [pending]. *)
Definition w_gnmap9 : world :=
  {| SCAN_PROCESS_DICT := ∅;
     fs := {[ "/r/pending/job9.gnmap" := "# Nmap 7.80 scan initiated" ]};
     queue := []; requests := 0; trace := [] |}.

(** A [pending] directory with the results of two jobs, [job7] and
    [job[7]], and an older result of [job7] in [complete]. *)
Definition results : filesystem :=
  list_to_map [("/r/pending/job7.json", "seven");
               ("/r/pending/job[7].json", "bracket");
               ("/r/complete/job7.json", "old")].

(** The same results, next to the targets file of job 7. *)
Definition results_and_targets : filesystem :=
  list_to_map [("/r/pending/job7.json", "seven");
               ("/r/pending/job[7].json", "bracket");
               ("/r/complete/job7.json", "old");
               ("/t/job7.targets", "10.0.0.0/24")].

(** A carriage return. *)
Definition cr : string := String "013"%char "".

(** An agent with a [paused.conf] whose first line begins with
    [output-filename] and has no value, and whose second line names the
    JSON file of job 7. *)
Definition w_paused7_no_value : world :=
  {| SCAN_PROCESS_DICT := ∅;
     fs := {[ "paused.conf" :=
                "output-filename" +:+ nl
                +:+ "output-filename = /r/pending/job7.json" +:+ nl ]};
     queue := []; requests := 0; trace := [] |}.

(** An agent with the checkpoint of job 7 in a [paused.conf] whose lines
    end with a carriage return alone. *)
Definition w_paused7_cr : world :=
  {| SCAN_PROCESS_DICT := ∅;
     fs := {[ "paused.conf" :=
                "output-filename = /r/pending/job7.json" +:+ cr
                +:+ "output-format = json" +:+ cr ]};
     queue := []; requests := 0; trace := [] |}.

(** A configuration with a negative poll interval. *)
Definition cfg_negative_interval : AgentConfig :=
  {| master_address := "https://master"; master_port := 443;
     scan_agent := "a1"; api_token := "tok"; http_useragent := "ua";
     scan_results_dir := "/r"; target_files_dir := "/t";
     supported_scan_binaries := ["masscan"; "nmap"]; log_verbosity := 4;
     number_of_threads := 2; callback_interval_in_seconds := -1 |}.

(** The control plane answers 200 with the body [true]. *)
Definition env_body_true : environment :=
  {| urlopen := fun _ => UrlResponse 200 "true";
     json_loads_jobs := fun _ => Some (JsonScalar true);
     json_loads_config := fun _ => None;
     popen := fun _ => Some 4242%Z;
     child_exit := fun _ files => (0%Z, files);
     now := "2020-01-01 00:00:00" |}.

(** The connection is closed before the control plane answers. *)
Definition env_disconnects : environment :=
  {| urlopen := fun _ => UrlOtherException "RemoteDisconnected";
     json_loads_jobs := fun _ => Some (JsonJobs []);
     json_loads_config := fun _ => None;
     popen := fun _ => Some 4242%Z;
     child_exit := fun _ files => (0%Z, files);
     now := "2020-01-01 00:00:00" |}.

End Scenario.

(** ** Names, stems and words *)

(** A name as [os.listdir] gives it: not empty and without a slash. *)
Definition is_file_name (n : string) : bool :=
  negb (PyStr.is_empty n) && negb (has_slash n).

(** A string without the characters that [fnmatch] reads as wildcards. *)
Definition is_plain (s : string) : bool :=
  forallb (fun c => negb (Ascii.eqb c "*"%char || Ascii.eqb c "?"%char
                          || Ascii.eqb c "["%char))
    (list_ascii_of_string s).

(** A string that [str.split()] leaves in one piece: not empty and without
    whitespace. *)
Definition is_word (s : string) : bool :=
  negb (PyStr.is_empty s)
  && forallb (fun c => negb (PyStr.isspace c)) (list_ascii_of_string s).

(** One turn of the loop of [move_wildcard_files]. *)
Definition move_if_match (wildcard_filename source_directory destination_directory : string)
    (files : filesystem) (file_name : string) : filesystem :=
  if Fnmatch.fnmatch file_name wildcard_filename
  then shutil_move (os_path_join source_directory file_name)
         (os_path_join destination_directory file_name) files
  else files.

(** No path of [files] lies below a sub-directory of [dir]: what [dir]
    holds are regular files only. *)
Definition no_subdirectories (files : filesystem) (dir : string) : Prop :=
  forall path n,
    is_Some (files !! path) ->
    strip_prefix (dir_prefix dir) path = Some n ->
    has_slash n = false.

(** ** Workers and polling *)

(** A computation that, when it raises, raises something that
    [except Exception] catches. *)
Definition only_Exception {A} (m : py A) : Prop :=
  forall w e w', m w = (Exn e, w') -> is_Exception e = true.

(** The lengths of the calls of [time.sleep], in order. *)
Definition sleeps (t : list event) : list Z :=
  omap (fun e => match e with EvSleep seconds => Some seconds | _ => None end) t.

(** A computation that changes [SCAN_PROCESS_DICT] at most at the PIDs in
    [own]. *)
Definition keeps_other_pids (own : Z -> Prop) {A} (m : py A) : Prop :=
  forall w r w' k,
    m w = (r, w') -> ~ own k ->
    SCAN_PROCESS_DICT w' !! k = SCAN_PROCESS_DICT w !! k.

(** The PIDs that a call of [scan_site] for [job] may touch: the one the
    directive names and those that [subprocess.Popen] hands out. *)
Definition own_pid (env : environment) (job : ScanJob) (k : Z) : Prop :=
  scan_binary_process_id job = Some k \/ exists argv, popen env argv = Some k.

(** * Properties *)

(** ** The monad *)

Lemma py_bind_val {A B} (m : py A) (k : A -> py B) w a w' :
  m w = (Val a, w') -> py_bind m k w = k a w'.
Proof. intros H. unfold py_bind. rewrite H. reflexivity. Qed.

Lemma py_bind_exn {A B} (m : py A) (k : A -> py B) w e w' :
  m w = (Exn e, w') -> py_bind m k w = (Exn e, w').
Proof. intros H. unfold py_bind. rewrite H. reflexivity. Qed.

Lemma py_try_val {A} (m : py A) catches handler w a w' :
  m w = (Val a, w') -> py_try m catches handler w = (Val a, w').
Proof. intros H. unfold py_try. rewrite H. reflexivity. Qed.

Lemma py_try_caught {A} (m : py A) catches handler w e w' :
  m w = (Exn e, w') -> catches e = true ->
  py_try m catches handler w = handler e w'.
Proof. intros H Hc. unfold py_try. rewrite H, Hc. reflexivity. Qed.

Lemma py_try_passed {A} (m : py A) catches handler w e w' :
  m w = (Exn e, w') -> catches e = false ->
  py_try m catches handler w = (Exn e, w').
Proof. intros H Hc. unfold py_try. rewrite H, Hc. reflexivity. Qed.

Lemma log_run l m w : log l m w = (Val tt, extend [EvLog l m] 0 w).
Proof. reflexivity. Qed.

Lemma extend_extend l1 n1 l2 n2 w :
  extend l2 n2 (extend l1 n1 w) = extend (l1 ++ l2) (n2 + n1) w.
Proof.
  unfold extend. cbn. f_equal; [lia | apply eq_sym, app_assoc].
Qed.

Lemma extend_nil w : extend [] 0 w = w.
Proof. destruct w. unfold extend. cbn. by rewrite app_nil_r. Qed.

Lemma new_events_extend l n w : new_events w (extend l n w) = l.
Proof. unfold new_events, extend. cbn. apply drop_app_length. Qed.

(** ** The control-plane client *)

Lemma update_scan_information_run env agent scan_job update_info w :
  update_scan_information env agent scan_job update_info w
  = (update_result (urlopen env (requests w)),
     extend (update_events agent scan_job update_info (urlopen env (requests w))) 1 w).
Proof.
  unfold update_scan_information, urllib_urlopen, py_bind, log, modify, gets,
    update_events, update_result, update_outcome_events, extend.
  destruct w as [d f q n t]. cbn.
  destruct (urlopen env n) as [status body|code| |class_name]; cbn;
    [destruct (status =? 200)%Z; cbn|..];
    unfold py_ret, py_raise, emit, count_request; cbn;
    rewrite <- ?app_assoc; reflexivity.
Qed.

Lemma status_updates_update_events agent scan_job update_info o :
  status_updates (update_events agent scan_job update_info o) = [update_info].
Proof.
  destruct o as [status body|code| |class_name]; cbn; [destruct (status =? 200)%Z|..]; reflexivity.
Qed.

Lemma killed_update_events agent scan_job update_info o :
  killed (update_events agent scan_job update_info o) = [].
Proof.
  destruct o as [status body|code| |class_name]; cbn; [destruct (status =? 200)%Z|..]; reflexivity.
Qed.

Lemma spawned_update_events agent scan_job update_info o :
  spawned (update_events agent scan_job update_info o) = [].
Proof.
  destruct o as [status body|code| |class_name]; cbn; [destruct (status =? 200)%Z|..]; reflexivity.
Qed.

Lemma status_updates_app l1 l2 :
  status_updates (l1 ++ l2) = status_updates l1 ++ status_updates l2.
Proof. apply omap_app. Qed.

Lemma killed_app l1 l2 : killed (l1 ++ l2) = killed l1 ++ killed l2.
Proof. apply omap_app. Qed.

Lemma spawned_app l1 l2 : spawned (l1 ++ l2) = spawned l1 ++ spawned l2.
Proof. apply omap_app. Qed.

(** ** The pause/cancel path of [scan_site] *)

Lemma scan_site_kill_absent job cfg pending cancelled w :
  scan_binary_process_id job ≫= (SCAN_PROCESS_DICT w !!.) = None ->
  scan_site_kill job cfg pending cancelled w = (Exn KeyError, w).
Proof.
  intros H. unfold scan_site_kill, dict_getitem, py_bind, gets. cbn.
  rewrite H. reflexivity.
Qed.

Lemma scan_site_kill_unsupported job cfg pending cancelled w p a :
  scan_binary_process_id job ≫= (SCAN_PROCESS_DICT w !!.) = Some p ->
  args p !! 0%nat = Some a ->
  PyStr.mem a (supported_scan_binaries cfg) = false ->
  scan_site_kill job cfg pending cancelled w = (Val None, w).
Proof.
  intros Hp Ha Hs. unfold scan_site_kill, dict_getitem, list_getitem, py_bind, gets.
  cbn. rewrite Hp. cbn. rewrite Ha. cbn. rewrite Hs. reflexivity.
Qed.

Lemma error_handler_run env cfg job e w :
  (log ERROR (MsgErrorWithScan (id job) e) ;;
   update_scan_information env cfg job [("scan_status", VStr "error")] ;;
   py_ret tt)%py w
  = (match update_result (urlopen env (requests w)) with
     | Val _ => Val tt
     | Exn x => Exn x
     end,
     extend ([EvLog ERROR (MsgErrorWithScan (id job) e)]
             ++ update_events cfg job [("scan_status", VStr "error")]
                  (urlopen env (requests w))) 1 w).
Proof.
  rewrite (py_bind_val _ _ _ _ _ (log_run _ _ _)).
  unfold py_bind at 1. rewrite update_scan_information_run.
  rewrite extend_extend. cbn [requests extend Nat.add].
  destruct (update_result _); reflexivity.
Qed.

Lemma scan_site_absent_run env job cfg w :
  PyStr.mem (scan_status job) ["pause"; "cancel"] = true ->
  scan_binary_process_id job ≫= (SCAN_PROCESS_DICT w !!.) = None ->
  scan_site env job cfg w
  = (match update_result (urlopen env (requests w)) with
     | Val _ => Val tt
     | Exn x => Exn x
     end,
     extend ([EvLog INFO (MsgReceivedRequest (scan_status job));
              EvLog ERROR (MsgNotRunning (scan_binary_process_id job));
              EvLog ERROR (MsgErrorWithScan (id job)
                             (UnboundLocalError "updated_scan_status"))]
             ++ update_events cfg job [("scan_status", VStr "error")]
                  (urlopen env (requests w))) 1 w).
Proof.
  intros Hdir Hp.
  assert (Hbody : scan_site_body env job cfg w
                  = (Exn (UnboundLocalError "updated_scan_status"),
                     extend [EvLog INFO (MsgReceivedRequest (scan_status job));
                             EvLog ERROR (MsgNotRunning (scan_binary_process_id job))] 0 w)).
  { unfold scan_site_body. rewrite Hdir.
    rewrite (py_bind_val _ _ _ _ _ (log_run _ _ _)).
    erewrite py_bind_val.
    2:{ erewrite py_try_caught; [| apply scan_site_kill_absent; exact Hp | reflexivity].
        rewrite (py_bind_val _ _ _ _ _ (log_run _ _ _)). reflexivity. }
    rewrite extend_extend. reflexivity. }
  unfold scan_site. rewrite (py_try_caught _ _ _ _ _ _ Hbody eq_refl).
  rewrite error_handler_run, extend_extend. reflexivity.
Qed.

Lemma scan_site_unsupported_run env job cfg w p a :
  PyStr.mem (scan_status job) ["pause"; "cancel"] = true ->
  scan_binary_process_id job ≫= (SCAN_PROCESS_DICT w !!.) = Some p ->
  args p !! 0%nat = Some a ->
  PyStr.mem a (supported_scan_binaries cfg) = false ->
  scan_site env job cfg w
  = (match update_result (urlopen env (requests w)) with
     | Val _ => Val tt
     | Exn x => Exn x
     end,
     extend ([EvLog INFO (MsgReceivedRequest (scan_status job));
              EvLog ERROR (MsgErrorWithScan (id job)
                             (UnboundLocalError "updated_scan_status"))]
             ++ update_events cfg job [("scan_status", VStr "error")]
                  (urlopen env (requests w))) 1 w).
Proof.
  intros Hdir Hp Ha Hs.
  assert (Hbody : scan_site_body env job cfg w
                  = (Exn (UnboundLocalError "updated_scan_status"),
                     extend [EvLog INFO (MsgReceivedRequest (scan_status job))] 0 w)).
  { unfold scan_site_body. rewrite Hdir.
    rewrite (py_bind_val _ _ _ _ _ (log_run _ _ _)).
    erewrite py_bind_val.
    2:{ erewrite py_try_val; [reflexivity|].
        eapply scan_site_kill_unsupported; eauto. }
    reflexivity. }
  unfold scan_site. rewrite (py_try_caught _ _ _ _ _ _ Hbody eq_refl).
  rewrite error_handler_run, extend_extend. reflexivity.
Qed.

(** C10: a pause or cancel directive whose PID is in the registry but whose
    process has an [argv[0]] outside [supported_scan_binaries] kills nothing
    and leaves the registry and the files as they were; the variable
    [updated_scan_status] is never assigned on that path, so reading it raises
    [UnboundLocalError], which the handler of [scan_site] logs, and the only
    status update posted is [scan_status = error]. *)
Theorem directive_unsupported_argv0 env job cfg w p a :
  PyStr.mem (scan_status job) ["pause"; "cancel"] = true ->
  scan_binary_process_id job ≫= (SCAN_PROCESS_DICT w !!.) = Some p ->
  args p !! 0%nat = Some a ->
  PyStr.mem a (supported_scan_binaries cfg) = false ->
  let w' := (scan_site env job cfg w).2 in
  killed (new_events w w') = []
  /\ SCAN_PROCESS_DICT w' = SCAN_PROCESS_DICT w
  /\ fs w' = fs w
  /\ In (EvLog ERROR (MsgErrorWithScan (id job) (UnboundLocalError "updated_scan_status")))
        (new_events w w')
  /\ status_updates (new_events w w') = [[("scan_status", VStr "error")]].
Proof.
  intros Hdir Hp Ha Hs w'. subst w'.
  rewrite (scan_site_unsupported_run env job cfg w p a Hdir Hp Ha Hs).
  cbn [snd]. rewrite new_events_extend.
  repeat split.
  - rewrite killed_app, killed_update_events. reflexivity.
  - apply in_or_app. left. right. left. reflexivity.
  - rewrite status_updates_app, status_updates_update_events. reflexivity.
Qed.

Lemma directive_unsupported_argv0_witness :
  let w' := (scan_site Scenario.env_ok Scenario.pause8 Scenario.cfg_masscan_only
               Scenario.w_nmap_running).2 in
  killed (new_events Scenario.w_nmap_running w') = []
  /\ SCAN_PROCESS_DICT w' = SCAN_PROCESS_DICT Scenario.w_nmap_running
  /\ fs w' = fs Scenario.w_nmap_running
  /\ In (EvLog ERROR (MsgErrorWithScan (id Scenario.pause8)
                        (UnboundLocalError "updated_scan_status")))
        (new_events Scenario.w_nmap_running w')
  /\ status_updates (new_events Scenario.w_nmap_running w')
     = [[("scan_status", VStr "error")]].
Proof.
  apply (directive_unsupported_argv0 Scenario.env_ok Scenario.pause8
           Scenario.cfg_masscan_only Scenario.w_nmap_running
           {| args := ["nmap"; "-sV"]; pid := 4242 |} "nmap");
    vm_compute; reflexivity.
Defined.

(** C2: at a pause directive for PID 4242 with an empty registry the agent
    logs that the process is not running and then, because
    [updated_scan_status] was never assigned, ends in the handler of
    [scan_site], which posts the status update [scan_status = error]. *)
Theorem pause_unknown_pid_posts_error :
  scan_binary_process_id Scenario.pause8 ≫= (SCAN_PROCESS_DICT Scenario.w0 !!.) = None
  /\ new_events Scenario.w0
       (scan_site Scenario.env_ok Scenario.pause8 Scenario.cfg Scenario.w0).2
     = [EvLog INFO (MsgReceivedRequest "pause");
        EvLog ERROR (MsgNotRunning (Some 4242%Z));
        EvLog ERROR (MsgErrorWithScan 8 (UnboundLocalError "updated_scan_status"));
        EvLog INFO (MsgUpdateURL "https://master:443/api/scheduled_scans/8");
        EvRequest (patch_request Scenario.cfg Scenario.pause8
                     [("scan_status", VStr "error")]);
        EvLog INFO (MsgUpdated 8 [("scan_status", VStr "error")])]
  /\ status_updates
       (new_events Scenario.w0
          (scan_site Scenario.env_ok Scenario.pause8 Scenario.cfg Scenario.w0).2)
     = [[("scan_status", VStr "error")]].
Proof. repeat split; vm_compute; reflexivity. Qed.

(** ** Jobs that start a scan *)

Lemma write_target_files_run job target_files_dir target_file w :
  exists excluded_target_file files,
    write_target_files job target_files_dir target_file w
    = (Val excluded_target_file, set_fs files w).
Proof.
  unfold write_target_files, py_bind, modify. cbn.
  destruct (negb (PyStr.is_empty (excluded_targets job))); cbn;
    eexists _, _; destruct w; reflexivity.
Qed.

Lemma scan_site_command_invalid job target_file excluded pending ua w :
  scan_binary job <> "masscan" ->
  scan_binary job <> "nmap" ->
  scan_site_command job target_file excluded pending ua w
  = (Val None, extend [EvLog ERROR (MsgInvalidScanBinary (scan_binary job))] 0 w).
Proof.
  intros H1 H2. unfold scan_site_command.
  apply String.eqb_neq in H1, H2. rewrite H1, H2. reflexivity.
Qed.

(** C1 (amended): a job that is not a pause or cancel directive and whose
    [scan_binary] is neither [masscan] nor [nmap] makes [scan_site] log the
    invalid scan binary and return: no status update is posted, no process
    is started and the registry is unchanged. *)
Theorem scan_site_invalid_scan_binary env job cfg w :
  PyStr.mem (scan_status job) ["pause"; "cancel"] = false ->
  scan_binary job <> "masscan" ->
  scan_binary job <> "nmap" ->
  let out := scan_site env job cfg w in
  out.1 = Val tt
  /\ new_events w out.2 = [EvLog ERROR (MsgInvalidScanBinary (scan_binary job))]
  /\ status_updates (new_events w out.2) = []
  /\ spawned (new_events w out.2) = []
  /\ SCAN_PROCESS_DICT out.2 = SCAN_PROCESS_DICT w.
Proof.
  intros Hdir H1 H2 out.
  destruct (write_target_files_run job (target_files_dir cfg)
              (os_path_join (target_files_dir cfg) (result_file_base_name job +:+ ".targets")) w)
    as (excluded & files & Hw).
  assert (Hrun : out = (Val tt, extend [EvLog ERROR (MsgInvalidScanBinary (scan_binary job))] 0
                                  (set_fs files w))).
  { assert (Hprep : scan_site_prepare job cfg w
                     = (Val None,
                        extend [EvLog ERROR (MsgInvalidScanBinary (scan_binary job))] 0
                          (set_fs files w))).
    { unfold scan_site_prepare. rewrite (py_bind_val _ _ _ _ _ Hw).
      apply scan_site_command_invalid; assumption. }
    subst out. unfold scan_site. erewrite py_try_val; [reflexivity|].
    unfold scan_site_body. rewrite Hdir.
    rewrite (py_bind_val _ _ _ _ _ Hprep). reflexivity. }
  rewrite Hrun. cbn [fst snd].
  assert (Hev : new_events w (extend [EvLog ERROR (MsgInvalidScanBinary (scan_binary job))] 0
                                (set_fs files w))
                = [EvLog ERROR (MsgInvalidScanBinary (scan_binary job))]).
  { unfold new_events. cbn. apply drop_app_length. }
  rewrite Hev. repeat split.
Qed.

Lemma scan_site_invalid_scan_binary_witness :
  let out := scan_site Scenario.env_ok Scenario.zmap_job Scenario.cfg Scenario.w0 in
  out.1 = Val tt
  /\ new_events Scenario.w0 out.2 = [EvLog ERROR (MsgInvalidScanBinary "zmap")]
  /\ status_updates (new_events Scenario.w0 out.2) = []
  /\ spawned (new_events Scenario.w0 out.2) = []
  /\ SCAN_PROCESS_DICT out.2 = SCAN_PROCESS_DICT Scenario.w0.
Proof.
  apply (scan_site_invalid_scan_binary Scenario.env_ok Scenario.zmap_job
           Scenario.cfg Scenario.w0); [reflexivity | discriminate | discriminate].
Defined.

(** Counterexample to C1 as stated: the job [zmap_job] is not a directive and its
    binary [zmap] is not in [supported_scan_binaries], yet [scan_site] posts
    no status update at all, so none with [scan_status = error]. *)
Lemma unsupported_binary_posts_nothing :
  PyStr.mem (scan_status Scenario.zmap_job) ["pause"; "cancel"] = false
  /\ PyStr.mem (scan_binary Scenario.zmap_job)
       (supported_scan_binaries Scenario.cfg) = false
  /\ ~ In [("scan_status", VStr "error")]
         (status_updates
            (new_events Scenario.w0
               (scan_site Scenario.env_ok Scenario.zmap_job Scenario.cfg Scenario.w0).2)).
Proof.
  split; [reflexivity|]. split; [reflexivity|].
  vm_compute. intros [].
Qed.

(** ** Polling *)

Lemma enqueue_scan_jobs_returns cfg jobs w :
  (enqueue_scan_jobs cfg jobs w).1 = Val tt.
Proof.
  revert w. induction jobs as [|job rest IH]; intros w; [reflexivity|].
  cbn [enqueue_scan_jobs]. unfold py_bind, log, modify, time_sleep. cbn. apply IH.
Qed.

Lemma check_for_scan_jobs_returns env agent w :
  (check_for_scan_jobs env agent w).1 = Val (fetched env w).
Proof.
  unfold check_for_scan_jobs, fetched, py_try, py_bind, urllib_urlopen, json_loads,
    log, modify, gets. cbn.
  destruct (urlopen env (requests w)) as [status body|code| |class_name]; cbn; try reflexivity.
  destruct (status =? 200)%Z; cbn; [|reflexivity].
  destruct (json_loads_jobs env body); reflexivity.
Qed.

(** C5: [check_for_scan_jobs] returns the decoded job list when the response
    has status 200; on any other status, on an HTTP error, on a transport
    error, on any other exception of the exchange, and when the body does
    not decode, it logs an error and returns Python's [None]; in every case
    it returns normally, so an invocation raises nothing into the poll
    loop. *)
Theorem check_for_scan_jobs_never_raises env agent w :
  let out := check_for_scan_jobs env agent w in
  match urlopen env (requests w) with
  | UrlResponse status body =>
      if (status =? 200)%Z then
        match json_loads_jobs env body with
        | Some json_data => out.1 = Val (Some json_data)
        | None => out.1 = Val None /\ logs_error (new_events w out.2) = true
        end
      else out.1 = Val None /\ logs_error (new_events w out.2) = true
  | UrlHTTPError _ | UrlURLError | UrlOtherException _ =>
      out.1 = Val None /\ logs_error (new_events w out.2) = true
  end.
Proof.
  intros out. subst out.
  unfold check_for_scan_jobs, py_try, py_bind, urllib_urlopen, json_loads,
    log, modify, gets, new_events. cbn.
  destruct (urlopen env (requests w)) as [status body|code| |class_name]; cbn.
  - destruct (status =? 200)%Z; cbn.
    + destruct (json_loads_jobs env body); cbn; [reflexivity|].
      split; [reflexivity|].
      rewrite <- !app_assoc, drop_app_length. reflexivity.
    + split; [reflexivity|].
      rewrite <- !app_assoc, drop_app_length. reflexivity.
  - split; [reflexivity|].
    rewrite <- !app_assoc, drop_app_length. reflexivity.
  - split; [reflexivity|].
    rewrite <- !app_assoc, drop_app_length. reflexivity.
  - split; [reflexivity|].
    rewrite <- !app_assoc, drop_app_length. reflexivity.
Qed.

Lemma update_scan_information_returns_200 env agent scan_job update_info w status body :
  urlopen env (requests w) = UrlResponse status body ->
  (update_scan_information env agent scan_job update_info w).1
  = Val (bool_decide (status = 200%Z)).
Proof.
  intros H. rewrite update_scan_information_run, H. cbn.
  f_equal. destruct (Z.eqb_spec status 200) as [Heq|Hne].
  - by rewrite bool_decide_true.
  - by rewrite bool_decide_false.
Qed.

(** C4: when the control plane cannot be reached, or answers with an error
    status, [update_scan_information] raises into its caller instead of
    returning a boolean; in [scan_site] the failed [started] update sends
    the supervisor to its handler, whose own update raises again: the child
    has been started and registered but is never waited for. *)
Theorem update_scan_information_raises :
  (update_scan_information Scenario.env_down Scenario.cfg Scenario.job7
     [("scan_status", VStr "started")] Scenario.w0).1 = Exn URLError
  /\ (update_scan_information Scenario.env_500 Scenario.cfg Scenario.job7
        [("scan_status", VStr "started")] Scenario.w0).1 = Exn (HTTPError 500)
  /\ let out := scan_site Scenario.env_down Scenario.job7 Scenario.cfg Scenario.w0 in
     out.1 = Exn URLError
     /\ spawned (trace out.2)
        = [["masscan"; "-p80"; "--rate"; "1000"; "-iL"; "/t/job7.targets";
            "-oJ"; "/r/pending/job7.json"; "--http-user-agent"; "ua"]]
     /\ (forall returncode, ~ In (EvWait 4242 returncode) (trace out.2))
     /\ is_Some (SCAN_PROCESS_DICT out.2 !! 4242%Z).
Proof.
  split; [reflexivity|]. split; [reflexivity|].
  split; [vm_compute; reflexivity|].
  split; [vm_compute; reflexivity|].
  split.
  - intros rc. vm_compute. intros H.
    repeat (destruct H as [H|H]; [discriminate H|]). exact H.
  - vm_compute. eexists. reflexivity.
Qed.

(** ** Start-up *)

Lemma load_config_no_file env config_file w :
  fs w !! config_file = None ->
  load_config env config_file w
  = (Exn (SystemExit 0), extend [EvLog ERROR (MsgConfigMissing config_file)] 0 w).
Proof.
  intros H. unfold load_config, py_bind, gets. cbn. rewrite H. reflexivity.
Qed.

Lemma load_config_malformed env config_file w content :
  fs w !! config_file = Some content ->
  json_loads_config env content = None ->
  exit_status (load_config env config_file w).1 = 1%Z.
Proof.
  intros H Hj. unfold load_config, py_bind, gets. cbn. rewrite H, Hj. reflexivity.
Qed.

(** C6: with no file [agent_config.json], [Agent.load_config] logs an error
    and calls [sys.exit(0)]: the agent stops with exit status 0. *)
Theorem load_config_missing_exit_status :
  fs Scenario.w0 !! "agent_config.json" = None
  /\ (load_config Scenario.env_ok "agent_config.json" Scenario.w0).1 = Exn (SystemExit 0)
  /\ logs_error (trace (load_config Scenario.env_ok "agent_config.json" Scenario.w0).2) = true
  /\ exit_status (load_config Scenario.env_ok "agent_config.json" Scenario.w0).1 = 0%Z.
Proof. repeat split. Qed.

(** ** The choice of the command *)

Lemma paused_file_output_filename_run acc lines w :
  Forall (fun line =>
            PyStr.startswith line "output-filename" = true ->
            is_Some (PyStr.split line " = " !! 1%nat)) lines ->
  paused_file_output_filename acc lines w
  = (Val (match last (omap output_filename_of_line lines) with
          | Some v => Some v
          | None => acc
          end), w).
Proof.
  intros Hwf. revert acc. induction Hwf as [|line rest Hline _ IH]; intros acc.
  - reflexivity.
  - cbn [paused_file_output_filename omap list_omap]. unfold output_filename_of_line at 1.
    destruct (PyStr.startswith line "output-filename") eqn:Hs.
    + destruct (Hline eq_refl) as [v Hv].
      unfold list_getitem, py_bind. rewrite Hv. cbn [py_ret default].
      rewrite IH. rewrite last_cons.
      destruct (last (omap output_filename_of_line rest)); reflexivity.
    + apply IH.
Qed.

Lemma paused_file_output_filename_world acc lines w :
  (paused_file_output_filename acc lines w).2 = w.
Proof.
  revert acc. induction lines as [|line rest IH]; intros acc; [reflexivity|].
  cbn [paused_file_output_filename].
  destruct (PyStr.startswith line "output-filename"); [|apply IH].
  unfold list_getitem, py_bind.
  destruct (PyStr.split line " = " !! 1%nat); cbn; [apply IH | reflexivity].
Qed.

Lemma paused_file_output_filename_raises acc lines w :
  Exists (fun line =>
            PyStr.startswith line "output-filename" = true
            /\ PyStr.split line " = " !! 1%nat = None) lines ->
  paused_file_output_filename acc lines w = (Exn IndexError, w).
Proof.
  intros Hbad. revert acc.
  induction Hbad as [line rest [Hs Hnone]|line rest _ IH]; intros acc;
    cbn [paused_file_output_filename].
  - rewrite Hs. unfold list_getitem, py_bind. rewrite Hnone. reflexivity.
  - destruct (PyStr.startswith line "output-filename"); [|apply IH].
    unfold list_getitem, py_bind.
    destruct (PyStr.split line " = " !! 1%nat); cbn; [apply IH | reflexivity].
Qed.

(** A file is in masscan's format or it is not. *)
Lemma conf_well_formed_or_malformed content :
  conf_well_formed content \/ conf_malformed content.
Proof.
  unfold conf_well_formed, conf_malformed.
  induction (conf_lines content) as [|line rest IH]; [left; constructor|].
  destruct IH as [IH|IH]; [|right; by apply Exists_cons_tl].
  destruct (PyStr.startswith line "output-filename") eqn:Hs.
  - destruct (PyStr.split line " = " !! 1%nat) as [v|] eqn:Hv.
    + left. constructor; [|exact IH]. intros _. rewrite Hv. eauto.
    + right. apply Exists_cons_hd. split; assumption.
  - left. constructor; [|exact IH]. intros H. rewrite Hs in H. discriminate H.
Qed.

Lemma conf_malformed_not_well_formed content :
  conf_malformed content -> ~ conf_well_formed content.
Proof.
  unfold conf_well_formed, conf_malformed. intros Hbad Hwf.
  induction Hbad as [line rest [Hs Hnone]|line rest _ IH].
  - apply Forall_cons in Hwf as [Hline _]. destruct (Hline Hs) as [v Hv].
    rewrite Hnone in Hv. discriminate Hv.
  - apply Forall_cons in Hwf as [_ Hwf]. by apply IH.
Qed.

Lemma only_logs_observations l :
  forallb is_log l = true ->
  status_updates l = [] /\ spawned l = [] /\ killed l = [].
Proof.
  induction l as [|e l IH]; [done|].
  cbn [forallb]. intros [He Hl]%andb_true_iff.
  destruct (IH Hl) as (H1 & H2 & H3).
  destruct e; try discriminate He. repeat split; assumption.
Qed.

Lemma masscan_command_logs scan_command stem target_file excluded pending ua w :
  exists l,
    (masscan_command scan_command stem target_file excluded pending ua w).2 = extend l 0 w
    /\ forallb is_log l = true.
Proof.
  unfold masscan_command, py_bind at 1, gets. cbn [fst snd].
  destruct (fs w !! "paused.conf") as [content|].
  - cbn zeta. rewrite (py_bind_val _ _ _ _ _ (log_run _ _ _)).
    unfold py_bind at 1.
    pose proof (paused_file_output_filename_world None (conf_lines content)
                  (extend [EvLog INFO (MsgPausedConfFound
                                         (PyStr.universal_newlines content))] 0 w)) as Hw.
    unfold conf_lines in Hw.
    destruct (paused_file_output_filename _ _ _) as [[v|e] w1]; cbn in Hw; subst w1.
    + rewrite (py_bind_val _ _ _ _ _ (log_run _ _ _)).
      destruct (opt_str_eqb v _);
        rewrite (py_bind_val _ _ _ _ _ (log_run _ _ _)); cbn [py_ret snd];
        rewrite !extend_extend; eexists; split; reflexivity.
    + eexists; split; reflexivity.
  - exists []. rewrite extend_nil. split; reflexivity.
Qed.

Lemma nmap_command_logs scan_command stem target_file excluded pending ua w :
  exists l,
    (nmap_command scan_command stem target_file excluded pending ua w).2 = extend l 0 w
    /\ forallb is_log l = true.
Proof.
  unfold nmap_command, py_bind at 1, gets. cbn [fst snd].
  destruct (_ && _).
  - rewrite (py_bind_val _ _ _ _ _ (log_run _ _ _)). eexists; split; reflexivity.
  - exists []. rewrite extend_nil. split; reflexivity.
Qed.

Lemma scan_site_command_logs job target_file excluded pending ua w :
  exists l,
    (scan_site_command job target_file excluded pending ua w).2 = extend l 0 w
    /\ forallb is_log l = true.
Proof.
  unfold scan_site_command.
  destruct (String.eqb (scan_binary job) "masscan").
  - destruct (masscan_command_logs (scan_command job) (result_file_base_name job)
                target_file excluded pending ua w) as (l & Hl & Hlog).
    exists l. split; [|exact Hlog]. unfold py_bind.
    destruct (masscan_command _ _ _ _ _ _ w) as [[c|e] w1]; exact Hl.
  - destruct (String.eqb (scan_binary job) "nmap").
    + destruct (nmap_command_logs (scan_command job) (result_file_base_name job)
                  target_file excluded pending ua w) as (l & Hl & Hlog).
      exists l. split; [|exact Hlog]. unfold py_bind.
      destruct (nmap_command _ _ _ _ _ _ w) as [[c|e] w1]; exact Hl.
    + eexists. split; reflexivity.
Qed.

Lemma scan_site_prepare_frame job cfg w :
  exists files l,
    (scan_site_prepare job cfg w).2 = extend l 0 (set_fs files w)
    /\ forallb is_log l = true.
Proof.
  unfold scan_site_prepare.
  destruct (write_target_files_run job (target_files_dir cfg)
              (os_path_join (target_files_dir cfg) (result_file_base_name job +:+ ".targets")) w)
    as (excluded & files & Hw).
  rewrite (py_bind_val _ _ _ _ _ Hw).
  destruct (scan_site_command_logs job
              (os_path_join (target_files_dir cfg) (result_file_base_name job +:+ ".targets"))
              excluded (os_path_join (scan_results_dir cfg) "pending")
              (http_useragent cfg) (set_fs files w)) as (l & Hl & Hlog).
  exists files, l. split; assumption.
Qed.

(** ** Supervision of the child *)

Lemma subprocess_Popen_run env argv w child :
  popen env argv = Some child ->
  subprocess_Popen env argv w
  = (Val {| args := argv; pid := child |}, extend [EvSpawn argv child] 0 w).
Proof. intros H. unfold subprocess_Popen. rewrite H. reflexivity. Qed.

Lemma dict_setitem_run key process w :
  dict_setitem key process w
  = (Val tt, set_SCAN_PROCESS_DICT (<[key := process]> (SCAN_PROCESS_DICT w)) w).
Proof. reflexivity. Qed.

Lemma process_wait_run env process w returncode files' :
  child_exit env (pid process) (fs w) = (returncode, files') ->
  process_wait env process w
  = (Val returncode, extend [EvWait (pid process) returncode] 0 (set_fs files' w)).
Proof.
  intros H. unfold process_wait, py_bind, gets. cbn. rewrite H. reflexivity.
Qed.

Lemma supervise_nonzero_exit env job cfg command pending completed w
    child status body returncode files' :
  popen env (PyStr.split_ws command) = Some child ->
  urlopen env (requests w) = UrlResponse status body ->
  child_exit env child (fs w) = (returncode, files') ->
  returncode <> 0%Z ->
  let out := supervise env job cfg command pending completed w in
  out.1 = Val tt
  /\ SCAN_PROCESS_DICT out.2
     = <[child := {| args := PyStr.split_ws command; pid := child |}]> (SCAN_PROCESS_DICT w)
  /\ fs out.2 = files'
  /\ trace out.2
     = trace w
       ++ [EvSpawn (PyStr.split_ws command) child;
           EvLog INFO (MsgStartingScan (site_name job) child command)]
       ++ update_events cfg job
            [("scan_status", VStr "started"); ("scan_binary_process_id", VInt child)]
            (UrlResponse status body)
       ++ [EvWait child returncode].
Proof.
  intros Hpopen Hurl Hexit Hrc out.
  assert (Hrun : out
    = (Val tt,
       extend [EvWait child returncode] 0
         (set_fs files'
            (extend (update_events cfg job
                       [("scan_status", VStr "started");
                        ("scan_binary_process_id", VInt child)]
                       (UrlResponse status body)) 1
               (extend [EvLog INFO (MsgStartingScan (site_name job) child command)] 0
                  (set_SCAN_PROCESS_DICT
                     (<[child := {| args := PyStr.split_ws command; pid := child |}]>
                        (SCAN_PROCESS_DICT w))
                     (extend [EvSpawn (PyStr.split_ws command) child] 0 w))))))).
  { subst out. unfold supervise.
    rewrite (py_bind_val _ _ _ _ _ (subprocess_Popen_run _ _ _ _ Hpopen)).
    cbn [pid].
    rewrite (py_bind_val _ _ _ _ _ (dict_setitem_run _ _ _)).
    rewrite (py_bind_val _ _ _ _ _ (log_run _ _ _)).
    unfold py_bind at 1. rewrite update_scan_information_run.
    cbn [requests extend set_SCAN_PROCESS_DICT Nat.add]. rewrite Hurl. cbn [update_result].
    erewrite py_bind_val; [|apply process_wait_run; cbn; exact Hexit].
    apply Z.eqb_neq in Hrc. rewrite Hrc. reflexivity. }
  rewrite Hrun. cbn. repeat split. rewrite <- !app_assoc. reflexivity.
Qed.

(** C3 (amended): when the child of a supervised scan ends with a non-zero
    exit code and nobody else touched the registry, [scan_site] returns
    with the child's PID still in [SCAN_PROCESS_DICT], the files exactly as
    the child left them (nothing is moved out of [pending]), and no status
    update after the [started] announcement. *)
Theorem scan_site_nonzero_exit env job cfg w command w1 child status body returncode files' :
  PyStr.mem (scan_status job) ["pause"; "cancel"] = false ->
  scan_site_prepare job cfg w = (Val (Some command), w1) ->
  popen env (PyStr.split_ws command) = Some child ->
  urlopen env (requests w) = UrlResponse status body ->
  child_exit env child (fs w1) = (returncode, files') ->
  returncode <> 0%Z ->
  let out := scan_site env job cfg w in
  out.1 = Val tt
  /\ SCAN_PROCESS_DICT out.2 !! child
     = Some {| args := PyStr.split_ws command; pid := child |}
  /\ fs out.2 = files'
  /\ status_updates (new_events w out.2)
     = [[("scan_status", VStr "started"); ("scan_binary_process_id", VInt child)]].
Proof.
  intros Hdir Hprep Hpopen Hurl Hexit Hrc out.
  destruct (scan_site_prepare_frame job cfg w) as (files & l & Hw1 & Hlog).
  rewrite Hprep in Hw1. cbn [snd] in Hw1.
  assert (Hreq : requests w1 = requests w) by (rewrite Hw1; reflexivity).
  rewrite <- Hreq in Hurl.
  destruct (supervise_nonzero_exit env job cfg command
              (os_path_join (scan_results_dir cfg) "pending")
              (os_path_join (scan_results_dir cfg) "complete")
              w1 child status body returncode files' Hpopen Hurl Hexit Hrc)
    as (Hval & Hdict & Hfs & Htrace).
  assert (Hbody : scan_site_body env job cfg w
                  = supervise env job cfg command
                      (os_path_join (scan_results_dir cfg) "pending")
                      (os_path_join (scan_results_dir cfg) "complete") w1).
  { unfold scan_site_body. rewrite Hdir.
    rewrite (py_bind_val _ _ _ _ _ Hprep). reflexivity. }
  assert (Hout : out = supervise env job cfg command
                         (os_path_join (scan_results_dir cfg) "pending")
                         (os_path_join (scan_results_dir cfg) "complete") w1).
  { subst out. unfold scan_site, py_try. rewrite Hbody.
    destruct (supervise _ _ _ _ _ _ _) as [[[]|e] w2]; [reflexivity|discriminate Hval]. }
  rewrite Hout. split; [exact Hval|]. split.
  - rewrite Hdict. apply lookup_insert_eq.
  - split; [exact Hfs|].
    unfold new_events. rewrite Htrace, Hw1. cbn [trace extend set_fs].
    rewrite <- app_assoc, drop_app_length.
    rewrite !status_updates_app, status_updates_update_events.
    destruct (only_logs_observations l Hlog) as (-> & _ & _). reflexivity.
Qed.

Lemma scan_site_nonzero_exit_witness :
  let out := scan_site Scenario.env_exit1 Scenario.job7 Scenario.cfg Scenario.w0 in
  out.1 = Val tt
  /\ SCAN_PROCESS_DICT out.2 !! 4242%Z
     = Some {| args := ["masscan"; "-p80"; "--rate"; "1000"; "-iL"; "/t/job7.targets";
                        "-oJ"; "/r/pending/job7.json"; "--http-user-agent"; "ua"];
               pid := 4242 |}
  /\ fs out.2 = <["/r/pending/job7.json" := "partial"]> {[ "/t/job7.targets" := "10.0.0.0/24" ]}
  /\ status_updates (new_events Scenario.w0 out.2)
     = [[("scan_status", VStr "started"); ("scan_binary_process_id", VInt 4242)]].
Proof.
  apply (scan_site_nonzero_exit Scenario.env_exit1 Scenario.job7 Scenario.cfg Scenario.w0
           "masscan -p80 --rate 1000 -iL /t/job7.targets -oJ /r/pending/job7.json --http-user-agent ua"
           (set_fs {[ "/t/job7.targets" := "10.0.0.0/24" ]} Scenario.w0)
           4242 200 "[]" 1
           (<["/r/pending/job7.json" := "partial"]> {[ "/t/job7.targets" := "10.0.0.0/24" ]}));
    [reflexivity | vm_compute; reflexivity | reflexivity | reflexivity
    | vm_compute; reflexivity | discriminate].
Defined.

(** Counterexample to C3 as stated: the child of job 7 ends with exit code 1 and
    nothing is killed, yet PID 4242 is still in [SCAN_PROCESS_DICT] when
    [scan_site] returns. *)
Lemma nonzero_exit_keeps_pid :
  let out := scan_site Scenario.env_exit1 Scenario.job7 Scenario.cfg Scenario.w0 in
  out.1 = Val tt
  /\ In (EvWait 4242 1) (trace out.2)
  /\ killed (trace out.2) = []
  /\ SCAN_PROCESS_DICT out.2 !! 4242%Z <> None.
Proof.
  split; [vm_compute; reflexivity|].
  split; [vm_compute; tauto|].
  split; [vm_compute; reflexivity|].
  vm_compute. discriminate.
Qed.

(** ** Resume detection *)

Lemma append_assoc (a b c : string) : (a +:+ b) +:+ c = a +:+ b +:+ c.
Proof.
  induction a as [|x a IH]; [reflexivity|].
  change (String x ((a +:+ b) +:+ c) = String x (a +:+ b +:+ c)). by rewrite IH.
Qed.

Lemma append_empty_r (a : string) : a +:+ "" = a.
Proof.
  induction a as [|x a IH]; [reflexivity|].
  change (String x (a +:+ "") = String x a). by rewrite IH.
Qed.

Lemma build_masscan_command_fresh scan_command target_file excluded pending stem ua :
  build_masscan_command scan_command target_file excluded
    (os_path_join pending (stem +:+ ".json")) ua
  = masscan_fresh_command scan_command target_file excluded pending stem ua.
Proof.
  unfold build_masscan_command, masscan_fresh_command.
  destruct excluded as [[|c f]|]; cbn [PyStr.is_empty];
    rewrite ?append_assoc, ?append_empty_r; reflexivity.
Qed.

Lemma masscan_command_run scan_command stem target_file excluded pending ua w :
  (forall content, fs w !! "paused.conf" = Some content -> conf_well_formed content) ->
  let json_file := os_path_join pending (stem +:+ ".json") in
  (masscan_command scan_command stem target_file excluded pending ua w).1
  = Val (match fs w !! "paused.conf" with
         | Some content =>
             if opt_str_eqb (conf_output_filename content) json_file
             then "masscan --resume paused.conf"
             else masscan_fresh_command scan_command target_file excluded pending stem ua
         | None => masscan_fresh_command scan_command target_file excluded pending stem ua
         end).
Proof.
  intros Hwf json_file.
  unfold masscan_command, py_bind at 1, gets. cbn [fst snd].
  rewrite !build_masscan_command_fresh. fold json_file.
  destruct (fs w !! "paused.conf") as [content|] eqn:Hconf; [|reflexivity].
  cbn zeta. rewrite (py_bind_val _ _ _ _ _ (log_run _ _ _)).
  erewrite py_bind_val;
    [|apply paused_file_output_filename_run; exact (Hwf content eq_refl)].
  rewrite (py_bind_val _ _ _ _ _ (log_run _ _ _)).
  fold (conf_lines content). fold (conf_output_filename content).
  assert (Hval : match conf_output_filename content with
                 | Some v => Some v
                 | None => None
                 end = conf_output_filename content)
    by (destruct (conf_output_filename content); reflexivity).
  rewrite Hval.
  destruct (opt_str_eqb (conf_output_filename content) json_file);
    rewrite (py_bind_val _ _ _ _ _ (log_run _ _ _)); reflexivity.
Qed.

Lemma masscan_command_malformed scan_command stem target_file excluded pending ua w content :
  fs w !! "paused.conf" = Some content ->
  conf_malformed content ->
  (masscan_command scan_command stem target_file excluded pending ua w).1 = Exn IndexError.
Proof.
  intros Hconf Hbad.
  unfold masscan_command, py_bind at 1, gets. cbn [fst snd]. rewrite Hconf.
  cbn zeta. rewrite (py_bind_val _ _ _ _ _ (log_run _ _ _)).
  erewrite py_bind_exn; [reflexivity|].
  apply paused_file_output_filename_raises. exact Hbad.
Qed.

Lemma masscan_command_resume_or_fresh scan_command stem target_file excluded pending ua w :
  (forall content, fs w !! "paused.conf" = Some content -> conf_well_formed content) ->
  let json_file := os_path_join pending (stem +:+ ".json") in
  let out := masscan_command scan_command stem target_file excluded pending ua w in
  (checkpoint_matches (fs w) json_file -> out.1 = Val "masscan --resume paused.conf")
  /\ (~ checkpoint_matches (fs w) json_file ->
      out.1 = Val (masscan_fresh_command scan_command target_file excluded pending stem ua)).
Proof.
  intros Hwf json_file out. subst out.
  rewrite (masscan_command_run _ _ _ _ _ _ _ Hwf). fold json_file.
  unfold checkpoint_matches.
  destruct (fs w !! "paused.conf") as [content|] eqn:Hconf.
  - destruct (opt_str_eqb (conf_output_filename content) json_file) eqn:Heq.
    + split; [reflexivity|]. intros Hno. exfalso. apply Hno.
      exists content. split; [reflexivity|].
      destruct (conf_output_filename content) as [v|]; [|discriminate Heq].
      cbn in Heq. apply String.eqb_eq in Heq. by subst v.
    + split; [|reflexivity]. intros (content' & Hc & Hv).
      injection Hc as <-. rewrite Hv in Heq. cbn in Heq.
      rewrite String.eqb_refl in Heq. discriminate Heq.
  - split; [|reflexivity].
    intros (content' & Hc & _). discriminate Hc.
Qed.

(** C7: for a masscan job, when every line of [paused.conf] that begins
    with [output-filename] has a value after [" = "] (or there is no such
    file), the claim holds: if [paused.conf] exists and its
    [output-filename] value is the JSON output path of this job in
    [pending], the command is exactly [masscan --resume paused.conf], whose
    argument vector carries nothing of [scan_command]; otherwise it is the
    fresh command [masscan <scan_command> -iL <targets_file> -oJ
    <pending>/<stem>.json --http-user-agent <ua> [--excludefile
    <excl_file>]].  When some line begins with [output-filename] and has no
    [" = "] in it, [line.split(" = ")[1]] raises [IndexError] and no command
    is constructed at all, neither the resumed nor the fresh one, also when
    another line of the file names the JSON output path of this job. *)
Theorem masscan_resume_or_fresh job target_file excluded pending ua w :
  scan_binary job = "masscan" ->
  let json_file := os_path_join pending (result_file_base_name job +:+ ".json") in
  let out := scan_site_command job target_file excluded pending ua w in
  ((forall content, fs w !! "paused.conf" = Some content -> conf_well_formed content) ->
   (checkpoint_matches (fs w) json_file ->
    out.1 = Val (Some "masscan --resume paused.conf"))
   /\ (~ checkpoint_matches (fs w) json_file ->
       out.1 = Val (Some (masscan_fresh_command (scan_command job) target_file excluded
                            pending (result_file_base_name job) ua))))
  /\ (forall content,
        fs w !! "paused.conf" = Some content -> conf_malformed content ->
        out.1 = Exn IndexError)
  /\ PyStr.split_ws "masscan --resume paused.conf" = ["masscan"; "--resume"; "paused.conf"].
Proof.
  intros Hbin json_file out.
  assert (Hout : out.1
                 = match (masscan_command (scan_command job) (result_file_base_name job)
                            target_file excluded pending ua w).1 with
                   | Val c => Val (Some c)
                   | Exn e => Exn e
                   end).
  { subst out. unfold scan_site_command. rewrite Hbin, String.eqb_refl.
    unfold py_bind. destruct (masscan_command _ _ _ _ _ _ w) as [[c|e] w1]; reflexivity. }
  split; [|split; [|reflexivity]].
  - intros Hwf.
    destruct (masscan_command_resume_or_fresh (scan_command job) (result_file_base_name job)
                target_file excluded pending ua w Hwf) as [Hres Hfresh].
    split.
    + intros Hm. rewrite Hout, (Hres Hm). reflexivity.
    + intros Hm. rewrite Hout, (Hfresh Hm). reflexivity.
  - intros content Hconf Hbad. rewrite Hout.
    rewrite (masscan_command_malformed _ _ _ _ _ _ _ _ Hconf Hbad). reflexivity.
Qed.

Lemma masscan_resume_or_fresh_witness :
  (scan_site_command Scenario.job7 "/t/job7.targets" None "/r/pending" "ua"
     Scenario.w_paused7).1
  = Val (Some "masscan --resume paused.conf")
  /\ (scan_site_command Scenario.job7 "/t/job7.targets" None "/r/pending" "ua"
        Scenario.w_paused7_cr).1
     = Val (Some "masscan --resume paused.conf")
  /\ (scan_site_command Scenario.job7 "/t/job7.targets" None "/r/pending" "ua"
        Scenario.w0).1
     = Val (Some "masscan -p80 --rate 1000 -iL /t/job7.targets -oJ /r/pending/job7.json --http-user-agent ua")
  /\ checkpoint_matches (fs Scenario.w_paused7_no_value) "/r/pending/job7.json"
  /\ (scan_site_command Scenario.job7 "/t/job7.targets" None "/r/pending" "ua"
        Scenario.w_paused7_no_value).1
     = Exn IndexError.
Proof.
  split; [|split; [|split; [|split]]].
  - apply (masscan_resume_or_fresh Scenario.job7 "/t/job7.targets" None "/r/pending" "ua"
             Scenario.w_paused7).
    + reflexivity.
    + intros content Hc. vm_compute in Hc. injection Hc as <-.
      unfold conf_well_formed. vm_compute conf_lines.
      repeat constructor; intros Hs; try discriminate Hs.
      vm_compute. eexists. reflexivity.
    + eexists. split; vm_compute; reflexivity.
  - apply (masscan_resume_or_fresh Scenario.job7 "/t/job7.targets" None "/r/pending" "ua"
             Scenario.w_paused7_cr).
    + reflexivity.
    + intros content Hc. vm_compute in Hc. injection Hc as <-.
      unfold conf_well_formed. vm_compute conf_lines.
      repeat constructor; intros Hs; try discriminate Hs.
      vm_compute. eexists. reflexivity.
    + eexists. split; vm_compute; reflexivity.
  - apply (masscan_resume_or_fresh Scenario.job7 "/t/job7.targets" None "/r/pending" "ua"
             Scenario.w0).
    + reflexivity.
    + intros content Hc. vm_compute in Hc. discriminate Hc.
    + intros (content & Hc & _). vm_compute in Hc. discriminate Hc.
  - eexists. split; vm_compute; reflexivity.
  - apply (masscan_resume_or_fresh Scenario.job7 "/t/job7.targets" None "/r/pending" "ua"
             Scenario.w_paused7_no_value
             (eq_refl : scan_binary Scenario.job7 = "masscan"))
      with (content := "output-filename" +:+ Scenario.nl
                       +:+ "output-filename = /r/pending/job7.json" +:+ Scenario.nl).
    + vm_compute. reflexivity.
    + unfold conf_malformed. vm_compute conf_lines.
      apply Exists_cons_hd. split; vm_compute; reflexivity.
Defined.

Lemma gnmap_checkpoint_spec (files : filesystem) gnmap_file :
  os_path_isfile files gnmap_file && (0 <? os_path_getsize files gnmap_file)%Z = true
  <-> gnmap_checkpoint files gnmap_file.
Proof.
  unfold os_path_isfile, os_path_getsize, gnmap_checkpoint.
  destruct (files !! gnmap_file) as [content|].
  - rewrite bool_decide_true by eauto. cbn [andb]. split.
    + intros H. exists content. split; [reflexivity|].
      intros ->. discriminate H.
    + intros (c & [= <-] & Hne). destruct content; [done|reflexivity].
  - split; [intros H; discriminate H|].
    intros (c & Hc & _). discriminate Hc.
Qed.

Lemma nmap_command_run scan_command stem target_file excluded pending ua w :
  let gnmap_file := os_path_join pending (stem +:+ ".gnmap") in
  (nmap_command scan_command stem target_file excluded pending ua w).1
  = Val (if os_path_isfile (fs w) gnmap_file && (0 <? os_path_getsize (fs w) gnmap_file)%Z
         then "nmap --resume " +:+ gnmap_file
         else nmap_fresh_command scan_command target_file excluded pending stem ua)
  /\ fs (nmap_command scan_command stem target_file excluded pending ua w).2 = fs w.
Proof.
  intros gnmap_file. unfold nmap_command, py_bind at 1 3, gets. cbn [fst snd].
  fold gnmap_file.
  destruct (os_path_isfile (fs w) gnmap_file && _).
  - rewrite (py_bind_val _ _ _ _ _ (log_run _ _ _)). split; reflexivity.
  - cbn [py_ret fst snd]. split; [|reflexivity]. f_equal.
    unfold nmap_fresh_command. destruct excluded as [f|].
    + rewrite !append_assoc. reflexivity.
    + rewrite append_empty_r. reflexivity.
Qed.

Lemma scan_site_command_nmap job target_file excluded pending ua w :
  scan_binary job = "nmap" ->
  let gnmap_file := os_path_join pending (result_file_base_name job +:+ ".gnmap") in
  (scan_site_command job target_file excluded pending ua w).1
  = Val (Some (if os_path_isfile (fs w) gnmap_file
                  && (0 <? os_path_getsize (fs w) gnmap_file)%Z
               then "nmap --resume " +:+ gnmap_file
               else nmap_fresh_command (scan_command job) target_file excluded pending
                      (result_file_base_name job) ua))
  /\ fs (scan_site_command job target_file excluded pending ua w).2 = fs w.
Proof.
  intros Hbin gnmap_file.
  destruct (nmap_command_run (scan_command job) (result_file_base_name job)
              target_file excluded pending ua w) as [Hr Hf].
  unfold scan_site_command. rewrite Hbin.
  change ("nmap" =? "masscan")%string with false.
  change ("nmap" =? "nmap")%string with true. cbn iota.
  unfold py_bind.
  destruct (nmap_command _ _ _ _ _ _ w) as [[c|e] w1]; cbn [fst snd] in *.
  - injection Hr as ->. split; [reflexivity|exact Hf].
  - discriminate Hr.
Qed.

(** C9: for an nmap job, when the file [<pending>/<stem>.gnmap] exists and
    is not empty the command is [nmap --resume] on that file, otherwise it
    is the fresh nmap command; the decision reads the disk without changing
    it, so with the same files it is the same, also when it is taken again
    right after. *)
Theorem nmap_resume_or_fresh job target_file excluded pending ua w :
  scan_binary job = "nmap" ->
  let gnmap_file := os_path_join pending (result_file_base_name job +:+ ".gnmap") in
  let out := scan_site_command job target_file excluded pending ua w in
  (gnmap_checkpoint (fs w) gnmap_file ->
   out.1 = Val (Some ("nmap --resume " +:+ gnmap_file)))
  /\ (~ gnmap_checkpoint (fs w) gnmap_file ->
      out.1 = Val (Some (nmap_fresh_command (scan_command job) target_file excluded
                           pending (result_file_base_name job) ua)))
  /\ fs out.2 = fs w
  /\ (forall w2, fs w2 = fs w ->
      (scan_site_command job target_file excluded pending ua w2).1 = out.1)
  /\ (scan_site_command job target_file excluded pending ua out.2).1 = out.1.
Proof.
  intros Hbin gnmap_file out.
  destruct (scan_site_command_nmap job target_file excluded pending ua w Hbin) as [Hr Hf].
  fold gnmap_file in Hr. fold out in Hr, Hf.
  assert (Hsame : forall w2, fs w2 = fs w ->
            (scan_site_command job target_file excluded pending ua w2).1 = out.1).
  { intros w2 Hw2.
    destruct (scan_site_command_nmap job target_file excluded pending ua w2 Hbin) as [Hr2 _].
    rewrite Hr2, Hr, Hw2. reflexivity. }
  pose proof (gnmap_checkpoint_spec (fs w) gnmap_file) as Hspec.
  destruct (os_path_isfile (fs w) gnmap_file && (0 <? os_path_getsize (fs w) gnmap_file)%Z).
  - split; [intros _; exact Hr|].
    split; [intros Hno; exfalso; apply Hno, Hspec; reflexivity|].
    split; [exact Hf|]. split; [exact Hsame|]. apply Hsame, Hf.
  - split; [intros Hyes; apply Hspec in Hyes; discriminate Hyes|].
    split; [intros _; exact Hr|].
    split; [exact Hf|]. split; [exact Hsame|]. apply Hsame, Hf.
Qed.

Lemma nmap_resume_or_fresh_witness :
  (scan_site_command Scenario.job9 "/t/job9.targets" (Some "/t/job9.excluded_targets")
     "/r/pending" "ua" Scenario.w_gnmap9).1
  = Val (Some "nmap --resume /r/pending/job9.gnmap")
  /\ (scan_site_command Scenario.job9 "/t/job9.targets" (Some "/t/job9.excluded_targets")
        "/r/pending" "ua" Scenario.w0).1
     = Val (Some "nmap -sV -iL /t/job9.targets -oA /r/pending/job9 --script-args http.useragent='ua' --excludefile /t/job9.excluded_targets").
Proof.
  split.
  - destruct (nmap_resume_or_fresh Scenario.job9 "/t/job9.targets"
                (Some "/t/job9.excluded_targets") "/r/pending" "ua" Scenario.w_gnmap9
                eq_refl) as (Hresume & _).
    apply Hresume. eexists. split; [vm_compute; reflexivity|discriminate].
  - destruct (nmap_resume_or_fresh Scenario.job9 "/t/job9.targets"
                (Some "/t/job9.excluded_targets") "/r/pending" "ua" Scenario.w0
                eq_refl) as (_ & Hfresh & _).
    apply Hfresh. intros (content & Hc & _). vm_compute in Hc. discriminate Hc.
Defined.

(** ** Moving result files *)

Lemma shutil_move_overwrites src dst content (files : filesystem) :
  files !! src = Some content ->
  shutil_move src dst files !! dst = Some content.
Proof.
  intros H. unfold shutil_move. rewrite H. apply lookup_insert_eq.
Qed.

Lemma shutil_move_removes src dst content (files : filesystem) :
  files !! src = Some content ->
  src <> dst ->
  shutil_move src dst files !! src = None.
Proof.
  intros H Hne. unfold shutil_move. rewrite H.
  rewrite lookup_insert_ne by congruence. apply lookup_delete_eq.
Qed.

Lemma shutil_move_other src dst p (files : filesystem) :
  p <> src -> p <> dst ->
  shutil_move src dst files !! p = files !! p.
Proof.
  intros H1 H2. unfold shutil_move. destruct (files !! src); [|reflexivity].
  rewrite lookup_insert_ne by congruence. by rewrite lookup_delete_ne.
Qed.

Lemma length_list_ascii_of_string s :
  length (list_ascii_of_string s) = String.length s.
Proof. induction s as [|c s IH]; [reflexivity|]. cbn. by rewrite IH. Qed.

Lemma translate_go_without_bracket fuel (l : list ascii) :
  (length l <= fuel)%nat ->
  ~ In "["%char l ->
  Fnmatch.translate_go fuel l
  = map (fun c => if Ascii.eqb c "*"%char then Fnmatch.TStar
                  else if Ascii.eqb c "?"%char then Fnmatch.TAny
                  else Fnmatch.TLit c) l.
Proof.
  revert l. induction fuel as [|fuel IH]; intros l Hlen Hin.
  - destruct l; [reflexivity|cbn in Hlen; lia].
  - destruct l as [|c l]; [reflexivity|].
    cbn [Fnmatch.translate_go map].
    assert (Hc : Ascii.eqb c "["%char = false).
    { apply Ascii.eqb_neq. intros ->. apply Hin. left. reflexivity. }
    rewrite Hc.
    rewrite IH; [|cbn in Hlen; lia|intros H; apply Hin; right; exact H].
    destruct (Ascii.eqb c "*"%char); [reflexivity|].
    destruct (Ascii.eqb c "?"%char); reflexivity.
Qed.

Lemma match_toks_wildcard (pat name : list ascii) :
  Fnmatch.match_toks
    (map (fun c => if Ascii.eqb c "*"%char then Fnmatch.TStar
                   else if Ascii.eqb c "?"%char then Fnmatch.TAny
                   else Fnmatch.TLit c) pat) name
  = wildcard_match pat name.
Proof.
  revert name. induction pat as [|c pat IH]; intros name; [reflexivity|].
  cbn [map Fnmatch.match_toks wildcard_match].
  destruct (Ascii.eqb c "*"%char) eqn:Hstar.
  - induction name as [|d name IHn].
    + rewrite IH. reflexivity.
    + rewrite IH. f_equal. exact IHn.
  - destruct (Ascii.eqb c "?"%char) eqn:Hq.
    + destruct name as [|d name]; [reflexivity|]. cbn. apply IH.
    + destruct name as [|d name]; [reflexivity|]. cbn. by rewrite IH.
Qed.

Lemma fnmatch_without_bracket name pat :
  ~ In "["%char (list_ascii_of_string pat) ->
  Fnmatch.fnmatch name pat
  = wildcard_match (list_ascii_of_string pat) (list_ascii_of_string name).
Proof.
  intros H. unfold Fnmatch.fnmatch, Fnmatch.translate.
  rewrite translate_go_without_bracket;
    [apply match_toks_wildcard | by rewrite length_list_ascii_of_string | exact H].
Qed.

(** C8: the pattern [job[7]*] is matched as a bracket class: the file
    [job7.json] matches and is moved, replacing the file of that name in the
    destination, and the file [job[7].json] does not match and stays; with
    the wildcards [*] and [?] alone it is the other way round. *)
Theorem move_wildcard_files_bracket_class :
  Fnmatch.fnmatch "job7.json" "job[7]*" = true
  /\ wildcard_match (list_ascii_of_string "job[7]*") (list_ascii_of_string "job7.json")
     = false
  /\ Fnmatch.fnmatch "job[7].json" "job[7]*" = false
  /\ wildcard_match (list_ascii_of_string "job[7]*") (list_ascii_of_string "job[7].json")
     = true
  /\ move_wildcard_files "job[7]*" "/r/pending" "/r/complete" Scenario.results
     = list_to_map [("/r/complete/job7.json", "seven");
                    ("/r/pending/job[7].json", "bracket")].
Proof. repeat split; vm_compute; reflexivity. Qed.

(** ** A checkpoint file outside masscan's format

    A line that begins with [output-filename] but has no [" = "] makes
    [line.split(" = ")[1]] raise [IndexError]: no command is chosen, nothing
    is started, and the handler of [scan_site] reports the job as [error],
    here although the next line of the file names the JSON file of the
    job. *)
Example paused_conf_without_separator :
  let w := Scenario.w_paused7_no_value in
  conf_output_filename
    ("output-filename" +:+ Scenario.nl
     +:+ "output-filename = /r/pending/job7.json" +:+ Scenario.nl)
  = Some "/r/pending/job7.json"
  /\ (scan_site_command Scenario.job7 "/t/job7.targets" None "/r/pending" "ua" w).1
     = Exn IndexError
  /\ (scan_site Scenario.env_ok Scenario.job7 Scenario.cfg w).1 = Val tt
  /\ spawned (trace (scan_site Scenario.env_ok Scenario.job7 Scenario.cfg w).2) = []
  /\ status_updates (trace (scan_site Scenario.env_ok Scenario.job7 Scenario.cfg w).2)
     = [[("scan_status", VStr "error")]].
Proof. repeat split; vm_compute; reflexivity. Qed.

(** * Further properties *)

(** ** Strings and paths *)

Lemma append_eq_inv (p q n n' : string) :
  p +:+ n = q +:+ n' ->
  (exists x, q = p +:+ x /\ n = x +:+ n') \/ (exists x, p = q +:+ x /\ n' = x +:+ n).
Proof.
  revert q. induction p as [|a p IH]; intros q H.
  - left. exists q. split; [reflexivity|exact H].
  - destruct q as [|b q].
    + right. exists (String a p). split; [reflexivity|]. symmetry. exact H.
    + change (String a (p +:+ n) = String b (q +:+ n')) in H.
      injection H as -> H. destruct (IH q H) as [(x & -> & ->)|(x & -> & ->)].
      * left. exists x. split; reflexivity.
      * right. exists x. split; reflexivity.
Qed.

Lemma has_slash_append (a b : string) :
  has_slash (a +:+ b) = has_slash a || has_slash b.
Proof.
  induction a as [|c a IH]; [reflexivity|].
  change (has_slash (String c (a +:+ b)) = has_slash (String c a) || has_slash b).
  cbn [has_slash]. rewrite IH. apply orb_assoc.
Qed.

Lemma ends_with_slash_inv (s : string) :
  ends_with_slash s = true -> exists y, s = y +:+ "/".
Proof.
  unfold ends_with_slash. induction s as [|c s IH]; [discriminate|].
  cbn [String.length]. rewrite Nat.sub_1_r. cbn [Nat.pred].
  destruct s as [|d s].
  - cbn. intros H. apply Ascii.eqb_eq in H. subst c. exists "". reflexivity.
  - intros H. cbn [String.length] in *. cbn [String.get] in H.
    rewrite Nat.sub_1_r in IH. cbn [Nat.pred] in IH.
    destruct (IH H) as (y & Hy). exists (String c y). rewrite Hy. reflexivity.
Qed.

Lemma dir_prefix_shape (a : string) :
  dir_prefix a = "" \/ exists y, dir_prefix a = y +:+ "/".
Proof.
  unfold dir_prefix. destruct (PyStr.is_empty a) eqn:He.
  - left. destruct a; [reflexivity|discriminate].
  - cbn [orb]. destruct (ends_with_slash a) eqn:Hs.
    + right. apply ends_with_slash_inv. exact Hs.
    + right. exists a. reflexivity.
Qed.

Lemma append_eq_empty (a b : string) : a +:+ b = "" -> a = "" /\ b = "".
Proof. destruct a; [intros H; split; [reflexivity|exact H]|discriminate]. Qed.

Lemma suffix_has_slash (p x y : string) :
  p +:+ x = y +:+ "/" -> x <> "" -> has_slash x = true.
Proof.
  intros H Hx. destruct (append_eq_inv p y x "/" H) as [(z & _ & ->)|(z & _ & Hz)].
  - rewrite has_slash_append. apply orb_true_r.
  - destruct z as [|c z].
    + change ("/" = x) in Hz. subst x. reflexivity.
    + change ("/" = String c (z +:+ x)) in Hz. injection Hz as _ Hz.
      symmetry in Hz. apply append_eq_empty in Hz as [_ ->]. contradiction.
Qed.

Lemma is_file_name_spec (n : string) :
  is_file_name n = true <-> n <> "" /\ has_slash n = false.
Proof.
  unfold is_file_name. rewrite andb_true_iff, !negb_true_iff. split.
  - intros [He Hs]. split; [|exact Hs]. intros ->. discriminate He.
  - intros [Hne Hs]. split; [|exact Hs]. destruct n; [contradiction|reflexivity].
Qed.

Lemma os_path_join_file_name (a n : string) :
  is_file_name n = true -> os_path_join a n = dir_prefix a +:+ n.
Proof.
  intros [Hne Hs]%is_file_name_spec. unfold os_path_join, PyStr.startswith.
  destruct n as [|c n]; [contradiction|].
  cbn [has_slash] in Hs. apply orb_false_iff in Hs as [Hc _].
  cbn [String.prefix]. destruct (ascii_dec "/" c) as [<-|_]; [discriminate Hc|reflexivity].
Qed.

Lemma dir_prefix_append_inj (a b n n' : string) :
  is_file_name n = true -> is_file_name n' = true ->
  dir_prefix a +:+ n = dir_prefix b +:+ n' ->
  n = n' /\ dir_prefix a = dir_prefix b.
Proof.
  assert (Hcase : forall (a b n n' x : string),
             has_slash n = false -> dir_prefix b = dir_prefix a +:+ x -> n = x +:+ n' ->
             x = "").
  { intros a0 b0 m m' x Hm Hb ->. rewrite has_slash_append in Hm.
    apply orb_false_iff in Hm as [Hx _].
    destruct x as [|c x]; [reflexivity|]. exfalso.
    destruct (dir_prefix_shape b0) as [Hb0|(y & Hy)].
    - rewrite Hb0 in Hb. symmetry in Hb. apply append_eq_empty in Hb as [_ Hb].
      discriminate Hb.
    - rewrite Hy in Hb. symmetry in Hb.
      apply suffix_has_slash in Hb; [|discriminate]. congruence. }
  intros [_ Hn]%is_file_name_spec [_ Hn']%is_file_name_spec H.
  destruct (append_eq_inv _ _ _ _ H) as [(x & Hb & Hx)|(x & Ha & Hx)].
  - pose proof (Hcase a b n n' x Hn Hb Hx) as ->.
    rewrite append_empty_r in Hb. split; [exact Hx|by symmetry].
  - pose proof (Hcase b a n' n x Hn' Ha Hx) as ->.
    rewrite append_empty_r in Ha. split; [by symmetry|exact Ha].
Qed.

Lemma os_path_join_inj (a b n n' : string) :
  is_file_name n = true -> is_file_name n' = true ->
  os_path_join a n = os_path_join b n' ->
  n = n' /\ dir_prefix a = dir_prefix b.
Proof.
  intros Hn Hn'. rewrite !os_path_join_file_name by assumption.
  apply dir_prefix_append_inj; assumption.
Qed.

Lemma strip_prefix_Some (p s n : string) :
  strip_prefix p s = Some n <-> s = p +:+ n.
Proof.
  revert s. induction p as [|a p IH]; intros s.
  - cbn. split; [intros [= ->]; reflexivity|intros ->; reflexivity].
  - destruct s as [|b s].
    + cbn. split; discriminate.
    + cbn [strip_prefix]. change (String a p +:+ n) with (String a (p +:+ n)).
      destruct (Ascii.eqb_spec a b) as [->|Hne].
      * rewrite IH. split; [intros ->; reflexivity|intros [= ->]; reflexivity].
      * split; [discriminate|intros [= -> _]; contradiction].
Qed.

(** A path is listed under a name exactly when it is the join of the
    directory and that name. *)
Lemma child_name_Some (dir path n : string) :
  child_name dir path = Some n <-> is_file_name n = true /\ path = os_path_join dir n.
Proof.
  unfold child_name. split.
  - destruct (strip_prefix (dir_prefix dir) path) as [m|] eqn:Hm; [|discriminate].
    apply strip_prefix_Some in Hm.
    destruct (PyStr.is_empty m || has_slash m) eqn:Hv; [discriminate|].
    intros [= ->]. apply orb_false_iff in Hv as [He Hs].
    assert (Hf : is_file_name n = true) by (unfold is_file_name; by rewrite He, Hs).
    split; [exact Hf|]. by rewrite os_path_join_file_name.
  - intros [Hf ->]. rewrite os_path_join_file_name by exact Hf.
    assert (Hs : strip_prefix (dir_prefix dir) (dir_prefix dir +:+ n) = Some n)
      by (by apply strip_prefix_Some).
    rewrite Hs. unfold is_file_name in Hf.
    apply andb_true_iff in Hf as [He Hsl]. apply negb_true_iff in He, Hsl.
    by rewrite He, Hsl.
Qed.

(** ** [os.listdir] *)

Lemma elem_of_os_listdir (files : filesystem) (dir n : string) :
  n ∈ os_listdir files dir
  <-> is_file_name n = true /\ is_Some (files !! os_path_join dir n).
Proof.
  unfold os_listdir. rewrite list_elem_of_omap. split.
  - intros ([path content] & Hin & Hc). apply elem_of_map_to_list in Hin.
    cbn in Hc. apply child_name_Some in Hc as [Hf ->]. split; [exact Hf|eauto].
  - intros [Hf [content Hc]]. exists (os_path_join dir n, content). split.
    + by apply elem_of_map_to_list.
    + cbn. apply child_name_Some. split; [exact Hf|reflexivity].
Qed.

Lemma NoDup_omap_fst {A B} (f : string -> option B) (l : list (string * A)) :
  (forall x y z, f x = Some z -> f y = Some z -> x = y) ->
  NoDup (l.*1) -> NoDup (omap (fun kv => f kv.1) l).
Proof.
  intros Hinj. induction l as [|[k v] l IH]; intros Hnd; [constructor|].
  cbn in Hnd. apply NoDup_cons in Hnd as [Hk Hnd].
  cbn [omap list_omap fst]. destruct (f k) as [z|] eqn:Hz; [|by apply IH].
  apply NoDup_cons. split; [|by apply IH].
  rewrite list_elem_of_omap. intros ([k' v'] & Hin & Hz').
  cbn in Hz'. pose proof (Hinj _ _ _ Hz Hz'). subst k'.
  apply Hk. apply list_elem_of_fmap. exists (k, v'). split; [reflexivity|exact Hin].
Qed.

(** [os.listdir] gives every name once. *)
Lemma NoDup_os_listdir (files : filesystem) (dir : string) :
  NoDup (os_listdir files dir).
Proof.
  unfold os_listdir. apply NoDup_omap_fst; [|apply NoDup_fst_map_to_list].
  intros x y z [_ ->]%child_name_Some [_ ->]%child_name_Some. reflexivity.
Qed.

(** ** The loop of [move_wildcard_files] *)

Section Moves.

Variables pat src dst : string.

Lemma fold_untouched (names : list string) (files : filesystem) (p : string) :
  (forall n, n ∈ names -> Fnmatch.fnmatch n pat = true ->
             p <> os_path_join src n /\ p <> os_path_join dst n) ->
  fold_left (move_if_match pat src dst) names files !! p = files !! p.
Proof.
  revert files. induction names as [|m names IH]; intros files H; [reflexivity|].
  cbn [fold_left]. rewrite IH.
  - unfold move_if_match. destruct (Fnmatch.fnmatch m pat) eqn:Hm; [|reflexivity].
    destruct (H m (list_elem_of_here _ _) Hm) as [H1 H2].
    by apply shutil_move_other.
  - intros n Hn. apply H. by apply list_elem_of_further.
Qed.

Lemma move_if_match_other (files : filesystem) (m n : string) :
  is_file_name m = true -> is_file_name n = true -> m <> n ->
  move_if_match pat src dst files m !! os_path_join src n = files !! os_path_join src n.
Proof.
  intros Hm Hn Hne. unfold move_if_match.
  destruct (Fnmatch.fnmatch m pat); [|reflexivity].
  apply shutil_move_other.
  - intros [Heq _]%os_path_join_inj; [congruence|assumption..].
  - intros [Heq _]%os_path_join_inj; [congruence|assumption..].
Qed.

Lemma fold_moved (names : list string) (files : filesystem) (n content : string) :
  NoDup names ->
  Forall (fun m => is_file_name m = true) names ->
  n ∈ names ->
  Fnmatch.fnmatch n pat = true ->
  files !! os_path_join src n = Some content ->
  fold_left (move_if_match pat src dst) names files !! os_path_join dst n = Some content.
Proof.
  intros Hnd Hvalid. revert files.
  induction names as [|m names IH]; intros files Hin Hn Hc; [by apply elem_of_nil in Hin|].
  apply NoDup_cons in Hnd as [Hm Hnd]. apply Forall_cons in Hvalid as [Hvm Hvalid].
  cbn [fold_left]. apply elem_of_cons in Hin as [->|Hin].
  - rewrite fold_untouched.
    + unfold move_if_match. rewrite Hn. by apply shutil_move_overwrites.
    + intros n' Hn' _.
      assert (Hv' : is_file_name n' = true)
        by (rewrite Forall_forall in Hvalid; by apply Hvalid).
      split; intros [Heq _]%os_path_join_inj; try assumption; by subst n'.
  - assert (Hvn : is_file_name n = true)
      by (rewrite Forall_forall in Hvalid; by apply Hvalid).
    apply IH; try assumption.
    rewrite move_if_match_other; [exact Hc|assumption..|].
    intros ->. contradiction.
Qed.

Lemma fold_removed (names : list string) (files : filesystem) (n : string) :
  NoDup names ->
  Forall (fun m => is_file_name m = true) names ->
  n ∈ names ->
  Fnmatch.fnmatch n pat = true ->
  is_Some (files !! os_path_join src n) ->
  dir_prefix src <> dir_prefix dst ->
  fold_left (move_if_match pat src dst) names files !! os_path_join src n = None.
Proof.
  intros Hnd Hvalid. revert files.
  induction names as [|m names IH]; intros files Hin Hn Hc Hdir;
    [by apply elem_of_nil in Hin|].
  apply NoDup_cons in Hnd as [Hm Hnd]. apply Forall_cons in Hvalid as [Hvm Hvalid].
  cbn [fold_left]. apply elem_of_cons in Hin as [->|Hin].
  - rewrite fold_untouched.
    + unfold move_if_match. rewrite Hn. destruct Hc as [content Hc].
      eapply shutil_move_removes; [exact Hc|].
      intros [_ Heq]%os_path_join_inj; [contradiction|assumption..].
    + intros n' Hn' _.
      assert (Hv' : is_file_name n' = true)
        by (rewrite Forall_forall in Hvalid; by apply Hvalid).
      split; intros [Heq _]%os_path_join_inj; try assumption; by subst n'.
  - assert (Hvn : is_file_name n = true)
      by (rewrite Forall_forall in Hvalid; by apply Hvalid).
    apply IH; try assumption.
    rewrite move_if_match_other; [exact Hc|assumption..|].
    intros ->. contradiction.
Qed.

End Moves.

(** ** [move_wildcard_files] *)

Lemma Forall_file_name_os_listdir (files : filesystem) (dir : string) :
  Forall (fun m => is_file_name m = true) (os_listdir files dir).
Proof.
  apply Forall_forall. intros n Hn. by apply elem_of_os_listdir in Hn as [Hf _].
Qed.

(** X1: every file of the source directory whose name matches the pattern
    is, after [move_wildcard_files], at the same name in the destination
    directory with its content, whatever was there before. *)
Theorem move_wildcard_files_moves pat src dst (files : filesystem) n content :
  is_file_name n = true ->
  files !! os_path_join src n = Some content ->
  Fnmatch.fnmatch n pat = true ->
  move_wildcard_files pat src dst files !! os_path_join dst n = Some content.
Proof.
  intros Hf Hc Hm.
  apply (fold_moved pat src dst);
    [apply NoDup_os_listdir | apply Forall_file_name_os_listdir | | exact Hm | exact Hc].
  apply elem_of_os_listdir. split; [exact Hf|eauto].
Qed.

Lemma move_wildcard_files_moves_witness :
  move_wildcard_files "job7*" "/r/pending" "/r/complete" Scenario.results
    !! os_path_join "/r/complete" "job7.json" = Some "seven".
Proof.
  apply (move_wildcard_files_moves "job7*" "/r/pending" "/r/complete" Scenario.results
           "job7.json" "seven"); vm_compute; reflexivity.
Defined.

(** X2: when source and destination are different directories, a file of
    the source directory whose name matches the pattern is no longer in the
    source directory after [move_wildcard_files]. *)
Theorem move_wildcard_files_clears_source pat src dst (files : filesystem) n :
  is_file_name n = true ->
  is_Some (files !! os_path_join src n) ->
  Fnmatch.fnmatch n pat = true ->
  dir_prefix src <> dir_prefix dst ->
  move_wildcard_files pat src dst files !! os_path_join src n = None.
Proof.
  intros Hf Hc Hm Hdir.
  apply (fold_removed pat src dst);
    [apply NoDup_os_listdir | apply Forall_file_name_os_listdir | | exact Hm | exact Hc
    | exact Hdir].
  apply elem_of_os_listdir. split; [exact Hf|exact Hc].
Qed.

Lemma move_wildcard_files_clears_source_witness :
  move_wildcard_files "job7*" "/r/pending" "/r/complete" Scenario.results
    !! os_path_join "/r/pending" "job7.json" = None.
Proof.
  apply (move_wildcard_files_clears_source "job7*" "/r/pending" "/r/complete"
           Scenario.results "job7.json");
    [reflexivity | vm_compute; eauto | vm_compute; reflexivity | vm_compute; discriminate].
Defined.

(** X3: when the source and the destination directory hold regular files
    only, [move_wildcard_files] changes nothing at a path that is neither a
    file of the source directory with a matching name nor the place in the
    destination directory such a file is moved to.  (A sub-directory with a
    matching name is an entry of [os.listdir] too, and [shutil.move] moves
    it with all that is below it; a destination that is a directory
    receives the file inside it.) *)
Theorem move_wildcard_files_frame pat src dst (files : filesystem) p :
  no_subdirectories files src ->
  no_subdirectories files dst ->
  (forall n, is_file_name n = true ->
             is_Some (files !! os_path_join src n) ->
             Fnmatch.fnmatch n pat = true ->
             p <> os_path_join src n /\ p <> os_path_join dst n) ->
  move_wildcard_files pat src dst files !! p = files !! p.
Proof.
  intros _ _ H. apply (fold_untouched pat src dst).
  intros n [Hf Hc]%elem_of_os_listdir Hm. by apply H.
Qed.

Lemma move_wildcard_files_frame_witness :
  move_wildcard_files "job7*" "/r/pending" "/r/complete" Scenario.results_and_targets
    !! "/t/job7.targets" = Some "10.0.0.0/24"
  /\ move_wildcard_files "job7*" "/r/pending" "/r/complete" Scenario.results_and_targets
       !! "/r/complete/job7.json" = Some "seven"
  /\ move_wildcard_files "job7*" "/r/pending" "/r/complete" Scenario.results_and_targets
       !! "/r/pending/job7.json" = None.
Proof.
  split; [|split; vm_compute; reflexivity].
  rewrite (move_wildcard_files_frame "job7*" "/r/pending" "/r/complete"
             Scenario.results_and_targets "/t/job7.targets");
    [vm_compute; reflexivity | | | ].
  - intros path n [content Hc] Hs.
    apply elem_of_map_to_list in Hc. vm_compute in Hc.
    repeat (apply elem_of_cons in Hc as [[= -> ->]|Hc];
            [vm_compute in Hs; first [discriminate Hs | injection Hs as <-; reflexivity]|]).
    by apply elem_of_nil in Hc.
  - intros path n [content Hc] Hs.
    apply elem_of_map_to_list in Hc. vm_compute in Hc.
    repeat (apply elem_of_cons in Hc as [[= -> ->]|Hc];
            [vm_compute in Hs; first [discriminate Hs | injection Hs as <-; reflexivity]|]).
    by apply elem_of_nil in Hc.
  - intros n Hf [content Hc] Hm.
    assert (Hin : n ∈ os_listdir Scenario.results_and_targets "/r/pending")
      by (apply elem_of_os_listdir; eauto).
    vm_compute in Hin.
    repeat (apply elem_of_cons in Hin as [->|Hin];
            [first [vm_compute in Hm; discriminate Hm
                   | split; vm_compute; discriminate]|]).
    by apply elem_of_nil in Hin.
Defined.

(** X4: a file of the source directory whose name does not match the
    pattern is left where it is, with its content. *)
Theorem move_wildcard_files_keeps_others pat src dst (files : filesystem) m :
  is_file_name m = true ->
  Fnmatch.fnmatch m pat = false ->
  move_wildcard_files pat src dst files !! os_path_join src m
  = files !! os_path_join src m.
Proof.
  intros Hf Hm. apply (fold_untouched pat src dst).
  intros n [Hn _]%elem_of_os_listdir Hmatch.
  split; intros [Heq _]%os_path_join_inj; try assumption; congruence.
Qed.

Lemma move_wildcard_files_keeps_others_witness :
  move_wildcard_files "job7*" "/r/pending" "/r/complete" Scenario.results
    !! os_path_join "/r/pending" "job[7].json" = Some "bracket".
Proof.
  rewrite (move_wildcard_files_keeps_others "job7*" "/r/pending" "/r/complete"
             Scenario.results "job[7].json"); vm_compute; reflexivity.
Defined.

(** ** Patterns [stem*] *)

Lemma list_ascii_of_string_append (a b : string) :
  list_ascii_of_string (a +:+ b) = list_ascii_of_string a ++ list_ascii_of_string b.
Proof.
  induction a as [|c a IH]; [reflexivity|].
  change (c :: list_ascii_of_string (a +:+ b)
          = c :: (list_ascii_of_string a ++ list_ascii_of_string b)).
  by rewrite IH.
Qed.

Lemma wildcard_match_star (name : list ascii) :
  wildcard_match ["*"%char] name = true.
Proof.
  cbn [wildcard_match]. change (Ascii.eqb "*" "*") with true. cbn iota.
  induction name as [|c name IH]; [reflexivity|]. exact IH.
Qed.

Lemma wildcard_match_plain_star (stem : string) (name : string) :
  is_plain stem = true ->
  wildcard_match (list_ascii_of_string stem ++ ["*"%char]) (list_ascii_of_string name)
  = String.prefix stem name.
Proof.
  unfold is_plain. revert name. induction stem as [|c stem IH]; intros name Hp.
  - cbn [list_ascii_of_string app]. rewrite wildcard_match_star.
    destruct name; reflexivity.
  - cbn [list_ascii_of_string forallb] in Hp.
    apply andb_true_iff in Hp as [Hc Hp].
    apply negb_true_iff, orb_false_iff in Hc as [Hc _].
    apply orb_false_iff in Hc as [Hstar Hq].
    cbn [list_ascii_of_string app wildcard_match]. rewrite Hstar.
    destruct name as [|d name]; [reflexivity|].
    cbn [list_ascii_of_string String.prefix]. rewrite Hq. cbn [orb].
    rewrite IH by exact Hp.
    destruct (ascii_dec c d) as [->|Hne].
    + by rewrite Ascii.eqb_refl.
    + assert (He : Ascii.eqb d c = false) by (apply Ascii.eqb_neq; congruence).
      by rewrite He.
Qed.

Lemma is_plain_no_bracket (stem : string) :
  is_plain stem = true -> ~ In "["%char (list_ascii_of_string (stem +:+ "*")).
Proof.
  unfold is_plain. rewrite list_ascii_of_string_append, forallb_forall.
  intros Hp [Hin|Hin]%in_app_or.
  - specialize (Hp _ Hin). cbn in Hp. discriminate Hp.
  - destruct Hin as [Hin|[]]. discriminate Hin.
Qed.

Lemma stem_star_is_prefix stem name :
  is_plain stem = true ->
  Fnmatch.fnmatch name (stem +:+ "*") = String.prefix stem name.
Proof.
  intros Hp. rewrite fnmatch_without_bracket by (by apply is_plain_no_bracket).
  rewrite list_ascii_of_string_append. by apply wildcard_match_plain_star.
Qed.

(** X5: for a stem without the characters [*], [?] and [[], the pattern
    [stem*] that [scan_site] passes to [move_wildcard_files] matches exactly
    the names that begin with the stem; so it also matches the files of
    another job whose stem begins with this one. *)
Theorem fnmatch_stem_star stem name :
  is_plain stem = true ->
  Fnmatch.fnmatch name (stem +:+ "*") = PyStr.startswith name stem.
Proof.
  intros Hp. rewrite fnmatch_without_bracket by (by apply is_plain_no_bracket).
  rewrite list_ascii_of_string_append. by apply wildcard_match_plain_star.
Qed.

Lemma fnmatch_stem_star_witness :
  Fnmatch.fnmatch "job10.json" ("job1" +:+ "*") = PyStr.startswith "job10.json" "job1".
Proof. apply (fnmatch_stem_star "job1" "job10.json"). reflexivity. Defined.

(** ** The argument vector of a command *)

Lemma split_ws_go_space (cur a b : string) :
  PyStr.split_ws_go cur (a +:+ String " " b)
  = PyStr.split_ws_go cur a ++ PyStr.split_ws b.
Proof.
  revert cur. induction a as [|c a IH]; intros cur.
  - change ("" +:+ String " " b) with (String " " b).
    cbn [PyStr.split_ws_go]. change (PyStr.isspace " ") with true. cbn iota.
    destruct (PyStr.is_empty cur); reflexivity.
  - change (String c a +:+ String " " b) with (String c (a +:+ String " " b)).
    cbn [PyStr.split_ws_go]. destruct (PyStr.isspace c).
    + destruct (PyStr.is_empty cur); rewrite IH; reflexivity.
    + apply IH.
Qed.

(** Splitting at whitespace distributes over a joining space. *)
Lemma split_ws_space (a b : string) :
  PyStr.split_ws (a +:+ String " " b) = PyStr.split_ws a ++ PyStr.split_ws b.
Proof. apply split_ws_go_space. Qed.

Lemma snoc_not_empty (s : string) (c : ascii) : PyStr.is_empty (PyStr.snoc s c) = false.
Proof. destruct s; reflexivity. Qed.

Lemma split_ws_go_word (cur s : string) :
  forallb (fun c => negb (PyStr.isspace c)) (list_ascii_of_string s) = true ->
  PyStr.split_ws_go cur s
  = if PyStr.is_empty (cur +:+ s) then [] else [cur +:+ s].
Proof.
  revert cur. induction s as [|c s IH]; intros cur Hs.
  - rewrite append_empty_r. reflexivity.
  - cbn [list_ascii_of_string forallb] in Hs. apply andb_true_iff in Hs as [Hc Hs].
    apply negb_true_iff in Hc. cbn [PyStr.split_ws_go]. rewrite Hc.
    rewrite IH by exact Hs. unfold PyStr.snoc.
    rewrite append_assoc. reflexivity.
Qed.

(** A word is one argument. *)
Lemma split_ws_word (s : string) : is_word s = true -> PyStr.split_ws s = [s].
Proof.
  unfold is_word. intros [He Hs]%andb_true_iff. apply negb_true_iff in He.
  unfold PyStr.split_ws. rewrite split_ws_go_word by exact Hs.
  change ("" +:+ s) with s. by rewrite He.
Qed.

(** X6: the argument vector of a fresh masscan command is [masscan]
    followed by the whitespace-separated pieces of [scan_command], of the
    targets file after [-iL], of the JSON file after [-oJ], of the user agent
    after [--http-user-agent] and, when an exclude file is given and its
    name is not empty, of that name after [--excludefile]: a value with
    whitespace in it becomes several arguments and an empty value none;
    with [None] or the empty string for the exclude file there is no
    [--excludefile] at all. *)
Theorem build_masscan_command_argv scan_command target_file excluded json_file ua :
  PyStr.split_ws
    (build_masscan_command scan_command target_file excluded json_file ua)
  = ["masscan"] ++ PyStr.split_ws scan_command
    ++ ["-iL"] ++ PyStr.split_ws target_file
    ++ ["-oJ"] ++ PyStr.split_ws json_file
    ++ ["--http-user-agent"] ++ PyStr.split_ws ua
    ++ match excluded with
       | Some f => if PyStr.is_empty f then [] else ["--excludefile"] ++ PyStr.split_ws f
       | None => []
       end.
Proof.
  unfold build_masscan_command.
  change ("masscan " +:+ scan_command +:+ " " +:+ ?x)
    with ("masscan" +:+ String " " (scan_command +:+ String " " x)).
  rewrite !split_ws_space.
  assert (Hnone : PyStr.split_ws ("-iL " +:+ target_file +:+ " -oJ " +:+ json_file
                                  +:+ " --http-user-agent " +:+ ua)
                  = ["-iL"] ++ PyStr.split_ws target_file
                    ++ ["-oJ"] ++ PyStr.split_ws json_file
                    ++ ["--http-user-agent"] ++ PyStr.split_ws ua).
  { change ("-iL " +:+ target_file +:+ " -oJ " +:+ json_file
            +:+ " --http-user-agent " +:+ ua)
      with ("-iL" +:+ String " " (target_file +:+ String " " ("-oJ" +:+ String " "
              (json_file +:+ String " " ("--http-user-agent" +:+ String " " ua))))).
    rewrite !split_ws_space. reflexivity. }
  destruct excluded as [f|]; [destruct (PyStr.is_empty f)|].
  - rewrite Hnone, !app_nil_r. reflexivity.
  - rewrite !append_assoc.
    change ("-iL " +:+ target_file +:+ " -oJ " +:+ json_file
            +:+ " --http-user-agent " +:+ ua +:+ " --excludefile " +:+ f)
      with ("-iL" +:+ String " " (target_file +:+ String " " ("-oJ" +:+ String " "
              (json_file +:+ String " " ("--http-user-agent" +:+ String " "
                 (ua +:+ String " " ("--excludefile" +:+ String " " f))))))).
    rewrite !split_ws_space. reflexivity.
  - rewrite Hnone, !app_nil_r. reflexivity.
Qed.

(** The exclude file of X6 at its three kinds of value: a name, the empty
    string, [None]. *)
Example masscan_excludefile_argv :
  PyStr.split_ws (build_masscan_command "-p80" "/t/job7.targets"
                    (Some "/t/job7.excluded_targets") "/r/pending/job7.json" "ua")
  = ["masscan"; "-p80"; "-iL"; "/t/job7.targets"; "-oJ"; "/r/pending/job7.json";
     "--http-user-agent"; "ua"; "--excludefile"; "/t/job7.excluded_targets"]
  /\ PyStr.split_ws (build_masscan_command "-p80" "/t/job7.targets"
                       (Some "") "/r/pending/job7.json" "ua")
     = ["masscan"; "-p80"; "-iL"; "/t/job7.targets"; "-oJ"; "/r/pending/job7.json";
        "--http-user-agent"; "ua"]
  /\ PyStr.split_ws (build_masscan_command "-p80" "/t/job7.targets"
                       None "/r/pending/job7.json" "ua")
     = ["masscan"; "-p80"; "-iL"; "/t/job7.targets"; "-oJ"; "/r/pending/job7.json";
        "--http-user-agent"; "ua"].
Proof. repeat split; vm_compute; reflexivity. Qed.

Lemma nmap_fresh_command_argv scan_command target_file excluded pending stem ua :
  PyStr.split_ws (nmap_fresh_command scan_command target_file excluded pending stem ua)
  = ["nmap"] ++ PyStr.split_ws scan_command
    ++ ["-iL"] ++ PyStr.split_ws target_file
    ++ ["-oA"] ++ PyStr.split_ws (os_path_join pending stem)
    ++ ["--script-args"] ++ PyStr.split_ws ("http.useragent='" +:+ ua +:+ "'")
    ++ match excluded with
       | Some f => ["--excludefile"] ++ PyStr.split_ws f
       | None => []
       end.
Proof.
  unfold nmap_fresh_command. destruct excluded as [f|].
  - change ("nmap " +:+ scan_command +:+ " -iL " +:+ target_file +:+ " -oA "
            +:+ os_path_join pending stem +:+ " --script-args http.useragent='"
            +:+ ua +:+ "'" +:+ " --excludefile " +:+ f)
      with ("nmap" +:+ String " " (scan_command +:+ String " " ("-iL" +:+ String " "
              (target_file +:+ String " " ("-oA" +:+ String " "
                 (os_path_join pending stem +:+ String " " ("--script-args" +:+ String " "
                    ("http.useragent='" +:+ ua +:+ "'" +:+
                       String " " ("--excludefile" +:+ String " " f))))))))).
    rewrite <- (append_assoc ua "'").
    rewrite <- (append_assoc "http.useragent='" (ua +:+ "'")).
    rewrite !split_ws_space. reflexivity.
  - rewrite append_empty_r.
    change ("nmap " +:+ scan_command +:+ " -iL " +:+ target_file +:+ " -oA "
            +:+ os_path_join pending stem +:+ " --script-args http.useragent='"
            +:+ ua +:+ "'")
      with ("nmap" +:+ String " " (scan_command +:+ String " " ("-iL" +:+ String " "
              (target_file +:+ String " " ("-oA" +:+ String " "
                 (os_path_join pending stem +:+ String " " ("--script-args" +:+ String " "
                    ("http.useragent='" +:+ ua +:+ "'")))))))).
    rewrite !split_ws_space. rewrite app_nil_r. reflexivity.
Qed.

(** X7: when there is no checkpoint to resume, the argument vector of the
    nmap command chosen by [scan_site] is [nmap], the pieces of
    [scan_command], [-iL] and the targets file, [-oA] and the result stem in
    [pending], [--script-args] and the pieces of [http.useragent='<ua>']
    with its quotes kept (no shell removes them; a user agent with a space
    in it becomes two arguments), and the exclude file when there is one. *)
Theorem nmap_command_argv scan_command stem target_file excluded pending ua w :
  ~ gnmap_checkpoint (fs w) (os_path_join pending (stem +:+ ".gnmap")) ->
  exists command,
    (nmap_command scan_command stem target_file excluded pending ua w).1 = Val command
    /\ PyStr.split_ws command
       = ["nmap"] ++ PyStr.split_ws scan_command
         ++ ["-iL"] ++ PyStr.split_ws target_file
         ++ ["-oA"] ++ PyStr.split_ws (os_path_join pending stem)
         ++ ["--script-args"] ++ PyStr.split_ws ("http.useragent='" +:+ ua +:+ "'")
         ++ match excluded with
            | Some f => ["--excludefile"] ++ PyStr.split_ws f
            | None => []
            end.
Proof.
  intros Hno.
  destruct (nmap_command_run scan_command stem target_file excluded pending ua w) as [Hr _].
  destruct (os_path_isfile _ _ && _) eqn:Hc in Hr.
  - exfalso. apply Hno, gnmap_checkpoint_spec, Hc.
  - eexists. split; [exact Hr|]. apply nmap_fresh_command_argv.
Qed.

Lemma nmap_command_argv_witness :
  exists command,
    (nmap_command "-sV" "job9" "/t/job9.targets" None "/r/pending" "Mozilla 5.0"
       Scenario.w0).1 = Val command
    /\ PyStr.split_ws command
       = ["nmap"; "-sV"; "-iL"; "/t/job9.targets"; "-oA"; "/r/pending/job9";
          "--script-args"; "http.useragent='Mozilla"; "5.0'"].
Proof.
  apply (nmap_command_argv "-sV" "job9" "/t/job9.targets" None "/r/pending" "Mozilla 5.0"
           Scenario.w0).
  intros (content & Hc & _). vm_compute in Hc. discriminate Hc.
Defined.

(** ** The supervised scan that ends with exit code 0 *)

Lemma dict_pop_run k p w :
  SCAN_PROCESS_DICT w !! k = Some p ->
  dict_pop (Some k) w = (Val p, set_SCAN_PROCESS_DICT (delete k (SCAN_PROCESS_DICT w)) w).
Proof.
  intros H. unfold dict_pop, dict_getitem, py_bind, gets, modify. cbn. rewrite H. reflexivity.
Qed.

Lemma supervise_exit_zero_run env job cfg command pending completed w child status body files' :
  popen env (PyStr.split_ws command) = Some child ->
  urlopen env (requests w) = UrlResponse status body ->
  child_exit env child (fs w) = (0%Z, files') ->
  let process := {| args := PyStr.split_ws command; pid := child |} in
  let started := [("scan_status", VStr "started"); ("scan_binary_process_id", VInt child)] in
  let done := [("completed_time", VStr (now env)); ("scan_status", VStr "completed");
               ("result_file_base_name", VStr (result_file_base_name job))] in
  let o2 := urlopen env (S (requests w)) in
  let w2 :=
    extend (update_events cfg job done o2) 1
      (set_fs (move_wildcard_files (result_file_base_name job +:+ "*") pending completed files')
         (extend [EvWait child 0] 0
            (set_fs files'
               (extend (update_events cfg job started (UrlResponse status body)) 1
                  (extend [EvLog INFO (MsgStartingScan (site_name job) child command)] 0
                     (set_SCAN_PROCESS_DICT (<[child := process]> (SCAN_PROCESS_DICT w))
                        (extend [EvSpawn (PyStr.split_ws command) child] 0 w))))))) in
  supervise env job cfg command pending completed w
  = match update_result o2 with
    | Val _ => (Val tt, set_SCAN_PROCESS_DICT (delete child (SCAN_PROCESS_DICT w2)) w2)
    | Exn e => (Exn e, w2)
    end.
Proof.
  intros Hpopen Hurl Hexit process started done o2 w2.
  unfold supervise.
  rewrite (py_bind_val _ _ _ _ _ (subprocess_Popen_run _ _ _ _ Hpopen)).
  cbn [pid].
  rewrite (py_bind_val _ _ _ _ _ (dict_setitem_run _ _ _)).
  rewrite (py_bind_val _ _ _ _ _ (log_run _ _ _)).
  unfold py_bind at 1. rewrite update_scan_information_run.
  cbn [requests extend set_SCAN_PROCESS_DICT Nat.add]. rewrite Hurl. cbn [update_result].
  erewrite py_bind_val; [|apply process_wait_run; cbn; exact Hexit].
  change (0 =? 0)%Z with true. cbn iota.
  unfold py_bind at 1, modify at 1. unfold py_bind at 1, get_current_time, py_ret at 1.
  unfold py_bind at 1. rewrite update_scan_information_run.
  cbn [requests extend set_SCAN_PROCESS_DICT set_fs Nat.add].
  fold o2. fold process. fold started. fold done.
  destruct (update_result o2) as [b|e] eqn:Ho2.
  - erewrite py_bind_val; [|apply dict_pop_run; cbn; apply lookup_insert_eq].
    reflexivity.
  - reflexivity.
Qed.

Lemma scan_site_body_supervise env job cfg w command w1 :
  PyStr.mem (scan_status job) ["pause"; "cancel"] = false ->
  scan_site_prepare job cfg w = (Val (Some command), w1) ->
  scan_site_body env job cfg w
  = supervise env job cfg command
      (os_path_join (scan_results_dir cfg) "pending")
      (os_path_join (scan_results_dir cfg) "complete") w1.
Proof.
  intros Hdir Hprep. unfold scan_site_body. rewrite Hdir.
  rewrite (py_bind_val _ _ _ _ _ Hprep). reflexivity.
Qed.

Lemma scan_site_prepare_world job cfg w r w1 :
  scan_site_prepare job cfg w = (r, w1) ->
  SCAN_PROCESS_DICT w1 = SCAN_PROCESS_DICT w
  /\ requests w1 = requests w
  /\ exists l, trace w1 = trace w ++ l
               /\ status_updates l = [] /\ spawned l = [] /\ killed l = [].
Proof.
  intros H. destruct (scan_site_prepare_frame job cfg w) as (files & l & Hw1 & Hlog).
  rewrite H in Hw1. cbn [snd] in Hw1. subst w1.
  split; [reflexivity|]. split; [reflexivity|].
  exists l. split; [reflexivity|]. by apply only_logs_observations.
Qed.

(** X8: when the child of a supervised scan ends with exit code 0 and both
    status updates are answered, [scan_site] returns with the files matching
    [<stem>*] moved from [pending] to [complete], the child's PID out of
    [SCAN_PROCESS_DICT], and exactly two status updates posted, [started]
    with the PID and then [completed] with the time and the stem. *)
Theorem scan_site_completed env job cfg w command w1 child s1 b1 s2 b2 files' :
  PyStr.mem (scan_status job) ["pause"; "cancel"] = false ->
  scan_site_prepare job cfg w = (Val (Some command), w1) ->
  popen env (PyStr.split_ws command) = Some child ->
  urlopen env (requests w) = UrlResponse s1 b1 ->
  urlopen env (S (requests w)) = UrlResponse s2 b2 ->
  child_exit env child (fs w1) = (0%Z, files') ->
  let out := scan_site env job cfg w in
  out.1 = Val tt
  /\ SCAN_PROCESS_DICT out.2 = delete child (SCAN_PROCESS_DICT w)
  /\ fs out.2
     = move_wildcard_files (result_file_base_name job +:+ "*")
         (os_path_join (scan_results_dir cfg) "pending")
         (os_path_join (scan_results_dir cfg) "complete") files'
  /\ status_updates (new_events w out.2)
     = [[("scan_status", VStr "started"); ("scan_binary_process_id", VInt child)];
        [("completed_time", VStr (now env)); ("scan_status", VStr "completed");
         ("result_file_base_name", VStr (result_file_base_name job))]].
Proof.
  intros Hdir Hprep Hpopen Hurl1 Hurl2 Hexit out.
  destruct (scan_site_prepare_world job cfg w _ _ Hprep)
    as (Hreg & Hreq & l & Htr & Hl & _ & _).
  rewrite <- Hreq in Hurl1, Hurl2.
  pose proof (supervise_exit_zero_run env job cfg command
                (os_path_join (scan_results_dir cfg) "pending")
                (os_path_join (scan_results_dir cfg) "complete")
                w1 child s1 b1 files' Hpopen Hurl1 Hexit) as Hrun.
  cbn zeta in Hrun. rewrite Hurl2 in Hrun. cbn [update_result] in Hrun.
  pose proof (scan_site_body_supervise env job cfg w command w1 Hdir Hprep) as Hbody.
  rewrite Hrun in Hbody. subst out. unfold scan_site.
  rewrite (py_try_val _ _ _ _ _ _ Hbody).
  cbn [fst snd SCAN_PROCESS_DICT fs set_SCAN_PROCESS_DICT set_fs extend].
  split; [reflexivity|]. split; [by rewrite delete_insert_eq, Hreg|].
  split; [reflexivity|].
  unfold new_events. cbn [trace set_SCAN_PROCESS_DICT set_fs extend].
  rewrite Htr, <- !app_assoc, drop_app_length.
  rewrite !status_updates_app, !status_updates_update_events, Hl. reflexivity.
Qed.

Lemma scan_site_completed_witness :
  let out := scan_site Scenario.env_ok Scenario.job7 Scenario.cfg Scenario.w0 in
  out.1 = Val tt
  /\ SCAN_PROCESS_DICT out.2 = delete 4242%Z (SCAN_PROCESS_DICT Scenario.w0)
  /\ fs out.2
     = move_wildcard_files ("job7" +:+ "*") "/r/pending" "/r/complete"
         {[ "/t/job7.targets" := "10.0.0.0/24" ]}
  /\ status_updates (new_events Scenario.w0 out.2)
     = [[("scan_status", VStr "started"); ("scan_binary_process_id", VInt 4242)];
        [("completed_time", VStr "2020-01-01 00:00:00"); ("scan_status", VStr "completed");
         ("result_file_base_name", VStr "job7")]].
Proof.
  apply (scan_site_completed Scenario.env_ok Scenario.job7 Scenario.cfg Scenario.w0
           "masscan -p80 --rate 1000 -iL /t/job7.targets -oJ /r/pending/job7.json --http-user-agent ua"
           (set_fs {[ "/t/job7.targets" := "10.0.0.0/24" ]} Scenario.w0)
           4242 200 "[]" 200 "[]" {[ "/t/job7.targets" := "10.0.0.0/24" ]});
    [reflexivity | vm_compute; reflexivity | reflexivity | reflexivity | reflexivity
    | vm_compute; reflexivity].
Defined.

Lemma update_result_raises (o : url_outcome) :
  (forall status body, o <> UrlResponse status body) ->
  exists e, update_result o = Exn e /\ is_Exception e = true.
Proof.
  intros H. destruct o as [status body|code| |class_name].
  - exfalso. by apply (H status body).
  - eexists. split; reflexivity.
  - eexists. split; reflexivity.
  - eexists. split; reflexivity.
Qed.

(** X9: when the child ends with exit code 0 but the [completed] update is
    not answered ([urlopen] raises), the result files have already been
    moved to [complete], the child's PID stays in [SCAN_PROCESS_DICT], and
    the handler of [scan_site] posts [scan_status = error] as a third
    update. *)
Theorem scan_site_update_fails_after_move env job cfg w command w1 child s1 b1 files' :
  PyStr.mem (scan_status job) ["pause"; "cancel"] = false ->
  scan_site_prepare job cfg w = (Val (Some command), w1) ->
  popen env (PyStr.split_ws command) = Some child ->
  urlopen env (requests w) = UrlResponse s1 b1 ->
  (forall status body, urlopen env (S (requests w)) <> UrlResponse status body) ->
  child_exit env child (fs w1) = (0%Z, files') ->
  let out := scan_site env job cfg w in
  SCAN_PROCESS_DICT out.2 !! child
  = Some {| args := PyStr.split_ws command; pid := child |}
  /\ fs out.2
     = move_wildcard_files (result_file_base_name job +:+ "*")
         (os_path_join (scan_results_dir cfg) "pending")
         (os_path_join (scan_results_dir cfg) "complete") files'
  /\ status_updates (new_events w out.2)
     = [[("scan_status", VStr "started"); ("scan_binary_process_id", VInt child)];
        [("completed_time", VStr (now env)); ("scan_status", VStr "completed");
         ("result_file_base_name", VStr (result_file_base_name job))];
        [("scan_status", VStr "error")]].
Proof.
  intros Hdir Hprep Hpopen Hurl1 Hurl2 Hexit out.
  destruct (scan_site_prepare_world job cfg w _ _ Hprep)
    as (Hreg & Hreq & l & Htr & Hl & _ & _).
  rewrite <- Hreq in Hurl1, Hurl2.
  destruct (update_result_raises _ Hurl2) as (e & He & Hexc).
  pose proof (supervise_exit_zero_run env job cfg command
                (os_path_join (scan_results_dir cfg) "pending")
                (os_path_join (scan_results_dir cfg) "complete")
                w1 child s1 b1 files' Hpopen Hurl1 Hexit) as Hrun.
  cbn zeta in Hrun. rewrite He in Hrun.
  pose proof (scan_site_body_supervise env job cfg w command w1 Hdir Hprep) as Hbody.
  rewrite Hrun in Hbody. subst out. unfold scan_site.
  rewrite (py_try_caught _ _ _ _ _ _ Hbody Hexc).
  rewrite error_handler_run.
  cbn [fst snd SCAN_PROCESS_DICT fs set_SCAN_PROCESS_DICT set_fs extend].
  split; [apply lookup_insert_eq|]. split; [reflexivity|].
  unfold new_events. cbn [trace set_SCAN_PROCESS_DICT set_fs extend].
  rewrite Htr, <- !app_assoc, drop_app_length.
  rewrite !status_updates_app, !status_updates_update_events, Hl. reflexivity.
Qed.

Lemma scan_site_update_fails_after_move_witness :
  let out := scan_site Scenario.env_second_500 Scenario.job7 Scenario.cfg Scenario.w0 in
  SCAN_PROCESS_DICT out.2 !! 4242%Z
  = Some {| args := PyStr.split_ws
                      "masscan -p80 --rate 1000 -iL /t/job7.targets -oJ /r/pending/job7.json --http-user-agent ua";
            pid := 4242 |}
  /\ fs out.2
     = move_wildcard_files ("job7" +:+ "*") "/r/pending" "/r/complete"
         {[ "/t/job7.targets" := "10.0.0.0/24" ]}
  /\ status_updates (new_events Scenario.w0 out.2)
     = [[("scan_status", VStr "started"); ("scan_binary_process_id", VInt 4242)];
        [("completed_time", VStr "2020-01-01 00:00:00"); ("scan_status", VStr "completed");
         ("result_file_base_name", VStr "job7")];
        [("scan_status", VStr "error")]].
Proof.
  apply (scan_site_update_fails_after_move Scenario.env_second_500 Scenario.job7 Scenario.cfg Scenario.w0
           "masscan -p80 --rate 1000 -iL /t/job7.targets -oJ /r/pending/job7.json --http-user-agent ua"
           (set_fs {[ "/t/job7.targets" := "10.0.0.0/24" ]} Scenario.w0)
           4242 200 "[]" {[ "/t/job7.targets" := "10.0.0.0/24" ]});
    [reflexivity | vm_compute; reflexivity | reflexivity | reflexivity
    | intros status body; discriminate | vm_compute; reflexivity].
Defined.

(** X10: when the scanner cannot be started ([subprocess.Popen] raises),
    [scan_site] starts and registers nothing, waits for nothing, and posts
    the single status update [scan_status = error]. *)
Theorem scan_site_spawn_fails env job cfg w command w1 :
  PyStr.mem (scan_status job) ["pause"; "cancel"] = false ->
  scan_site_prepare job cfg w = (Val (Some command), w1) ->
  popen env (PyStr.split_ws command) = None ->
  let out := scan_site env job cfg w in
  SCAN_PROCESS_DICT out.2 = SCAN_PROCESS_DICT w
  /\ spawned (new_events w out.2) = []
  /\ In (EvLog ERROR (MsgErrorWithScan (id job) OSError)) (new_events w out.2)
  /\ status_updates (new_events w out.2) = [[("scan_status", VStr "error")]].
Proof.
  intros Hdir Hprep Hpopen out.
  destruct (scan_site_prepare_world job cfg w _ _ Hprep)
    as (Hreg & Hreq & l & Htr & Hl & Hsp & _).
  pose proof (scan_site_body_supervise env job cfg w command w1 Hdir Hprep) as Hbody.
  assert (Hsup : supervise env job cfg command
                   (os_path_join (scan_results_dir cfg) "pending")
                   (os_path_join (scan_results_dir cfg) "complete") w1
                 = (Exn OSError, w1)).
  { unfold supervise, subprocess_Popen. rewrite Hpopen. reflexivity. }
  rewrite Hsup in Hbody. subst out. unfold scan_site.
  rewrite (py_try_caught _ _ _ _ _ _ Hbody eq_refl).
  rewrite error_handler_run. cbn [fst snd SCAN_PROCESS_DICT extend].
  split; [exact Hreg|].
  unfold new_events. cbn [trace extend]. rewrite Htr, <- !app_assoc, drop_app_length.
  split; [|split].
  - rewrite !spawned_app, spawned_update_events, Hsp. reflexivity.
  - apply in_or_app. right. left. reflexivity.
  - rewrite !status_updates_app, status_updates_update_events, Hl. reflexivity.
Qed.

Lemma scan_site_spawn_fails_witness :
  let out := scan_site Scenario.env_no_spawn Scenario.job7 Scenario.cfg Scenario.w0 in
  SCAN_PROCESS_DICT out.2 = SCAN_PROCESS_DICT Scenario.w0
  /\ spawned (new_events Scenario.w0 out.2) = []
  /\ In (EvLog ERROR (MsgErrorWithScan (id Scenario.job7) OSError))
        (new_events Scenario.w0 out.2)
  /\ status_updates (new_events Scenario.w0 out.2) = [[("scan_status", VStr "error")]].
Proof.
  apply (scan_site_spawn_fails Scenario.env_no_spawn Scenario.job7 Scenario.cfg Scenario.w0
           "masscan -p80 --rate 1000 -iL /t/job7.targets -oJ /r/pending/job7.json --http-user-agent ua"
           (set_fs {[ "/t/job7.targets" := "10.0.0.0/24" ]} Scenario.w0));
    [reflexivity | vm_compute; reflexivity | reflexivity].
Defined.

(** ** Pause and cancel of a tracked scan *)

Lemma scan_site_kill_run job cfg pending cancelled w k p a :
  scan_binary_process_id job = Some k ->
  SCAN_PROCESS_DICT w !! k = Some p ->
  args p !! 0%nat = Some a ->
  PyStr.mem a (supported_scan_binaries cfg) = true ->
  let w1 := set_SCAN_PROCESS_DICT (delete k (SCAN_PROCESS_DICT w))
              (extend [EvLog INFO (MsgKilled (Some k))] 0
                 (extend [EvKill (pid p)] 0 w)) in
  scan_site_kill job cfg pending cancelled w
  = if String.eqb (scan_status job) "cancel" then
      (Val (Some "cancelled"),
       set_fs (move_wildcard_files (result_file_base_name job +:+ "*")
                 pending cancelled (fs w)) w1)
    else if String.eqb (scan_status job) "pause" then (Val (Some "paused"), w1)
    else (Val None, w1).
Proof.
  intros Hk Hp Ha Hs w1. unfold scan_site_kill. rewrite Hk.
  assert (Hget : dict_getitem (Some k) w = (Val p, w)).
  { unfold dict_getitem, py_bind, gets. cbn. rewrite Hp. reflexivity. }
  rewrite (py_bind_val _ _ _ _ _ Hget).
  unfold list_getitem. rewrite Ha. unfold py_bind at 1, py_ret at 1. rewrite Hs.
  unfold py_bind at 1, process_kill, modify at 1.
  unfold py_bind at 1, process_communicate, py_ret at 1.
  cbn [fst snd py_not andb].
  rewrite (py_bind_val _ _ _ _ _ (log_run _ _ _)).
  erewrite py_bind_val; [|apply dict_pop_run; cbn; exact Hp].
  destruct (String.eqb (scan_status job) "cancel"); [reflexivity|].
  destruct (String.eqb (scan_status job) "pause"); reflexivity.
Qed.

Lemma scan_site_directive_run env job cfg w status body new_status w1 :
  PyStr.mem (scan_status job) ["pause"; "cancel"] = true ->
  scan_site_kill job cfg (os_path_join (scan_results_dir cfg) "pending")
    (os_path_join (scan_results_dir cfg) "cancelled")
    (extend [EvLog INFO (MsgReceivedRequest (scan_status job))] 0 w)
  = (Val (Some new_status), w1) ->
  urlopen env (requests w1) = UrlResponse status body ->
  scan_site env job cfg w
  = (Val tt,
     extend (update_events cfg job [("scan_status", VStr new_status)]
               (UrlResponse status body)) 1 w1).
Proof.
  intros Hdir Hkill Hurl. unfold scan_site. erewrite py_try_val; [reflexivity|].
  unfold scan_site_body. rewrite Hdir.
  rewrite (py_bind_val _ _ _ _ _ (log_run _ _ _)).
  rewrite (py_bind_val _ _ _ _ _ (py_try_val _ _ _ _ _ _ Hkill)).
  unfold local. unfold py_bind at 1, py_ret at 1.
  unfold py_bind at 1. rewrite update_scan_information_run, Hurl. reflexivity.
Qed.

(** X11: a cancel directive for a PID that is in [SCAN_PROCESS_DICT] with a
    supported scan binary kills that process, removes the PID from the
    dictionary, moves the files matching [<stem>*] from [pending] to
    [cancelled], and posts the single status update [cancelled]. *)
Theorem scan_site_cancel env job cfg w k p a status body :
  scan_status job = "cancel" ->
  scan_binary_process_id job = Some k ->
  SCAN_PROCESS_DICT w !! k = Some p ->
  args p !! 0%nat = Some a ->
  PyStr.mem a (supported_scan_binaries cfg) = true ->
  urlopen env (requests w) = UrlResponse status body ->
  let out := scan_site env job cfg w in
  out.1 = Val tt
  /\ killed (new_events w out.2) = [pid p]
  /\ SCAN_PROCESS_DICT out.2 = delete k (SCAN_PROCESS_DICT w)
  /\ fs out.2
     = move_wildcard_files (result_file_base_name job +:+ "*")
         (os_path_join (scan_results_dir cfg) "pending")
         (os_path_join (scan_results_dir cfg) "cancelled") (fs w)
  /\ status_updates (new_events w out.2) = [[("scan_status", VStr "cancelled")]].
Proof.
  intros Hst Hk Hp Ha Hs Hurl out.
  pose proof (scan_site_kill_run job cfg (os_path_join (scan_results_dir cfg) "pending")
                (os_path_join (scan_results_dir cfg) "cancelled")
                (extend [EvLog INFO (MsgReceivedRequest (scan_status job))] 0 w)
                k p a Hk Hp Ha Hs) as Hkill.
  cbn zeta in Hkill.
  assert (Hc : String.eqb (scan_status job) "cancel" = true) by (rewrite Hst; reflexivity).
  rewrite Hc in Hkill.
  assert (Hdir : PyStr.mem (scan_status job) ["pause"; "cancel"] = true)
    by (rewrite Hst; reflexivity).
  subst out.
  rewrite (scan_site_directive_run env job cfg w status body _ _ Hdir Hkill Hurl).
  cbn [fst snd SCAN_PROCESS_DICT fs set_SCAN_PROCESS_DICT set_fs extend].
  split; [reflexivity|].
  unfold new_events. cbn [trace set_SCAN_PROCESS_DICT set_fs extend].
  rewrite <- !app_assoc, drop_app_length.
  split; [|split; [reflexivity|split; [reflexivity|]]].
  - rewrite !killed_app, killed_update_events. reflexivity.
  - rewrite !status_updates_app, status_updates_update_events. reflexivity.
Qed.

Lemma scan_site_cancel_witness :
  let out := scan_site Scenario.env_ok Scenario.cancel8 Scenario.cfg
               Scenario.w_job8_running in
  out.1 = Val tt
  /\ killed (new_events Scenario.w_job8_running out.2) = [4242%Z]
  /\ SCAN_PROCESS_DICT out.2 = delete 4242%Z (SCAN_PROCESS_DICT Scenario.w_job8_running)
  /\ fs out.2
     = move_wildcard_files ("job8" +:+ "*") "/r/pending" "/r/cancelled"
         (fs Scenario.w_job8_running)
  /\ status_updates (new_events Scenario.w_job8_running out.2)
     = [[("scan_status", VStr "cancelled")]].
Proof.
  apply (scan_site_cancel Scenario.env_ok Scenario.cancel8 Scenario.cfg
           Scenario.w_job8_running 4242%Z {| args := ["nmap"; "-sV"]; pid := 4242 |}
           "nmap" 200 "[]"); vm_compute; reflexivity.
Defined.

(** X12: a pause directive for a PID that is in [SCAN_PROCESS_DICT] with a
    supported scan binary kills that process, removes the PID from the
    dictionary, leaves every file where it is (so the checkpoint stays in
    [pending]), and posts the single status update [paused]. *)
Theorem scan_site_pause env job cfg w k p a status body :
  scan_status job = "pause" ->
  scan_binary_process_id job = Some k ->
  SCAN_PROCESS_DICT w !! k = Some p ->
  args p !! 0%nat = Some a ->
  PyStr.mem a (supported_scan_binaries cfg) = true ->
  urlopen env (requests w) = UrlResponse status body ->
  let out := scan_site env job cfg w in
  out.1 = Val tt
  /\ killed (new_events w out.2) = [pid p]
  /\ SCAN_PROCESS_DICT out.2 = delete k (SCAN_PROCESS_DICT w)
  /\ fs out.2 = fs w
  /\ status_updates (new_events w out.2) = [[("scan_status", VStr "paused")]].
Proof.
  intros Hst Hk Hp Ha Hs Hurl out.
  pose proof (scan_site_kill_run job cfg (os_path_join (scan_results_dir cfg) "pending")
                (os_path_join (scan_results_dir cfg) "cancelled")
                (extend [EvLog INFO (MsgReceivedRequest (scan_status job))] 0 w)
                k p a Hk Hp Ha Hs) as Hkill.
  cbn zeta in Hkill.
  assert (Hc : String.eqb (scan_status job) "cancel" = false) by (rewrite Hst; reflexivity).
  assert (Hc' : String.eqb (scan_status job) "pause" = true) by (rewrite Hst; reflexivity).
  rewrite Hc, Hc' in Hkill.
  assert (Hdir : PyStr.mem (scan_status job) ["pause"; "cancel"] = true)
    by (rewrite Hst; reflexivity).
  subst out.
  rewrite (scan_site_directive_run env job cfg w status body _ _ Hdir Hkill Hurl).
  cbn [fst snd SCAN_PROCESS_DICT fs set_SCAN_PROCESS_DICT set_fs extend].
  split; [reflexivity|].
  unfold new_events. cbn [trace set_SCAN_PROCESS_DICT set_fs extend].
  rewrite <- !app_assoc, drop_app_length.
  split; [|split; [reflexivity|split; [reflexivity|]]].
  - rewrite !killed_app, killed_update_events. reflexivity.
  - rewrite !status_updates_app, status_updates_update_events. reflexivity.
Qed.

Lemma scan_site_pause_witness :
  let out := scan_site Scenario.env_ok Scenario.pause8 Scenario.cfg
               Scenario.w_job8_running in
  out.1 = Val tt
  /\ killed (new_events Scenario.w_job8_running out.2) = [4242%Z]
  /\ SCAN_PROCESS_DICT out.2 = delete 4242%Z (SCAN_PROCESS_DICT Scenario.w_job8_running)
  /\ fs out.2 = fs Scenario.w_job8_running
  /\ status_updates (new_events Scenario.w_job8_running out.2)
     = [[("scan_status", VStr "paused")]].
Proof.
  apply (scan_site_pause Scenario.env_ok Scenario.pause8 Scenario.cfg
           Scenario.w_job8_running 4242%Z {| args := ["nmap"; "-sV"]; pid := 4242 |}
           "nmap" 200 "[]"); vm_compute; reflexivity.
Defined.

(** ** Where the files of a job end up *)

Lemma append_inj_l (a x y : string) : a +:+ x = a +:+ y -> x = y.
Proof.
  induction a as [|c a IH]; [trivial|].
  change (String c (a +:+ x) = String c (a +:+ y) -> x = y). intros [= H]. by apply IH.
Qed.

(** Two subdirectories of one results directory are different directories
    when their names differ, also up to a final slash. *)
Lemma dir_prefix_join_distinct (results sub1 sub2 : string) :
  PyStr.startswith sub1 "/" = false -> PyStr.startswith sub2 "/" = false ->
  sub1 <> sub2 -> sub1 <> sub2 +:+ "/" -> sub1 +:+ "/" <> sub2 ->
  sub1 +:+ "/" <> sub2 +:+ "/" ->
  dir_prefix (os_path_join results sub1) <> dir_prefix (os_path_join results sub2).
Proof.
  intros H1 H2 Ha Hb Hc Hd. unfold os_path_join. rewrite H1, H2.
  set (P := dir_prefix results). unfold dir_prefix.
  destruct (PyStr.is_empty (P +:+ sub1) || ends_with_slash (P +:+ sub1));
    destruct (PyStr.is_empty (P +:+ sub2) || ends_with_slash (P +:+ sub2));
    rewrite ?append_assoc; intros H%append_inj_l; contradiction.
Qed.

Lemma pending_complete_distinct (results : string) :
  dir_prefix (os_path_join results "pending")
  <> dir_prefix (os_path_join results "complete").
Proof. apply dir_prefix_join_distinct; [reflexivity..| | | |]; discriminate. Qed.

Lemma pending_cancelled_distinct (results : string) :
  dir_prefix (os_path_join results "pending")
  <> dir_prefix (os_path_join results "cancelled").
Proof. apply dir_prefix_join_distinct; [reflexivity..| | | |]; discriminate. Qed.

Lemma prefix_append (a b : string) : String.prefix a (a +:+ b) = true.
Proof.
  induction a as [|c a IH]; [by destruct b|].
  change (String.prefix (String c a) (String c (a +:+ b)) = true).
  cbn [String.prefix]. by destruct (ascii_dec c c).
Qed.

Lemma moved_by_stem stem src dst (files : filesystem) n content :
  is_plain stem = true ->
  is_file_name n = true ->
  PyStr.startswith n stem = true ->
  files !! os_path_join src n = Some content ->
  dir_prefix src <> dir_prefix dst ->
  move_wildcard_files (stem +:+ "*") src dst files !! os_path_join dst n = Some content
  /\ move_wildcard_files (stem +:+ "*") src dst files !! os_path_join src n = None.
Proof.
  intros Hp Hf Hs Hc Hdir.
  assert (Hm : Fnmatch.fnmatch n (stem +:+ "*") = true)
    by (rewrite stem_star_is_prefix; assumption).
  assert (Hin : n ∈ os_listdir files src) by (apply elem_of_os_listdir; eauto).
  split.
  - apply (fold_moved (stem +:+ "*") src dst); auto using NoDup_os_listdir,
      Forall_file_name_os_listdir.
  - apply (fold_removed (stem +:+ "*") src dst); eauto using NoDup_os_listdir,
      Forall_file_name_os_listdir.
Qed.

Lemma completed_run_files env job cfg w command w1 child s1 b1 s2 b2 files' :
  PyStr.mem (scan_status job) ["pause"; "cancel"] = false ->
  scan_site_prepare job cfg w = (Val (Some command), w1) ->
  popen env (PyStr.split_ws command) = Some child ->
  urlopen env (requests w) = UrlResponse s1 b1 ->
  urlopen env (S (requests w)) = UrlResponse s2 b2 ->
  child_exit env child (fs w1) = (0%Z, files') ->
  fs (scan_site env job cfg w).2
  = move_wildcard_files (result_file_base_name job +:+ "*")
      (os_path_join (scan_results_dir cfg) "pending")
      (os_path_join (scan_results_dir cfg) "complete") files'.
Proof.
  intros Hdir Hprep Hpopen Hurl1 Hurl2 Hexit.
  destruct (scan_site_prepare_world job cfg w _ _ Hprep) as (_ & Hreq & _).
  rewrite <- Hreq in Hurl1, Hurl2.
  pose proof (supervise_exit_zero_run env job cfg command
                (os_path_join (scan_results_dir cfg) "pending")
                (os_path_join (scan_results_dir cfg) "complete")
                w1 child s1 b1 files' Hpopen Hurl1 Hexit) as Hrun.
  cbn zeta in Hrun. rewrite Hurl2 in Hrun. cbn [update_result] in Hrun.
  pose proof (scan_site_body_supervise env job cfg w command w1 Hdir Hprep) as Hbody.
  rewrite Hrun in Hbody. unfold scan_site.
  rewrite (py_try_val _ _ _ _ _ _ Hbody). reflexivity.
Qed.

(** X13: after a scan that ended with exit code 0, every file that the
    child left in [pending] under a name beginning with the stem (a stem
    without wildcard characters) is in [complete] with its content and no
    longer in [pending]. *)
Theorem scan_site_moves_results_to_complete env job cfg w command w1 child s1 b1 s2 b2 files'
    n content :
  PyStr.mem (scan_status job) ["pause"; "cancel"] = false ->
  scan_site_prepare job cfg w = (Val (Some command), w1) ->
  popen env (PyStr.split_ws command) = Some child ->
  urlopen env (requests w) = UrlResponse s1 b1 ->
  urlopen env (S (requests w)) = UrlResponse s2 b2 ->
  child_exit env child (fs w1) = (0%Z, files') ->
  is_plain (result_file_base_name job) = true ->
  is_file_name n = true ->
  PyStr.startswith n (result_file_base_name job) = true ->
  files' !! os_path_join (os_path_join (scan_results_dir cfg) "pending") n = Some content ->
  let out := scan_site env job cfg w in
  fs out.2 !! os_path_join (os_path_join (scan_results_dir cfg) "complete") n = Some content
  /\ fs out.2 !! os_path_join (os_path_join (scan_results_dir cfg) "pending") n = None.
Proof.
  intros Hdir Hprep Hpopen Hurl1 Hurl2 Hexit Hplain Hf Hs Hc out. subst out.
  rewrite (completed_run_files env job cfg w command w1 child s1 b1 s2 b2 files'
             Hdir Hprep Hpopen Hurl1 Hurl2 Hexit).
  apply moved_by_stem; auto using pending_complete_distinct.
Qed.

Lemma scan_site_moves_results_to_complete_witness :
  let out := scan_site Scenario.env_leaves_json Scenario.job7 Scenario.cfg Scenario.w0 in
  fs out.2 !! os_path_join (os_path_join "/r" "complete") "job7.json" = Some "found"
  /\ fs out.2 !! os_path_join (os_path_join "/r" "pending") "job7.json" = None.
Proof.
  apply (scan_site_moves_results_to_complete Scenario.env_leaves_json Scenario.job7 Scenario.cfg
           Scenario.w0
           "masscan -p80 --rate 1000 -iL /t/job7.targets -oJ /r/pending/job7.json --http-user-agent ua"
           (set_fs {[ "/t/job7.targets" := "10.0.0.0/24" ]} Scenario.w0)
           4242 200 "[]" 200 "[]"
           (<["/r/pending/job7.json" := "found"]> {[ "/t/job7.targets" := "10.0.0.0/24" ]})
           "job7.json" "found");
    vm_compute; reflexivity.
Defined.

Lemma cancel_run_files env job cfg w k p a status body :
  scan_status job = "cancel" ->
  scan_binary_process_id job = Some k ->
  SCAN_PROCESS_DICT w !! k = Some p ->
  args p !! 0%nat = Some a ->
  PyStr.mem a (supported_scan_binaries cfg) = true ->
  urlopen env (requests w) = UrlResponse status body ->
  fs (scan_site env job cfg w).2
  = move_wildcard_files (result_file_base_name job +:+ "*")
      (os_path_join (scan_results_dir cfg) "pending")
      (os_path_join (scan_results_dir cfg) "cancelled") (fs w).
Proof.
  intros Hst Hk Hp Ha Hs Hurl.
  pose proof (scan_site_kill_run job cfg (os_path_join (scan_results_dir cfg) "pending")
                (os_path_join (scan_results_dir cfg) "cancelled")
                (extend [EvLog INFO (MsgReceivedRequest (scan_status job))] 0 w)
                k p a Hk Hp Ha Hs) as Hkill.
  cbn zeta in Hkill.
  assert (Hc : String.eqb (scan_status job) "cancel" = true) by (rewrite Hst; reflexivity).
  rewrite Hc in Hkill.
  assert (Hdir : PyStr.mem (scan_status job) ["pause"; "cancel"] = true)
    by (rewrite Hst; reflexivity).
  rewrite (scan_site_directive_run env job cfg w status body _ _ Hdir Hkill Hurl).
  reflexivity.
Qed.

(** X14: after a cancel directive for a tracked scan, every file of
    [pending] whose name begins with the stem (a stem without wildcard
    characters) is in [cancelled] with its content and no longer in
    [pending]. *)
Theorem scan_site_moves_results_to_cancelled env job cfg w k p a status body n content :
  scan_status job = "cancel" ->
  scan_binary_process_id job = Some k ->
  SCAN_PROCESS_DICT w !! k = Some p ->
  args p !! 0%nat = Some a ->
  PyStr.mem a (supported_scan_binaries cfg) = true ->
  urlopen env (requests w) = UrlResponse status body ->
  is_plain (result_file_base_name job) = true ->
  is_file_name n = true ->
  PyStr.startswith n (result_file_base_name job) = true ->
  fs w !! os_path_join (os_path_join (scan_results_dir cfg) "pending") n = Some content ->
  let out := scan_site env job cfg w in
  fs out.2 !! os_path_join (os_path_join (scan_results_dir cfg) "cancelled") n = Some content
  /\ fs out.2 !! os_path_join (os_path_join (scan_results_dir cfg) "pending") n = None.
Proof.
  intros Hst Hk Hp Ha Hs Hurl Hplain Hf Hpre Hc out. subst out.
  rewrite (cancel_run_files env job cfg w k p a status body Hst Hk Hp Ha Hs Hurl).
  apply moved_by_stem; auto using pending_cancelled_distinct.
Qed.

Lemma scan_site_moves_results_to_cancelled_witness :
  let out := scan_site Scenario.env_ok Scenario.cancel8 Scenario.cfg
               Scenario.w_job8_running in
  fs out.2 !! os_path_join (os_path_join "/r" "cancelled") "job8.gnmap" = Some "# Nmap"
  /\ fs out.2 !! os_path_join (os_path_join "/r" "pending") "job8.gnmap" = None.
Proof.
  apply (scan_site_moves_results_to_cancelled Scenario.env_ok Scenario.cancel8 Scenario.cfg
           Scenario.w_job8_running 4242%Z {| args := ["nmap"; "-sV"]; pid := 4242 |}
           "nmap" 200 "[]" "job8.gnmap" "# Nmap"); vm_compute; reflexivity.
Defined.

Lemma append_not_empty (a b : string) : b <> "" -> a +:+ b <> "".
Proof. intros Hb H. by apply append_eq_empty in H as [_ H]. Qed.

Lemma move_source_absent pat src dst (files : filesystem) m :
  is_file_name m = true ->
  files !! os_path_join src m = None ->
  dir_prefix src <> dir_prefix dst ->
  move_wildcard_files pat src dst files !! os_path_join src m = None.
Proof.
  intros Hf Hnone Hdir.
  rewrite <- Hnone. apply (fold_untouched pat src dst).
  intros n [Hn [c Hc]]%elem_of_os_listdir _. split.
  - intros [-> _]%os_path_join_inj; [congruence|assumption..].
  - intros [_ Heq]%os_path_join_inj; [|assumption..]. by symmetry in Heq.
Qed.

(** X15: after a cancel directive for a tracked scan with a stem that has
    neither wildcard characters nor a slash, no checkpoint
    [<pending>/<stem>.gnmap] is left, so a later nmap job with the same stem
    is started with the fresh command and does not resume. *)
Theorem cancelled_scan_starts_fresh env job cfg w k p a status body job' target_file excluded :
  scan_status job = "cancel" ->
  scan_binary_process_id job = Some k ->
  SCAN_PROCESS_DICT w !! k = Some p ->
  args p !! 0%nat = Some a ->
  PyStr.mem a (supported_scan_binaries cfg) = true ->
  urlopen env (requests w) = UrlResponse status body ->
  is_plain (result_file_base_name job) = true ->
  has_slash (result_file_base_name job) = false ->
  scan_binary job' = "nmap" ->
  result_file_base_name job' = result_file_base_name job ->
  let pending := os_path_join (scan_results_dir cfg) "pending" in
  (scan_site_command job' target_file excluded pending (http_useragent cfg)
     (scan_site env job cfg w).2).1
  = Val (Some (nmap_fresh_command (scan_command job') target_file excluded pending
                 (result_file_base_name job') (http_useragent cfg))).
Proof.
  intros Hst Hk Hp Ha Hs Hurl Hplain Hslash Hbin Hstem pending.
  destruct (scan_site_command_nmap job' target_file excluded pending (http_useragent cfg)
              (scan_site env job cfg w).2 Hbin) as [Hr _].
  rewrite Hr. clear Hr. do 2 f_equal.
  assert (Hnone : fs (scan_site env job cfg w).2
                    !! os_path_join pending (result_file_base_name job' +:+ ".gnmap") = None).
  { rewrite (cancel_run_files env job cfg w k p a status body Hst Hk Hp Ha Hs Hurl).
    rewrite Hstem. fold pending.
    assert (Hf : is_file_name (result_file_base_name job +:+ ".gnmap") = true).
    { apply is_file_name_spec. split; [by apply append_not_empty|].
      rewrite has_slash_append, Hslash. reflexivity. }
    destruct (fs w !! os_path_join pending (result_file_base_name job +:+ ".gnmap"))
      as [content|] eqn:Hc.
    - refine (proj2 (moved_by_stem _ _ _ _ _ content Hplain Hf _ Hc _));
        [apply prefix_append | apply pending_cancelled_distinct].
    - apply move_source_absent;
        [exact Hf | exact Hc | apply pending_cancelled_distinct]. }
  unfold os_path_isfile. rewrite Hnone.
  rewrite bool_decide_false by (intros [? ?]; discriminate). reflexivity.
Qed.

Lemma cancelled_scan_starts_fresh_witness :
  (scan_site_command Scenario.job8_again "/t/job8.targets" None
     (os_path_join "/r" "pending") "ua"
     (scan_site Scenario.env_ok Scenario.cancel8 Scenario.cfg Scenario.w_job8_running).2).1
  = Val (Some (nmap_fresh_command "-sV" "/t/job8.targets" None
                 (os_path_join "/r" "pending") "job8" "ua")).
Proof.
  apply (cancelled_scan_starts_fresh Scenario.env_ok Scenario.cancel8 Scenario.cfg
           Scenario.w_job8_running 4242%Z {| args := ["nmap"; "-sV"]; pid := 4242 |}
           "nmap" 200 "[]" Scenario.job8_again "/t/job8.targets" None);
    vm_compute; reflexivity.
Defined.

(** ** What [scan_site] can raise *)

Lemma oe_ret {A} (a : A) : only_Exception (py_ret a).
Proof. intros w e w' H. discriminate H. Qed.

Lemma oe_raise {A} (e : exn) : is_Exception e = true -> only_Exception (@py_raise A e).
Proof. intros He w e' w' [= <- _]. exact He. Qed.

Lemma oe_modify f : only_Exception (modify f).
Proof. intros w e w' H. discriminate H. Qed.

Lemma oe_gets {A} (f : world -> A) : only_Exception (gets f).
Proof. intros w e w' H. discriminate H. Qed.

Lemma oe_log l m : only_Exception (log l m).
Proof. apply oe_modify. Qed.

Lemma oe_bind {A B} (m : py A) (k : A -> py B) :
  only_Exception m -> (forall a, only_Exception (k a)) -> only_Exception (py_bind m k).
Proof.
  intros Hm Hk w e w' H. unfold py_bind in H.
  destruct (m w) as [[a|e0] w1] eqn:Hmw.
  - by apply (Hk a w1 e w').
  - injection H as <- <-. by apply (Hm w e0 w1).
Qed.

Lemma oe_try {A} (m : py A) catches handler :
  only_Exception m -> (forall e, only_Exception (handler e)) ->
  only_Exception (py_try m catches handler).
Proof.
  intros Hm Hh w e w' H. unfold py_try in H.
  destruct (m w) as [[a|e0] w1] eqn:Hmw; [discriminate H|].
  destruct (catches e0).
  - by apply (Hh e0 w1 e w').
  - injection H as <- <-. by apply (Hm w e0 w1).
Qed.

Ltac oe_step :=
  first
    [ apply oe_ret | apply oe_modify | apply oe_gets | apply oe_log
    | apply oe_raise; reflexivity
    | apply oe_bind; [|intros ?]
    | apply oe_try; [|intros ?] ].

Ltac oe_cases :=
  repeat match goal with
    | |- only_Exception (if ?b then _ else _) => destruct b
    | |- only_Exception (match ?x with _ => _ end) => destruct x
    | |- _ => oe_step
    end.

Lemma oe_list_getitem {A} (xs : list A) i : only_Exception (list_getitem xs i).
Proof. unfold list_getitem. oe_cases. Qed.

Lemma oe_dict_getitem key : only_Exception (dict_getitem key).
Proof. unfold dict_getitem. oe_cases. Qed.

Lemma oe_dict_pop key : only_Exception (dict_pop key).
Proof. unfold dict_pop. apply oe_bind; [apply oe_dict_getitem|intros ?]. oe_cases. Qed.

Lemma oe_local name v : only_Exception (local name v).
Proof. unfold local. oe_cases. Qed.

Lemma oe_urllib_urlopen env r : only_Exception (urllib_urlopen env r).
Proof. unfold urllib_urlopen. oe_cases. Qed.

Lemma oe_update_scan_information env agent job info :
  only_Exception (update_scan_information env agent job info).
Proof.
  unfold update_scan_information. apply oe_bind; [apply oe_log|intros ?].
  apply oe_bind; [apply oe_urllib_urlopen|intros ?]. oe_cases.
Qed.

Lemma oe_paused_file_output_filename acc lines :
  only_Exception (paused_file_output_filename acc lines).
Proof.
  revert acc. induction lines as [|line rest IH]; intros acc; cbn [paused_file_output_filename].
  - apply oe_ret.
  - destruct (PyStr.startswith line "output-filename"); [|apply IH].
    apply oe_bind; [apply oe_list_getitem|intros ?]. apply IH.
Qed.

Lemma oe_scan_site_command job target_file excluded pending ua :
  only_Exception (scan_site_command job target_file excluded pending ua).
Proof.
  unfold scan_site_command, masscan_command, nmap_command.
  destruct (String.eqb (scan_binary job) "masscan").
  - apply oe_bind; [|intros ?; apply oe_ret].
    apply oe_bind; [apply oe_gets|intros files].
    destruct (files !! "paused.conf"); [|apply oe_ret].
    apply oe_bind; [apply oe_log|intros ?].
    apply oe_bind; [apply oe_paused_file_output_filename|intros ?].
    oe_cases.
  - destruct (String.eqb (scan_binary job) "nmap"); oe_cases.
Qed.

Lemma oe_scan_site_prepare job cfg : only_Exception (scan_site_prepare job cfg).
Proof.
  unfold scan_site_prepare, write_target_files.
  apply oe_bind; [oe_cases|intros ?]. apply oe_scan_site_command.
Qed.

Lemma oe_supervise env job cfg command pending completed :
  only_Exception (supervise env job cfg command pending completed).
Proof.
  unfold supervise, subprocess_Popen, dict_setitem, process_wait, get_current_time.
  apply oe_bind; [oe_cases|intros ?].
  apply oe_bind; [oe_cases|intros ?].
  apply oe_bind; [oe_cases|intros ?].
  apply oe_bind; [apply oe_update_scan_information|intros ?].
  apply oe_bind.
  - apply oe_bind; [apply oe_gets|intros files].
    destruct (child_exit env _ files). oe_cases.
  - intros returncode. destruct (returncode =? 0)%Z; [|apply oe_ret].
    apply oe_bind; [oe_cases|intros ?].
    apply oe_bind; [apply oe_ret|intros ?].
    apply oe_bind; [apply oe_update_scan_information|intros ?].
    apply oe_bind; [apply oe_dict_pop|intros ?]. apply oe_ret.
Qed.

Lemma oe_scan_site_kill job cfg pending cancelled :
  only_Exception (scan_site_kill job cfg pending cancelled).
Proof.
  unfold scan_site_kill, process_kill, process_communicate.
  apply oe_bind; [apply oe_dict_getitem|intros process].
  apply oe_bind; [apply oe_list_getitem|intros args0].
  destruct (PyStr.mem args0 _); [|apply oe_ret].
  apply oe_bind; [oe_cases|intros ?].
  apply oe_bind; [oe_cases|intros ?].
  apply oe_bind; [oe_cases|intros ?].
  apply oe_bind; [apply oe_dict_pop|intros ?].
  oe_cases.
Qed.

Lemma oe_scan_site_body env job cfg : only_Exception (scan_site_body env job cfg).
Proof.
  unfold scan_site_body. destruct (PyStr.mem (scan_status job) _).
  - apply oe_bind; [apply oe_log|intros ?].
    apply oe_bind.
    + apply oe_try; [apply oe_scan_site_kill|intros ?; oe_cases].
    + intros status. apply oe_bind; [apply oe_local|intros ?].
      apply oe_bind; [apply oe_update_scan_information|intros ?]. apply oe_ret.
  - apply oe_bind; [apply oe_scan_site_prepare|intros chosen].
    destruct chosen; [apply oe_supervise|apply oe_ret].
Qed.

Lemma oe_scan_site env job cfg : only_Exception (scan_site env job cfg).
Proof.
  unfold scan_site. apply oe_try; [apply oe_scan_site_body|].
  intros e. apply oe_bind; [apply oe_log|intros ?].
  apply oe_bind; [apply oe_update_scan_information|intros ?]. apply oe_ret.
Qed.

(** X16: one turn of a worker always ends normally: whatever the job, the
    files, the control plane and the child do, every exception that leaves
    [scan_site] (also one raised inside its own handler) is caught and
    logged by [Worker.run], so a job cannot end the worker thread. *)
Theorem Worker_run_never_raises env scan_job_dict w :
  (Worker_run env scan_job_dict w).1 = Val tt.
Proof.
  unfold Worker_run, py_try.
  destruct (scan_site env scan_job_dict.1 scan_job_dict.2 w) as [[[]|e] w1] eqn:H;
    [reflexivity|].
  rewrite (oe_scan_site env _ _ w e w1 H). reflexivity.
Qed.

(** X17: [scan_site] raises only from its own handler: its body had
    raised, the handler sent the [error] update, which is the last status
    update sent, and the exception that leaves [scan_site] is the one that
    the exchange of this last request raised, whatever its class; it is one
    that [except Exception] catches. *)
Theorem scan_site_raises_from_handler env job cfg w e :
  (scan_site env job cfg w).1 = Exn e ->
  let w' := (scan_site env job cfg w).2 in
  (exists n, requests w' = S n /\ update_result (urlopen env n) = Exn e)
  /\ is_Exception e = true
  /\ last (status_updates (trace w')) = Some [("scan_status", VStr "error")]
  /\ exists e0, (scan_site_body env job cfg w).1 = Exn e0.
Proof.
  intros He w'.
  assert (Hexc : is_Exception e = true).
  { destruct (scan_site env job cfg w) as [r w2] eqn:Hrun. cbn in He. subst r.
    exact (oe_scan_site env job cfg w e w2 Hrun). }
  subst w'. revert He. unfold scan_site, py_try.
  destruct (scan_site_body env job cfg w) as [[[]|e0] w1] eqn:Hbody; [discriminate|].
  rewrite (oe_scan_site_body env job cfg w e0 w1 Hbody).
  rewrite error_handler_run. cbn [fst snd]. intros He.
  split; [|split; [exact Hexc|split; [|eauto]]].
  - exists (requests w1). split; [reflexivity|].
    destruct (update_result (urlopen env (requests w1))) as [b|x]; [discriminate He|].
    by injection He as ->.
  - cbn [trace extend].
    rewrite !status_updates_app, status_updates_update_events.
    cbn [status_updates omap list_omap status_update app].
    apply last_snoc.
Qed.

Lemma scan_site_raises_from_handler_witness :
  let w' := (scan_site Scenario.env_disconnects Scenario.job7 Scenario.cfg Scenario.w0).2 in
  (exists n, requests w' = S n
             /\ update_result (urlopen Scenario.env_disconnects n)
                = Exn (OtherException "RemoteDisconnected"))
  /\ is_Exception (OtherException "RemoteDisconnected") = true
  /\ last (status_updates (trace w')) = Some [("scan_status", VStr "error")]
  /\ exists e0, (scan_site_body Scenario.env_disconnects Scenario.job7 Scenario.cfg
                   Scenario.w0).1 = Exn e0.
Proof.
  apply (scan_site_raises_from_handler Scenario.env_disconnects Scenario.job7 Scenario.cfg
           Scenario.w0 (OtherException "RemoteDisconnected")).
  vm_compute. reflexivity.
Defined.

(** ** One turn of the poll loop *)

Lemma sleeps_app l1 l2 : sleeps (l1 ++ l2) = sleeps l1 ++ sleeps l2.
Proof. apply omap_app. Qed.

Lemma modify_run f w : modify f w = (Val tt, f w).
Proof. reflexivity. Qed.

Lemma time_sleep_run secs w :
  time_sleep secs w
  = if (secs <? 0)%Z then (Exn (OtherException "ValueError"), w)
    else (Val tt, emit (EvSleep secs) w).
Proof. unfold time_sleep. destruct (secs <? 0)%Z; reflexivity. Qed.

Lemma enqueue_scan_jobs_world cfg jobs w :
  let w' := (enqueue_scan_jobs cfg jobs w).2 in
  queue w' = queue w ++ map (fun job => (job, cfg)) jobs
  /\ sleeps (trace w') = sleeps (trace w) ++ replicate (length jobs) 5%Z
  /\ status_updates (trace w') = status_updates (trace w)
  /\ SCAN_PROCESS_DICT w' = SCAN_PROCESS_DICT w
  /\ fs w' = fs w.
Proof.
  revert w. induction jobs as [|job rest IH]; intros w.
  - cbn. rewrite !app_nil_r. repeat split.
  - cbn [enqueue_scan_jobs].
    rewrite (py_bind_val _ _ _ _ _ (log_run _ _ _)).
    rewrite (py_bind_val _ _ _ _ _ (modify_run _ _)).
    rewrite (py_bind_val _ _ _ _ _ (time_sleep_run 5 _)).
    match goal with
    | |- context [enqueue_scan_jobs cfg rest ?W] =>
        destruct (IH W) as (Hq & Hs & Hu & Hd & Hf)
    end.
    cbn zeta in *. rewrite Hq, Hs, Hu, Hd, Hf.
    cbn [queue trace emit extend set_queue SCAN_PROCESS_DICT fs map length replicate].
    rewrite <- !app_assoc, !sleeps_app, !status_updates_app. cbn.
    rewrite <- !app_assoc, !app_nil_r. repeat split.
Qed.

Lemma check_for_scan_jobs_world env agent w :
  let w' := (check_for_scan_jobs env agent w).2 in
  queue w' = queue w
  /\ sleeps (trace w') = sleeps (trace w)
  /\ status_updates (trace w') = status_updates (trace w)
  /\ SCAN_PROCESS_DICT w' = SCAN_PROCESS_DICT w
  /\ fs w' = fs w.
Proof.
  unfold check_for_scan_jobs, py_try, py_bind, urllib_urlopen, json_loads,
    log, modify, gets. cbn.
  destruct (urlopen env (requests w)) as [status body|code| |class_name]; cbn;
    [destruct (status =? 200)%Z; cbn; [destruct (json_loads_jobs env body); cbn|]|..];
    rewrite ?sleeps_app, ?status_updates_app; cbn; rewrite ?app_nil_r; repeat split.
Qed.

Lemma go_poll_run env cfg w :
  let w1 := (check_for_scan_jobs env cfg (extend [EvLog INFO MsgTrackedProcesses] 0 w)).2 in
  go_poll env cfg w
  = if scan_jobs_bool (fetched env w) then
      match fetched env w with
      | Some (JsonJobs jobs) => enqueue_scan_jobs cfg jobs w1
      | _ => (Exn (OtherException "TypeError"), w1)
      end
    else time_sleep (callback_interval_in_seconds cfg)
           (emit (EvLog INFO MsgNoScanJobs) w1).
Proof.
  intros w1. unfold go_poll.
  rewrite (py_bind_val _ _ _ _ _ (log_run _ _ _)).
  pose proof (check_for_scan_jobs_returns env cfg
                (extend [EvLog INFO MsgTrackedProcesses] 0 w)) as Hr.
  change (fetched env (extend [EvLog INFO MsgTrackedProcesses] 0 w))
    with (fetched env w) in Hr.
  unfold py_bind at 1. subst w1.
  destruct (check_for_scan_jobs env cfg _) as [r w1]. cbn [fst snd] in *. subst r.
  destruct (fetched env w) as [[[|job rest]|[|]]|]; reflexivity.
Qed.

(** X18: one turn of the poll loop of [Agent.go].  When the poll brings an
    array of jobs that is not empty, the turn puts every job on the queue,
    in order and paired with the configuration, sleeps 5 seconds after each
    and ends normally.  When the poll brings a true value that cannot be
    iterated over, the [for] statement raises [TypeError].  When the poll
    brings nothing (no answer, an empty array, a false value), the queue is
    left alone and the turn sleeps [callback_interval_in_seconds] once,
    which raises [ValueError] when the interval is negative.  The loop
    catches neither exception.  In every case the turn posts no status
    update and touches neither [SCAN_PROCESS_DICT] nor the files. *)
Theorem go_poll_enqueues env cfg w :
  let out := go_poll env cfg w in
  match fetched env w with
  | Some (JsonJobs (job :: rest)) =>
      out.1 = Val tt
      /\ queue out.2 = queue w ++ map (fun job => (job, cfg)) (job :: rest)
      /\ sleeps (trace out.2)
         = sleeps (trace w) ++ replicate (length (job :: rest)) 5%Z
  | Some (JsonScalar true) =>
      out.1 = Exn (OtherException "TypeError")
      /\ queue out.2 = queue w
      /\ sleeps (trace out.2) = sleeps (trace w)
  | _ =>
      queue out.2 = queue w
      /\ if (callback_interval_in_seconds cfg <? 0)%Z
         then out.1 = Exn (OtherException "ValueError")
              /\ sleeps (trace out.2) = sleeps (trace w)
         else out.1 = Val tt
              /\ sleeps (trace out.2)
                 = sleeps (trace w) ++ [callback_interval_in_seconds cfg]
  end
  /\ status_updates (trace out.2) = status_updates (trace w)
  /\ SCAN_PROCESS_DICT out.2 = SCAN_PROCESS_DICT w
  /\ fs out.2 = fs w.
Proof.
  intros out.
  pose proof (check_for_scan_jobs_world env cfg
                (extend [EvLog INFO MsgTrackedProcesses] 0 w)) as Hw.
  cbn zeta in Hw. subst out. rewrite go_poll_run. cbn zeta.
  set (w1 := (check_for_scan_jobs env cfg _).2) in *.
  destruct Hw as (Hq & Hs & Hu & Hd & Hf).
  cbn [queue trace extend SCAN_PROCESS_DICT fs] in Hq, Hs, Hu, Hd, Hf.
  rewrite sleeps_app in Hs. rewrite status_updates_app in Hu.
  change (sleeps [EvLog INFO MsgTrackedProcesses]) with (@nil Z) in Hs.
  change (status_updates [EvLog INFO MsgTrackedProcesses]) with (@nil pydict) in Hu.
  rewrite app_nil_r in Hs, Hu.
  assert (Hnothing :
    let out := time_sleep (callback_interval_in_seconds cfg)
                 (emit (EvLog INFO MsgNoScanJobs) w1) in
    (queue out.2 = queue w
     /\ if (callback_interval_in_seconds cfg <? 0)%Z
        then out.1 = Exn (OtherException "ValueError")
             /\ sleeps (trace out.2) = sleeps (trace w)
        else out.1 = Val tt
             /\ sleeps (trace out.2)
                = sleeps (trace w) ++ [callback_interval_in_seconds cfg])
    /\ status_updates (trace out.2) = status_updates (trace w)
    /\ SCAN_PROCESS_DICT out.2 = SCAN_PROCESS_DICT w
    /\ fs out.2 = fs w).
  { cbn zeta. rewrite time_sleep_run.
    destruct (callback_interval_in_seconds cfg <? 0)%Z;
      cbn [fst snd queue trace emit SCAN_PROCESS_DICT fs];
      rewrite <- ?app_assoc, ?sleeps_app, ?status_updates_app, Hq, Hs, Hu, Hd, Hf;
      cbn; rewrite ?app_nil_r; repeat split. }
  destruct (fetched env w) as [[[|job rest]|[|]]|]; cbn [scan_jobs_bool].
  - exact Hnothing.
  - destruct (enqueue_scan_jobs_world cfg (job :: rest) w1) as (Hq' & Hs' & Hu' & Hd' & Hf').
    cbn zeta in *. rewrite Hq', Hs', Hu', Hd', Hf', Hq, Hs, Hu, Hd, Hf.
    split; [|repeat split]. split; [apply enqueue_scan_jobs_returns|]. split; reflexivity.
  - cbn [fst snd]. rewrite Hq, Hs, Hu, Hd, Hf. repeat split.
  - exact Hnothing.
  - exact Hnothing.
Qed.

(** The turns of X18 that end the poll loop: a negative poll interval, and
    a 200 response whose body is [true]; the turn that enqueues two jobs. *)
Example go_poll_turns :
  (go_poll Scenario.env_500 Scenario.cfg_negative_interval Scenario.w0).1
  = Exn (OtherException "ValueError")
  /\ (go_poll Scenario.env_body_true Scenario.cfg Scenario.w0).1
     = Exn (OtherException "TypeError")
  /\ (go_poll Scenario.env_500 Scenario.cfg Scenario.w0).1 = Val tt
  /\ sleeps (trace (go_poll Scenario.env_500 Scenario.cfg Scenario.w0).2) = [30%Z]
  /\ queue (go_poll Scenario.env_two_jobs Scenario.cfg Scenario.w0).2
     = [(Scenario.job7, Scenario.cfg); (Scenario.job9, Scenario.cfg)]
  /\ sleeps (trace (go_poll Scenario.env_two_jobs Scenario.cfg Scenario.w0).2)
     = [5%Z; 5%Z].
Proof. repeat split; vm_compute; reflexivity. Qed.

(** ** The checkpoint file: which line counts *)

Lemma omap_output_filename_none (lines : list string) :
  Forall (fun line => PyStr.startswith line "output-filename" = false) lines ->
  omap output_filename_of_line lines = [].
Proof.
  induction 1 as [|line rest Hline _ IH]; [reflexivity|].
  cbn [omap list_omap]. unfold output_filename_of_line at 1. by rewrite Hline.
Qed.

(** X19: when [paused.conf] has several lines that begin with
    [output-filename], the loop of [scan_site] keeps the value of the last
    one: the text between the first and the second [" = "] of that line,
    stripped. *)
Theorem paused_file_last_line_wins before line after value w :
  Forall (fun l => PyStr.startswith l "output-filename" = true ->
                   is_Some (PyStr.split l " = " !! 1%nat)) before ->
  PyStr.startswith line "output-filename" = true ->
  PyStr.split line " = " !! 1%nat = Some value ->
  Forall (fun l => PyStr.startswith l "output-filename" = false) after ->
  paused_file_output_filename None (before ++ line :: after) w
  = (Val (Some (PyStr.strip value)), w).
Proof.
  intros Hbefore Hline Hvalue Hafter.
  rewrite paused_file_output_filename_run.
  - rewrite omap_app. cbn [omap list_omap]. unfold output_filename_of_line at 2.
    rewrite Hline, Hvalue. cbn [default].
    rewrite (omap_output_filename_none after Hafter).
    change (?x :: []) with ([x]). rewrite last_snoc. reflexivity.
  - apply Forall_app. split; [exact Hbefore|]. apply Forall_cons. split.
    + intros _. eauto.
    + eapply Forall_impl; [exact Hafter|]. intros l Hl Hl'. congruence.
Qed.

Lemma paused_file_last_line_wins_witness :
  paused_file_output_filename None
    (["output-filename = /r/pending/old.json" +:+ Scenario.nl]
     ++ ("output-filename = /r/pending/job7.json" +:+ Scenario.nl)
        :: ["rate = 1000" +:+ Scenario.nl]) Scenario.w0
  = (Val (Some (PyStr.strip ("/r/pending/job7.json" +:+ Scenario.nl))), Scenario.w0).
Proof.
  apply (paused_file_last_line_wins
           ["output-filename = /r/pending/old.json" +:+ Scenario.nl]
           ("output-filename = /r/pending/job7.json" +:+ Scenario.nl)
           ["rate = 1000" +:+ Scenario.nl]
           ("/r/pending/job7.json" +:+ Scenario.nl) Scenario.w0).
  - repeat constructor. intros _. vm_compute. eauto.
  - reflexivity.
  - vm_compute. reflexivity.
  - repeat constructor.
Defined.

(** ** The target files *)

Lemma stem_suffix_distinct dir stem :
  os_path_join dir (stem +:+ ".targets")
  <> os_path_join dir (stem +:+ ".excluded_targets").
Proof.
  unfold os_path_join, PyStr.startswith.
  assert (Hsame : String.prefix "/" (stem +:+ ".targets")
                  = String.prefix "/" (stem +:+ ".excluded_targets"))
    by (destruct stem as [|c stem]; [reflexivity|];
        change (String.prefix "/" (String c (stem +:+ ".targets"))
                = String.prefix "/" (String c (stem +:+ ".excluded_targets")));
        cbn [String.prefix]; destruct (ascii_dec "/" c); [|reflexivity];
        by destruct (stem +:+ ".targets"), (stem +:+ ".excluded_targets")).
  rewrite Hsame. destruct (String.prefix "/" (stem +:+ ".excluded_targets")).
  - intros H%append_inj_l. discriminate H.
  - intros H%append_inj_l%append_inj_l. discriminate H.
Qed.

Lemma scan_site_command_fs job target_file excluded pending ua w :
  fs (scan_site_command job target_file excluded pending ua w).2 = fs w.
Proof.
  destruct (scan_site_command_logs job target_file excluded pending ua w) as (l & -> & _).
  reflexivity.
Qed.

(** X20: before a scan is started, [scan_site] writes the targets to
    [<target_files_dir>/<stem>.targets]; it writes the excluded targets to
    [<target_files_dir>/<stem>.excluded_targets] only when they are not
    empty (an older file of that name is otherwise left as it is), and it
    writes no other file. *)
Theorem scan_site_prepare_files job cfg w :
  let target_file :=
    os_path_join (target_files_dir cfg) (result_file_base_name job +:+ ".targets") in
  let excluded_file :=
    os_path_join (target_files_dir cfg)
      (result_file_base_name job +:+ ".excluded_targets") in
  let files := fs (scan_site_prepare job cfg w).2 in
  files !! target_file = Some (targets job)
  /\ files !! excluded_file
     = (if PyStr.is_empty (excluded_targets job) then fs w !! excluded_file
        else Some (excluded_targets job))
  /\ forall p, p <> target_file -> p <> excluded_file -> files !! p = fs w !! p.
Proof.
  intros target_file excluded_file files. subst files.
  assert (Hne : target_file <> excluded_file) by apply stem_suffix_distinct.
  unfold scan_site_prepare, write_target_files. fold target_file. fold excluded_file.
  destruct (PyStr.is_empty (excluded_targets job)); cbn [negb];
    unfold py_bind, modify, py_ret; cbn beta iota;
    rewrite scan_site_command_fs; cbn [fs set_fs]; unfold write_file.
  - split; [apply lookup_insert_eq|]. split.
    + by rewrite lookup_insert_ne.
    + intros p Hp _. by rewrite lookup_insert_ne.
  - split; [|split].
    + rewrite lookup_insert_ne by congruence. apply lookup_insert_eq.
    + apply lookup_insert_eq.
    + intros p Hp Hp'. by rewrite !lookup_insert_ne.
Qed.

(** ** Which entries of [SCAN_PROCESS_DICT] a job touches *)

Section Registry.

Variable own : Z -> Prop.

Lemma ko_frame {A} (m : py A) :
  (forall w, SCAN_PROCESS_DICT (m w).2 = SCAN_PROCESS_DICT w) -> keeps_other_pids own m.
Proof.
  intros H w r w' k Hm _. specialize (H w). rewrite Hm in H. cbn [snd] in H.
  by rewrite H.
Qed.

Lemma ko_ret {A} (a : A) : keeps_other_pids own (py_ret a).
Proof. by apply ko_frame. Qed.

Lemma ko_raise {A} e : keeps_other_pids own (@py_raise A e).
Proof. by apply ko_frame. Qed.

Lemma ko_log l m : keeps_other_pids own (log l m).
Proof. by apply ko_frame. Qed.

Lemma ko_gets {A} (f : world -> A) : keeps_other_pids own (gets f).
Proof. by apply ko_frame. Qed.

Lemma ko_bind_post {A B} (Q : A -> Prop) (m : py A) (k : A -> py B) :
  keeps_other_pids own m ->
  (forall w a w', m w = (Val a, w') -> Q a) ->
  (forall a, Q a -> keeps_other_pids own (k a)) ->
  keeps_other_pids own (py_bind m k).
Proof.
  intros Hm HQ Hk w r w' j H Hj. unfold py_bind in H.
  destruct (m w) as [[a|e] w1] eqn:Hmw.
  - rewrite (Hk a (HQ _ _ _ Hmw) w1 r w' j H Hj). by apply (Hm w (Val a) w1).
  - injection H as <- <-. by apply (Hm w (Exn e) w1).
Qed.

Lemma ko_bind {A B} (m : py A) (k : A -> py B) :
  keeps_other_pids own m -> (forall a, keeps_other_pids own (k a)) ->
  keeps_other_pids own (py_bind m k).
Proof. intros Hm Hk. apply (ko_bind_post (fun _ => True)); auto. Qed.

Lemma ko_try {A} (m : py A) catches handler :
  keeps_other_pids own m -> (forall e, keeps_other_pids own (handler e)) ->
  keeps_other_pids own (py_try m catches handler).
Proof.
  intros Hm Hh w r w' j H Hj. unfold py_try in H.
  destruct (m w) as [[a|e] w1] eqn:Hmw.
  - injection H as <- <-. by apply (Hm w (Val a) w1).
  - destruct (catches e).
    + rewrite (Hh e w1 r w' j H Hj). by apply (Hm w (Exn e) w1).
    + injection H as <- <-. by apply (Hm w (Exn e) w1).
Qed.

Lemma ko_dict_setitem key process :
  own key -> keeps_other_pids own (dict_setitem key process).
Proof.
  intros Hown w r w' j [= <- <-] Hj. cbn. apply lookup_insert_ne. by intros ->.
Qed.

Lemma ko_dict_getitem key : keeps_other_pids own (dict_getitem key).
Proof.
  apply ko_frame. intros w. unfold dict_getitem, py_bind, gets. cbn.
  by destruct (key ≫= _).
Qed.

Lemma ko_dict_pop key :
  (forall k, key = Some k -> own k) -> keeps_other_pids own (dict_pop key).
Proof.
  intros Hown. unfold dict_pop. apply ko_bind; [apply ko_dict_getitem|intros p].
  apply ko_bind; [|intros ?; apply ko_ret].
  intros w r w' j [= <- <-] Hj. destruct key as [k|]; [|reflexivity].
  cbn. apply lookup_delete_ne. intros ->. by apply Hj, Hown.
Qed.

Lemma ko_update_scan_information env agent job info :
  keeps_other_pids own (update_scan_information env agent job info).
Proof. apply ko_frame. intros w. by rewrite update_scan_information_run. Qed.

Lemma ko_scan_site_prepare job cfg : keeps_other_pids own (scan_site_prepare job cfg).
Proof.
  apply ko_frame. intros w.
  destruct (scan_site_prepare job cfg w) as [r w1] eqn:H.
  by destruct (scan_site_prepare_world job cfg w r w1 H) as [Hreg _].
Qed.

End Registry.

Lemma ko_supervise env job cfg command pending completed :
  keeps_other_pids (own_pid env job) (supervise env job cfg command pending completed).
Proof.
  unfold supervise.
  apply (ko_bind_post _ (fun process => own_pid env job (pid process))).
  - apply ko_frame. intros w. unfold subprocess_Popen.
    by destruct (popen env _).
  - intros w process w'. unfold subprocess_Popen.
    destruct (popen env (PyStr.split_ws command)) as [child|] eqn:Hp; [|discriminate].
    intros [= <- _]. right. eauto.
  - intros process Hown.
    apply ko_bind; [by apply ko_dict_setitem|intros ?].
    apply ko_bind; [apply ko_log|intros ?].
    apply ko_bind; [apply ko_update_scan_information|intros ?].
    apply ko_bind.
    { apply ko_frame. intros w. unfold process_wait, py_bind, gets. cbn.
      by destruct (child_exit env _ _). }
    intros returncode. destruct (returncode =? 0)%Z; [|apply ko_ret].
    apply ko_bind; [by apply ko_frame|intros ?].
    apply ko_bind; [apply ko_ret|intros ?].
    apply ko_bind; [apply ko_update_scan_information|intros ?].
    apply ko_bind; [|intros ?; apply ko_ret].
    apply ko_dict_pop. by intros k [= <-].
Qed.

Lemma ko_scan_site_kill env job cfg pending cancelled :
  keeps_other_pids (own_pid env job) (scan_site_kill job cfg pending cancelled).
Proof.
  unfold scan_site_kill.
  apply ko_bind; [apply ko_dict_getitem|intros process].
  apply ko_bind; [|intros args0].
  { unfold list_getitem. destruct (_ !! _); [apply ko_ret|apply ko_raise]. }
  destruct (PyStr.mem args0 _); [|apply ko_ret].
  apply ko_bind; [by apply ko_frame|intros ?].
  apply ko_bind; [apply ko_ret|intros out].
  apply ko_bind; [destruct (_ && _); apply ko_log|intros ?].
  apply ko_bind; [apply ko_dict_pop; intros k Hk; by left|intros ?].
  destruct (String.eqb _ "cancel").
  - apply ko_bind; [by apply ko_frame|intros ?]. apply ko_ret.
  - destruct (String.eqb _ "pause"); apply ko_ret.
Qed.

(** X21: a call of [scan_site] changes [SCAN_PROCESS_DICT] only at the PID
    named by the directive or at a PID that [subprocess.Popen] hands out:
    the entry of every other tracked scan is as it was, whatever the
    outcome of the call. *)
Theorem scan_site_keeps_other_pids env job cfg w k :
  scan_binary_process_id job <> Some k ->
  (forall argv, popen env argv <> Some k) ->
  SCAN_PROCESS_DICT (scan_site env job cfg w).2 !! k = SCAN_PROCESS_DICT w !! k.
Proof.
  intros Hdirective Hpopen.
  assert (Hk : ~ own_pid env job k).
  { intros [H|[argv H]]; [contradiction|by apply (Hpopen argv)]. }
  assert (Hko : keeps_other_pids (own_pid env job) (scan_site env job cfg)).
  { unfold scan_site. apply ko_try.
    - unfold scan_site_body. destruct (PyStr.mem (scan_status job) _).
      + apply ko_bind; [apply ko_log|intros ?].
        apply ko_bind.
        * apply ko_try; [apply ko_scan_site_kill|intros ?].
          apply ko_bind; [apply ko_log|intros ?]. apply ko_ret.
        * intros status. apply ko_bind; [|intros ?].
          { unfold local. destruct status; [apply ko_ret|apply ko_raise]. }
          apply ko_bind; [apply ko_update_scan_information|intros ?]. apply ko_ret.
      + apply ko_bind; [apply ko_scan_site_prepare|intros chosen].
        destruct chosen; [apply ko_supervise|apply ko_ret].
    - intros e. apply ko_bind; [apply ko_log|intros ?].
      apply ko_bind; [apply ko_update_scan_information|intros ?]. apply ko_ret. }
  destruct (scan_site env job cfg w) as [r w'] eqn:H.
  exact (Hko w r w' k H Hk).
Qed.

Lemma scan_site_keeps_other_pids_witness :
  SCAN_PROCESS_DICT
    (scan_site Scenario.env_ok Scenario.job7 Scenario.cfg Scenario.w_other_running).2
    !! 777%Z
  = SCAN_PROCESS_DICT Scenario.w_other_running !! 777%Z.
Proof.
  apply (scan_site_keeps_other_pids Scenario.env_ok Scenario.job7 Scenario.cfg
           Scenario.w_other_running 777%Z); [discriminate|].
  intros argv. cbn. discriminate.
Defined.

(** ** The order of the events of a completed scan *)

(** X22: in a scan that ends with exit code 0 the events come in this
    order: the child is started, the [started] update is sent, the child is
    waited for, and only then the [completed] update is sent; before the
    start there are only log records. *)
Theorem scan_site_completed_order env job cfg w command w1 child s1 b1 s2 b2 files' :
  PyStr.mem (scan_status job) ["pause"; "cancel"] = false ->
  scan_site_prepare job cfg w = (Val (Some command), w1) ->
  popen env (PyStr.split_ws command) = Some child ->
  urlopen env (requests w) = UrlResponse s1 b1 ->
  urlopen env (S (requests w)) = UrlResponse s2 b2 ->
  child_exit env child (fs w1) = (0%Z, files') ->
  exists logs,
    forallb is_log logs = true
    /\ new_events w (scan_site env job cfg w).2
       = logs
         ++ [EvSpawn (PyStr.split_ws command) child;
             EvLog INFO (MsgStartingScan (site_name job) child command)]
         ++ update_events cfg job
              [("scan_status", VStr "started"); ("scan_binary_process_id", VInt child)]
              (UrlResponse s1 b1)
         ++ [EvWait child 0]
         ++ update_events cfg job
              [("completed_time", VStr (now env)); ("scan_status", VStr "completed");
               ("result_file_base_name", VStr (result_file_base_name job))]
              (UrlResponse s2 b2).
Proof.
  intros Hdir Hprep Hpopen Hurl1 Hurl2 Hexit.
  destruct (scan_site_prepare_frame job cfg w) as (files & l & Hw1 & Hlog).
  rewrite Hprep in Hw1. cbn [snd] in Hw1.
  assert (Hreq : requests w1 = requests w) by (rewrite Hw1; reflexivity).
  rewrite <- Hreq in Hurl1, Hurl2.
  pose proof (supervise_exit_zero_run env job cfg command
                (os_path_join (scan_results_dir cfg) "pending")
                (os_path_join (scan_results_dir cfg) "complete")
                w1 child s1 b1 files' Hpopen Hurl1 Hexit) as Hrun.
  cbn zeta in Hrun. rewrite Hurl2 in Hrun. cbn [update_result] in Hrun.
  pose proof (scan_site_body_supervise env job cfg w command w1 Hdir Hprep) as Hbody.
  rewrite Hrun in Hbody. unfold scan_site.
  rewrite (py_try_val _ _ _ _ _ _ Hbody).
  exists l. split; [exact Hlog|].
  unfold new_events. cbn [snd trace set_SCAN_PROCESS_DICT set_fs extend].
  rewrite Hw1. cbn [trace extend set_fs].
  rewrite <- !app_assoc, drop_app_length. reflexivity.
Qed.

Lemma scan_site_completed_order_witness :
  exists logs,
    forallb is_log logs = true
    /\ new_events Scenario.w0
         (scan_site Scenario.env_ok Scenario.job7 Scenario.cfg Scenario.w0).2
       = logs
         ++ [EvSpawn
               (PyStr.split_ws
                  "masscan -p80 --rate 1000 -iL /t/job7.targets -oJ /r/pending/job7.json --http-user-agent ua")
               4242;
             EvLog INFO
               (MsgStartingScan (site_name Scenario.job7) 4242
                  "masscan -p80 --rate 1000 -iL /t/job7.targets -oJ /r/pending/job7.json --http-user-agent ua")]
         ++ update_events Scenario.cfg Scenario.job7
              [("scan_status", VStr "started"); ("scan_binary_process_id", VInt 4242)]
              (UrlResponse 200 "[]")
         ++ [EvWait 4242 0]
         ++ update_events Scenario.cfg Scenario.job7
              [("completed_time", VStr (now Scenario.env_ok));
               ("scan_status", VStr "completed");
               ("result_file_base_name", VStr (result_file_base_name Scenario.job7))]
              (UrlResponse 200 "[]").
Proof.
  apply (scan_site_completed_order Scenario.env_ok Scenario.job7 Scenario.cfg Scenario.w0
           "masscan -p80 --rate 1000 -iL /t/job7.targets -oJ /r/pending/job7.json --http-user-agent ua"
           (set_fs {[ "/t/job7.targets" := "10.0.0.0/24" ]} Scenario.w0)
           4242 200 "[]" 200 "[]" {[ "/t/job7.targets" := "10.0.0.0/24" ]});
    [reflexivity | vm_compute; reflexivity | reflexivity | reflexivity | reflexivity
    | vm_compute; reflexivity].
Defined.
